(** * Epic status synchronisation pipeline (epic_status.py)

    A shallow embedding of the pipeline that copies a Jira epic and its
    child issues into one Confluence page, with a commentary obtained from
    the DeepSeek endpoint.

    Conventions of the embedding.
    - A Python [str] is the [string] of its UTF-8 bytes.  Code-point order
      and byte order agree on UTF-8, so comparisons are the byte-wise ones;
      slicing counts code points ([take_chars]).
    - The values the program handles are the ones [response.json()] and the
      configuration file give: [None], [bool], [int], [str], [list] and
      [dict] with string keys ([pyval]).  Numbers are integers.
    - A call either returns or raises: [result].  Calls that touch the
      network or the file system run in [M], which threads the [state]
      (the requests sent so far, the presence of requirements.txt) and
      keeps it when an exception is raised, as Python does.
    - What lies outside the repository is a parameter of the model: the
      HTTP peers ([server]), [markdown.markdown], [str.lower], the [repr]
      of containers, the wall clock and the installed distributions.
    - The join call that builds [tasks_text] in [analyze_with_deepseek]
      lacks its closing parenthesis in the source; the embedding closes it
      after the generator expression, where the indentation puts it. *)

From Stdlib Require Import String Ascii List ZArith Bool Lia DecimalString.
From Stdlib Require Import Permutation Sorted.
Import ListNotations.
Open Scope string_scope.
Set Warnings "-register-all".

(** ** Python values, exceptions and results *)

Inductive pyval : Type :=
| VNone
| VBool (b : bool)
| VInt (z : Z)
| VStr (s : string)
| VList (l : list pyval)
| VDict (kvs : list (string * pyval)).

Inductive exn : Type :=
| NameError (name : string)
| KeyError
| TypeError
| AttributeError
| IndexError
| ImportError
| OSError
| RequestException   (* requests.exceptions.RequestException and subclasses *)
| ConnectionError    (* the builtin, raised by the stages themselves *)
| SystemExit (code : Z)
| OtherException.    (* whatever else a library call may raise *)

(** [except Exception] catches everything but [SystemExit]. *)
Definition is_Exception (e : exn) : bool :=
  match e with SystemExit _ => false | _ => true end.

Definition is_RequestException (e : exn) : bool :=
  match e with RequestException => true | _ => false end.

Definition is_ImportError (e : exn) : bool :=
  match e with ImportError => true | _ => false end.

Inductive result (A : Type) : Type :=
| Ok (a : A)
| Raise (e : exn)
| OutOfFuel.          (* the model of a [while True] ran out of steps *)

Arguments Ok {A} a.
Arguments Raise {A} e.
Arguments OutOfFuel {A}.

Definition rbind {A B} (r : result A) (k : A -> result B) : result B :=
  match r with
  | Ok a => k a
  | Raise e => Raise e
  | OutOfFuel => OutOfFuel
  end.

Declare Scope py_scope.
Delimit Scope py_scope with py.
Notation "'let?' x ':=' c 'in' k" := (rbind c (fun x => k))
  (at level 10, x name, c at level 100, k at level 200) : py_scope.
Open Scope py_scope.

Fixpoint mapR {A B} (f : A -> result B) (l : list A) : result (list B) :=
  match l with
  | [] => Ok []
  | x :: xs => let? y := f x in let? ys := mapR f xs in Ok (y :: ys)
  end.

(** ** Strings *)

Definition dq : string := String (ascii_of_nat 34) "".
Definition nl : string := String (ascii_of_nat 10) "".
Definition quoted (s : string) : string := dq ++ s ++ dq.

(** [sub in s] on strings. *)
Fixpoint contains (sub s : string) : bool :=
  if prefix sub s then true
  else match s with
       | EmptyString => false
       | String _ rest => contains sub rest
       end.

(** Occurrence of one character. *)
Fixpoint occurs (c : ascii) (s : string) : bool :=
  match s with
  | EmptyString => false
  | String a rest => Ascii.eqb a c || occurs c rest
  end.

(** [s.replace(c, new)] for a one-character [c], the only form the program
    uses. *)
Fixpoint replace_char (c : ascii) (new s : string) : string :=
  match s with
  | EmptyString => EmptyString
  | String a rest =>
      if Ascii.eqb a c then new ++ replace_char c new rest
      else String a (replace_char c new rest)
  end.

Definition amp_char : ascii := ascii_of_nat 38.
Definition lt_char : ascii := ascii_of_nat 60.
Definition gt_char : ascii := ascii_of_nat 62.
Definition dq_char : ascii := ascii_of_nat 34.
Definition sq_char : ascii := ascii_of_nat 39.
Definition nl_char : ascii := ascii_of_nat 10.

(** html.escape(s, quote=True): the ampersand first, then the rest. *)
Definition escape_str (s : string) : string :=
  let s := replace_char amp_char "&amp;" s in
  let s := replace_char lt_char "&lt;" s in
  let s := replace_char gt_char "&gt;" s in
  let s := replace_char dq_char "&quot;" s in
  replace_char sq_char "&#x27;" s.

(** A byte that continues a UTF-8 sequence: 10xxxxxx. *)
Definition is_continuation (a : ascii) : bool :=
  let n := nat_of_ascii a in (128 <=? n)%nat && (n <? 192)%nat.

(** [s[:n]]: the first [n] code points. *)
Fixpoint take_chars (n : nat) (s : string) : string :=
  match s with
  | EmptyString => EmptyString
  | String a rest =>
      if is_continuation a then String a (take_chars n rest)
      else match n with
           | O => EmptyString
           | S n' => String a (take_chars n' rest)
           end
  end.

(** The code points of a string, each as the string of its bytes. *)
Definition starts_with_continuation (s : string) : bool :=
  match s with
  | EmptyString => false
  | String b _ => is_continuation b
  end.

Fixpoint code_points (s : string) : list string :=
  match s with
  | EmptyString => []
  | String a rest =>
      if starts_with_continuation rest then
        match code_points rest with
        | c :: cs => String a c :: cs
        | [] => [String a ""]
        end
      else String a "" :: code_points rest
  end.

Fixpoint join (sep : string) (l : list string) : string :=
  match l with
  | [] => ""
  | [x] => x
  | x :: xs => x ++ sep ++ join sep xs
  end.

Definition str_of_nat (n : nat) : string := NilZero.string_of_uint (Nat.to_uint n).
Definition str_of_Z (z : Z) : string := NilZero.string_of_int (Z.to_int z).

(** ** Operations on values *)

Fixpoint assoc (k : string) (kvs : list (string * pyval)) : option pyval :=
  match kvs with
  | [] => None
  | (k', v) :: rest => if String.eqb k k' then Some v else assoc k rest
  end.

(** [d.get(k, default)] *)
Definition py_get (d : pyval) (k : string) (default : pyval) : result pyval :=
  match d with
  | VDict kvs => Ok (match assoc k kvs with Some v => v | None => default end)
  | _ => Raise AttributeError
  end.

(** [d[k]] for a string [k] *)
Definition subscript (d : pyval) (k : string) : result pyval :=
  match d with
  | VDict kvs => match assoc k kvs with Some v => Ok v | None => Raise KeyError end
  | _ => Raise TypeError
  end.

(** [x[0]] *)
Definition index0 (x : pyval) : result pyval :=
  match x with
  | VList (v :: _) => Ok v
  | VList [] => Raise IndexError
  | VStr s => match code_points s with
              | c :: _ => Ok (VStr c)
              | [] => Raise IndexError
              end
  | VDict _ => Raise KeyError
  | _ => Raise TypeError
  end.

(** [x[:10]]; a slice is hashable since Python 3.12, which the f-strings
    of the program need, so a dict answers KeyError. *)
Definition slice10 (x : pyval) : result pyval :=
  match x with
  | VStr s => Ok (VStr (take_chars 10 s))
  | VList l => Ok (VList (firstn 10 l))
  | VDict _ => Raise KeyError
  | _ => Raise TypeError
  end.

(** Truth value of an object, as [if x:] tests it. *)
Definition truthy (x : pyval) : bool :=
  match x with
  | VNone => false
  | VBool b => b
  | VInt z => negb (z =? 0)%Z
  | VStr s => negb (String.eqb s "")
  | VList l => match l with [] => false | _ => true end
  | VDict kvs => match kvs with [] => false | _ => true end
  end.

(** [int] view of a number; [bool] is a subclass of [int]. *)
Definition as_int (x : pyval) : result Z :=
  match x with
  | VInt z => Ok z
  | VBool b => Ok (if b then 1 else 0)%Z
  | _ => Raise TypeError
  end.

(** [html.escape(x)]: the first thing it does is [x.replace]. *)
Definition escape (x : pyval) : result string :=
  match x with
  | VStr s => Ok (escape_str s)
  | _ => Raise AttributeError
  end.

(** Iteration, as [list.extend(x)] does it. *)
Definition iterate (x : pyval) : result (list pyval) :=
  match x with
  | VList l => Ok l
  | VDict kvs => Ok (map (fun kv => VStr (fst kv)) kvs)
  | VStr s => Ok (map VStr (code_points s))
  | _ => Raise TypeError
  end.

(** ** The network, the host and the module namespace *)

Record request : Type := {
  method : string;
  url : pyval;
  auth : option (pyval * pyval);
  headers : list (string * string);
  json_body : option pyval;
  timeout : Z
}.

Inductive reply : Type :=
| NoReply                                         (* transport failure, timeout *)
| Response (status : Z) (payload : option pyval). (* [None]: the body is not JSON *)

(** The statuses [raise_for_status] rejects. *)
Definition error_status (code : Z) : bool := ((400 <=? code) && (code <? 600))%Z.

(** A request fails when nothing comes back, when the status is an error,
    or when the body cannot be decoded: the cases in which requests raises. *)
Definition is_failure (r : reply) : bool :=
  match r with
  | NoReply => true
  | Response code payload =>
      error_status code || match payload with None => true | Some _ => false end
  end.

(** What the program calls and does not define.  [server] answers a request
    given the requests it has received before. *)
Class Host : Type := {
  server : list request -> request -> reply;
  markdown : string -> string;
  lower : string -> string;
  repr_container : pyval -> string;
  sorted_by_list_keys : list (pyval * pyval) -> option (list pyval);
  strftime : string;
  import_guard : bool;                              (* the imports of [main] succeed *)
  import_module : string -> bool;                   (* [false]: ImportError *)
  distribution_version : string -> option string;   (* [None]: not installed *)
  version_lt : string -> string -> option bool;     (* [None]: not a version *)
  can_write : bool                                  (* requirements.txt can be written *)
}.

Record state : Type := {
  sent : list request;
  requirements_txt : bool
}.

Definition M (A : Type) : Type := state -> result A * state.

Definition ret {A} (a : A) : M A := fun st => (Ok a, st).

Definition lift {A} (r : result A) : M A := fun st => (r, st).

Definition raise {A} (e : exn) : M A := lift (Raise e).

Definition bind {A B} (c : M A) (k : A -> M B) : M B := fun st =>
  match c st with
  | (Ok a, st') => k a st'
  | (Raise e, st') => (Raise e, st')
  | (OutOfFuel, st') => (OutOfFuel, st')
  end.

(** [try: c  except <catches> as e: handler e] *)
Definition try_except {A} (c : M A) (catches : exn -> bool) (handler : exn -> M A) : M A :=
  fun st =>
    match c st with
    | (Raise e, st') => if catches e then handler e st' else (Raise e, st')
    | other => other
    end.

Notation "x <- c ;; k" := (bind c (fun x => k))
  (at level 61, c at next level, right associativity) : py_scope.
Notation "c ;; k" := (bind c (fun _ => k))
  (at level 61, right associativity) : py_scope.

(** A name bound at module level holds a value or something that is not
    data (a module, a function, a class). *)
Inductive pyobj : Type :=
| Val (v : pyval)
| Opaque.

Definition namespace : Type := list (string * pyobj).

Fixpoint lookup_name (name : string) (G : namespace) : option pyobj :=
  match G with
  | [] => None
  | (n, o) :: rest => if String.eqb name n then Some o else lookup_name name rest
  end.

(** The names the module binds when it is loaded: its imports, [logger] and
    its functions.  Nothing else is assigned at top level, and no function
    has a [global] statement.  A name a function uses and does not bind
    itself is looked up here and then among the builtins, which hold none
    of [CONFIG], [importlib], [pkg_resources]. *)
Definition module_namespace : namespace :=
  map (fun n => (n, Opaque))
    ["requests"; "HTTPBasicAuth"; "json"; "time"; "Dict"; "List"; "Optional";
     "Any"; "markdown"; "escape"; "logging"; "os"; "sys"; "logger";
     "check_dependencies"; "create_default_requirements"; "load_config";
     "get_epic_info"; "get_jira_issues"; "analyze_with_deepseek";
     "find_confluence_page"; "update_confluence_page"; "generate_content";
     "main"].

(** ** Static text of the report *)

Definition styles : string := "
    <style>
        .task-table {
            width: 100%;
            border-collapse: collapse;
            margin-bottom: 20px;
        }
        .task-table th, .task-table td {
            border: 1px solid #ddd;
            padding: 8px;
            vertical-align: top;
        }
        .task-table th {
            background-color: #f2f2f2;
            text-align: left;
        }
        .task-description {
            margin-top: 5px;
            color: #555;
            font-size: 0.9em;
        }
        .task-type {
            display: inline-block;
            padding: 2px 5px;
            border-radius: 3px;
            font-size: 0.8em;
            margin-right: 5px;
        }
        .task-priority {
            display: inline-block;
            padding: 2px 5px;
            border-radius: 3px;
            font-size: 0.8em;
        }
        .analysis-block {
            background-color: #f8f9fa;
            padding: 15px;
            border-radius: 5px;
            margin: 20px 0;
            border-left: 4px solid #4285f4;
        }
        .status-done { color: #4CAF50; font-weight: bold; }
        .status-inprogress { color: #2196F3; font-weight: bold; }
        .status-open { color: #9E9E9E; font-weight: bold; }
        .priority-high { background-color: #FFCDD2; color: #C62828; }
        .priority-medium { background-color: #FFF9C4; color: #F9A825; }
        .priority-low { background-color: #C8E6C9; color: #388E3C; }
    </style>
    ".

Definition header_template (key summary description : string) : string :=
  "
    <h1>Статус эпика: " ++ key ++ " - " ++ summary ++ "</h1>
    <div class=" ++ dq ++ "task-description" ++ dq ++ ">" ++ description ++ "</div>
    ".

Definition table_head : string :=
  "
    <h2>Задачи</h2>
    <table class=" ++ dq ++ "task-table" ++ dq ++ ">
        <tr>
            <th style=" ++ dq ++ "width: 10%" ++ dq ++ ">Ключ</th>
            <th style=" ++ dq ++ "width: 45%" ++ dq ++ ">Детали</th>
            <th style=" ++ dq ++ "width: 15%" ++ dq ++ ">Статус</th>
            <th style=" ++ dq ++ "width: 15%" ++ dq ++ ">Исполнитель</th>
            <th style=" ++ dq ++ "width: 15%" ++ dq ++ ">Обновлено</th>
        </tr>
    ".

Definition row_template
  (jira_url key issue_type priority_class priority summary description
   status_class status assignee updated : string) : string :=
  "
        <tr>
            <td><a href=" ++ dq ++ jira_url ++ "/browse/" ++ key ++ dq ++ " target=" ++ dq ++ "_blank" ++ dq ++ ">" ++ key ++ "</a></td>
            <td>
                <div>
                    <span class=" ++ dq ++ "task-type" ++ dq ++ ">" ++ issue_type ++ "</span>
                    <span class=" ++ dq ++ priority_class ++ dq ++ ">" ++ priority ++ "</span>
                </div>
                <strong>" ++ summary ++ "</strong>
                <div class=" ++ dq ++ "task-description" ++ dq ++ ">" ++ description ++ "</div>
            </td>
            <td class=" ++ dq ++ status_class ++ dq ++ ">" ++ status ++ "</td>
            <td>" ++ assignee ++ "</td>
            <td>" ++ updated ++ "</td>
        </tr>
        ".

Definition analysis_template (text : string) : string :=
  "
    <div class=" ++ dq ++ "analysis-block" ++ dq ++ ">
        <h2>Анализ выполнения</h2>
        " ++ text ++ "
    </div>
    ".

Definition footer_template (last_update : string) : string :=
  "
    <div style=" ++ dq ++ "margin-top: 30px; color: #777; font-size: 0.9em;" ++ dq ++ ">
        <p>Последнее обновление: " ++ last_update ++ "</p>
        <p>Страница автоматически сгенерирована</p>
    </div>
    ".

Definition prompt_template (epic_summary tasks_text : string) : string :=
  "Проанализируй задачи из эпика " ++ dq ++ epic_summary ++ dq ++ ":
            " ++ tasks_text ++ "
            
            Предоставь детальный анализ:
            1. Общий прогресс (%)
            2. Критические проблемы/блокеры
            3. Не назначенные задачи
            4. Рекомендации по приоритизации
            5. Оценка рисков".

Definition placeholder : string := "Анализ временно недоступен".

(** ** Sorting, as [sorted(all_issues, key=..., reverse=True)] *)

(** Stable insertion into a list kept in descending key order: [x] comes
    from further left in the input than everything in [l], so it goes
    before the elements whose key equals its own. *)
Fixpoint insert_desc {K} (ltb : K -> K -> bool) (x : K * pyval) (l : list (K * pyval))
  : list (K * pyval) :=
  match l with
  | [] => [x]
  | y :: ys => if ltb (fst x) (fst y) then y :: insert_desc ltb x ys else x :: y :: ys
  end.

Definition sort_desc {K} (ltb : K -> K -> bool) (l : list (K * pyval)) : list (K * pyval) :=
  fold_right (insert_desc ltb) [] l.

(** Descending order of the keys: the left one is not below the right one. *)
Definition desc {K} (ltb : K -> K -> bool) (p q : K * pyval) : Prop :=
  ltb (fst p) (fst q) = false.

Fixpoint str_keys (ks : list pyval) : option (list string) :=
  match ks with
  | [] => Some []
  | VStr s :: rest => option_map (cons s) (str_keys rest)
  | _ => None
  end.

Fixpoint int_keys (ks : list pyval) : option (list Z) :=
  match ks with
  | [] => Some []
  | VInt z :: rest => option_map (cons z) (int_keys rest)
  | VBool b :: rest => option_map (cons (if b then 1 else 0)%Z) (int_keys rest)
  | _ => None
  end.

Definition is_list (v : pyval) : bool :=
  match v with VList _ => true | _ => false end.

(** [lambda x: x.get("fields", {}).get("updated", "")] *)
Definition updated_key (x : pyval) : result pyval :=
  let? fields := py_get x "fields" (VDict []) in
  py_get fields "updated" (VStr "").

Section Pipeline.

Context {H : Host}.
Variable G : namespace.

(** The keys are computed first, then compared.  Strings compare with
    strings and numbers with numbers; a sort of two or more items whose
    keys are of one of these kinds returns the one stable descending
    arrangement, whatever comparisons the library makes.  Keys that are all
    lists are left to [sorted_by_list_keys]; any other mix meets a
    comparison that raises TypeError. *)
Definition sorted_by_updated_desc (items : list pyval) : result (list pyval) :=
  let? ks := mapR updated_key items in
  match items with
  | [] | [_] => Ok items
  | _ =>
      match str_keys ks, int_keys ks with
      | Some ss, _ => Ok (map snd (sort_desc String.ltb (combine ss items)))
      | None, Some zs => Ok (map snd (sort_desc Z.ltb (combine zs items)))
      | None, None =>
          if forallb is_list ks then
            match sorted_by_list_keys (combine ks items) with
            | Some l => Ok l
            | None => Raise TypeError
            end
          else Raise TypeError
      end
  end.

(** ** Names, formatting, requests *)

Definition load_CONFIG : result pyval :=
  match lookup_name "CONFIG" G with
  | Some (Val v) => Ok v
  | Some Opaque => Raise TypeError
  | None => Raise (NameError "CONFIG")
  end.

(** [CONFIG[a][b]] *)
Definition CONFIG2 (a b : string) : result pyval :=
  let? c := load_CONFIG in
  let? section := subscript c a in
  subscript section b.

(** [module.attribute] for a module the function expects as a global. *)
Definition module_attr (name : string) : result unit :=
  match lookup_name name G with
  | Some Opaque => Ok tt
  | Some (Val _) => Raise AttributeError
  | None => Raise (NameError name)
  end.

(** [str(x)], which is what an f-string field without format gives. *)
Definition py_str (x : pyval) : string :=
  match x with
  | VNone => "None"
  | VBool true => "True"
  | VBool false => "False"
  | VInt z => str_of_Z z
  | VStr s => s
  | VList _ | VDict _ => repr_container x
  end.

Definition http (req : request) : M (Z * option pyval) := fun st =>
  let st' := {| sent := (sent st ++ [req])%list; requirements_txt := requirements_txt st |} in
  match server (sent st) req with
  | NoReply => (Raise RequestException, st')
  | Response code payload => (Ok (code, payload), st')
  end.

Definition raise_for_status (response : Z * option pyval) : M unit :=
  if error_status (fst response) then raise RequestException else ret tt.

(** [response.json()]; requests raises its own JSONDecodeError, a
    RequestException. *)
Definition response_json (response : Z * option pyval) : M pyval :=
  match snd response with
  | Some v => ret v
  | None => raise RequestException
  end.

Definition basic_auth (kind : string) : result (pyval * pyval) :=
  let? user := CONFIG2 kind "api_user" in
  let? token := CONFIG2 kind "api_token" in
  Ok (user, token).

(** ** Tracker *)

Definition epic_url (base epic_key : pyval) : string :=
  py_str base ++ "/rest/api/3/issue/" ++ py_str epic_key ++ "?fields=summary,description".

Definition epic_request (base epic_key : pyval) (credentials : pyval * pyval) : request :=
  {| method := "GET"; url := VStr (epic_url base epic_key); auth := Some credentials;
     headers := []; json_body := None; timeout := 30 |}.

Definition get_epic_info (epic_key : pyval) : M pyval :=
  base <- lift (CONFIG2 "jira" "url") ;;
  try_except
    (credentials <- lift (basic_auth "jira") ;;
     response <- http (epic_request base epic_key credentials) ;;
     raise_for_status response ;;
     body <- response_json response ;;
     fields <- lift (py_get body "fields" (VDict [])) ;;
     summary <- lift (py_get fields "summary" (VStr "")) ;;
     description <- lift (py_get fields "description" (VStr "")) ;;
     ret (VDict [("key", epic_key); ("summary", summary); ("description", description)]))
    is_RequestException
    (fun _ => raise ConnectionError).

Definition jql (epic_key : pyval) : string :=
  dq ++ "Epic Link" ++ dq ++ " = " ++ py_str epic_key ++ " OR "
     ++ dq ++ "Parent Link" ++ dq ++ " = " ++ py_str epic_key.

Definition issue_fields : string :=
  "summary,status,assignee,updated,description,comment,issuetype,priority".

Definition max_results : Z := 100.

Definition search_url (base epic_key : pyval) (start_at : Z) : string :=
  py_str base ++ "/rest/api/3/search?jql=" ++ jql epic_key ++ "&fields=" ++ issue_fields
    ++ "&startAt=" ++ str_of_Z start_at ++ "&maxResults=" ++ str_of_Z max_results.

Definition search_request (base epic_key : pyval) (credentials : pyval * pyval)
  (start_at : Z) : request :=
  {| method := "GET"; url := VStr (search_url base epic_key start_at);
     auth := Some credentials; headers := []; json_body := None; timeout := 30 |}.

(** [start_at + max_results >= total] *)
Definition reached (upto : Z) (total : pyval) : result bool :=
  let? n := as_int total in Ok (n <=? upto)%Z.

(** One turn of the [while True]: the page is appended, and the flag tells
    whether the loop breaks. *)
Definition fetch_page (epic_key : pyval) (start_at : Z) (all_issues : list pyval)
  : M (list pyval * bool) :=
  base <- lift (CONFIG2 "jira" "url") ;;
  try_except
    (credentials <- lift (basic_auth "jira") ;;
     response <- http (search_request base epic_key credentials start_at) ;;
     raise_for_status response ;;
     data <- response_json response ;;
     issues <- lift (let? x := py_get data "issues" (VList []) in iterate x) ;;
     total <- lift (py_get data "total" (VInt 0)) ;;
     stop <- lift (reached (start_at + max_results) total) ;;
     ret ((all_issues ++ issues)%list, stop))
    is_RequestException
    (fun _ => raise ConnectionError).

Fixpoint fetch_pages (fuel : nat) (epic_key : pyval) (start_at : Z)
  (all_issues : list pyval) : M (list pyval) :=
  match fuel with
  | O => lift OutOfFuel
  | S fuel' =>
      turn <- fetch_page epic_key start_at all_issues ;;
      if snd turn then ret (fst turn)
      else fetch_pages fuel' epic_key (start_at + max_results) (fst turn)
  end.

Definition get_jira_issues (fuel : nat) (epic_key : pyval) : M (list pyval) :=
  all_issues <- fetch_pages fuel epic_key 0 [] ;;
  lift (sorted_by_updated_desc all_issues).

(** ** Summarizer *)

(** One line of the digest, for the item at position [i] of
    [enumerate(issues[:50])]. *)
Definition digest_line (i : nat) (issue : pyval) : result string :=
  let? key := py_get issue "key" (VStr "N/A") in
  let? fields := py_get issue "fields" (VDict []) in
  let? issuetype := py_get fields "issuetype" (VDict []) in
  let? type_name := py_get issuetype "name" (VStr "N/A") in
  let? summary := py_get fields "summary" (VStr "N/A") in
  let? status := py_get fields "status" (VDict []) in
  let? status_name := py_get status "name" (VStr "N/A") in
  let? priority := py_get fields "priority" (VDict []) in
  let? priority_name := py_get priority "name" (VStr "N/A") in
  Ok (str_of_nat (i + 1) ++ ". " ++ py_str key ++ " (" ++ py_str type_name ++ "): "
        ++ py_str summary ++ " (Status: " ++ py_str status_name
        ++ ", Priority: " ++ py_str priority_name ++ ")").

Fixpoint digest_lines (i : nat) (issues : list pyval) : result (list string) :=
  match issues with
  | [] => Ok []
  | issue :: rest =>
      let? line := digest_line i issue in
      let? lines := digest_lines (S i) rest in
      Ok (line :: lines)
  end.

Definition tasks_text (issues : list pyval) : result string :=
  let? lines := digest_lines 0 (firstn 50 issues) in
  Ok (join nl lines).

Definition prompt (model : pyval) (epic_summary : pyval) (text : string) : pyval :=
  VDict [("model", model);
         ("messages",
          VList [VDict [("role", VStr "user");
                        ("content", VStr (prompt_template (py_str epic_summary) text))]])].

Definition deepseek_headers (api_key : pyval) : list (string * string) :=
  [("Authorization", "Bearer " ++ py_str api_key);
   ("Content-Type", "application/json")].

Definition deepseek_request (api_key model api_url epic_summary : pyval) (text : string)
  : request :=
  {| method := "POST"; url := api_url; auth := None;
     headers := deepseek_headers api_key;
     json_body := Some (prompt model epic_summary text); timeout := 60 |}.

(** [data.get("choices", [{}])[0].get("message", {}).get("content", ...)] *)
Definition choice_content (data : pyval) : result pyval :=
  let? choices := py_get data "choices" (VList [VDict []]) in
  let? first := index0 choices in
  let? message := py_get first "message" (VDict []) in
  py_get message "content" (VStr "Анализ недоступен").

Definition analyze_with_deepseek (issues : list pyval) (epic_summary : pyval) : M pyval :=
  api_key <- lift (CONFIG2 "deepseek" "api_key") ;;
  text <- lift (tasks_text issues) ;;
  model <- lift (CONFIG2 "deepseek" "model") ;;
  try_except
    (api_url <- lift (CONFIG2 "deepseek" "api_url") ;;
     response <- http (deepseek_request api_key model api_url epic_summary text) ;;
     raise_for_status response ;;
     data <- response_json response ;;
     lift (choice_content data))
    is_RequestException
    (fun _ => ret (VStr placeholder)).

(** ** Publisher *)

Definition lookup_title (epic_key : pyval) : string :=
  "Статус эпика " ++ py_str epic_key.

Definition find_url (base space_key epic_key : pyval) : string :=
  py_str base ++ "/rest/api/content?spaceKey=" ++ py_str space_key
    ++ "&title=" ++ lookup_title epic_key.

Definition find_request (base space_key epic_key : pyval) (credentials : pyval * pyval)
  : request :=
  {| method := "GET"; url := VStr (find_url base space_key epic_key);
     auth := Some credentials; headers := []; json_body := None; timeout := 30 |}.

Definition find_confluence_page (epic_key : pyval) : M pyval :=
  base <- lift (CONFIG2 "confluence" "url") ;;
  space_key <- lift (CONFIG2 "confluence" "space_key") ;;
  try_except
    (credentials <- lift (basic_auth "confluence") ;;
     response <- http (find_request base space_key epic_key credentials) ;;
     raise_for_status response ;;
     data <- response_json response ;;
     results <- lift (py_get data "results" (VList [])) ;;
     if truthy results then lift (index0 results) else ret VNone)
    is_RequestException
    (fun _ => raise ConnectionError).

Definition page_title (key summary : pyval) : string :=
  "Статус эпика " ++ py_str key ++ " - " ++ py_str summary.

Definition page_data (title content : string) : list (string * pyval) :=
  [("type", VStr "page");
   ("title", VStr title);
   ("body", VDict [("storage", VDict [("value", VStr content);
                                      ("representation", VStr "storage")])])].

(** Method, URL and payload of the write: the statements of
    [update_confluence_page] up to its [try]. *)
Definition update_request (existing_page : pyval) (content : string) (epic_info : pyval)
  : result request :=
  let? key := subscript epic_info "key" in
  let? summary := subscript epic_info "summary" in
  let title := page_title key summary in
  let? api_url := CONFIG2 "confluence" "url" in
  let? credentials := basic_auth "confluence" in
  let data := page_data title content in
  if truthy existing_page then
    let? id := subscript existing_page "id" in
    let? version := subscript existing_page "version" in
    let? number := subscript version "number" in
    let? n := as_int number in
    Ok {| method := "PUT";
          url := VStr (py_str api_url ++ "/rest/api/content/" ++ py_str id);
          auth := Some credentials;
          headers := [("Content-Type", "application/json")];
          json_body := Some (VDict (data ++ [("version", VDict [("number", VInt (n + 1))])])%list);
          timeout := 30 |}
  else
    let? space_key := CONFIG2 "confluence" "space_key" in
    Ok {| method := "POST";
          url := VStr (py_str api_url ++ "/rest/api/content");
          auth := Some credentials;
          headers := [("Content-Type", "application/json")];
          json_body := Some (VDict (data ++ [("space", VDict [("key", space_key)])])%list);
          timeout := 30 |}.

Definition update_confluence_page (existing_page : pyval) (content : string)
  (epic_info : pyval) : M pyval :=
  req <- lift (update_request existing_page content epic_info) ;;
  try_except
    (response <- http req ;;
     raise_for_status response ;;
     response_json response)
    is_RequestException
    (fun _ => raise ConnectionError).

(** ** Renderer *)

Definition status_class (status : string) : string :=
  if contains "готов" (lower status) then "status-done"
  else if contains "прогрес" (lower status) then "status-inprogress"
  else "status-open".

Definition priority_class (priority : string) : string :=
  if contains "высок" (lower priority) then "priority-high"
  else if contains "средн" (lower priority) then "priority-medium"
  else "priority-low".

(** [fields.get(what, {}).get("name", "N/A")] *)
Definition name_of (fields : pyval) (what : string) : result pyval :=
  let? x := py_get fields what (VDict []) in
  py_get x "name" (VStr "N/A").

Definition assignee_of (fields : pyval) : result string :=
  let? test := py_get fields "assignee" VNone in
  if truthy test then
    let? a := py_get fields "assignee" (VDict []) in
    let? display := py_get a "displayName" (VStr "Не назначен") in
    escape display
  else Ok "Не назначен".

(** The body of the [for issue in issues] loop: the text added to
    [tasks_table]. *)
Definition render_row (issue : pyval) : result string :=
  let? fields := py_get issue "fields" (VDict []) in
  let? key := py_get issue "key" (VStr "N/A") in
  let? summary_raw := py_get fields "summary" (VStr "N/A") in
  let? summary := escape summary_raw in
  let? status_raw := name_of fields "status" in
  let? status := escape status_raw in
  let? type_raw := name_of fields "issuetype" in
  let? issue_type := escape type_raw in
  let? priority_raw := name_of fields "priority" in
  let? priority := escape priority_raw in
  let? assignee := assignee_of fields in
  let? updated_raw := py_get fields "updated" (VStr "") in
  let? updated_cut := slice10 updated_raw in
  let? updated := escape updated_cut in
  let? description_raw := py_get fields "description" (VStr "") in
  let? description := escape description_raw in
  let? jira_url := CONFIG2 "jira" "url" in
  Ok (row_template (py_str jira_url) (py_str key) issue_type
        (priority_class priority) priority summary
        (if String.eqb description "" then "Нет описания" else markdown description)
        (status_class status) status assignee updated).

(** The loop, with [tasks_table] as its accumulator. *)
Fixpoint render_rows (issues : list pyval) (tasks_table : string) : result string :=
  match issues with
  | [] => Ok tasks_table
  | issue :: rest =>
      let? row := render_row issue in
      render_rows rest (tasks_table ++ row)
  end.

(** [analysis.replace('\n', '<br>')] *)
Definition break_lines (analysis : pyval) : result string :=
  match analysis with
  | VStr s => Ok (replace_char nl_char "<br>" s)
  | _ => Raise AttributeError
  end.

(** [last_update] is what [time.strftime] returned when the function
    started. *)
Definition generate_content (last_update : string) (issues : list pyval)
  (analysis epic_info : pyval) : result string :=
  let? key_raw := subscript epic_info "key" in
  let? key := escape key_raw in
  let? summary_raw := subscript epic_info "summary" in
  let? summary := escape summary_raw in
  let? description_raw := py_get epic_info "description" (VStr "Описание отсутствует") in
  let? description := escape description_raw in
  let header := header_template key summary (markdown description) in
  let? rows := render_rows issues table_head in
  let tasks_table := rows ++ "</table>" in
  let? text := break_lines analysis in
  let analysis_block := analysis_template text in
  let footer := footer_template last_update in
  Ok (styles ++ header ++ tasks_table ++ analysis_block ++ footer).

(** ** Start-up checks and orchestration *)

Definition required : list (string * (string * string)) :=
  [("requests", ("2.31.0", "HTTP-запросы к API"));
   ("markdown", ("3.4.4", "Преобразование Markdown в HTML"));
   ("python-dotenv", ("1.0.0", "Загрузка переменных окружения"))].

(** The [try] block of one turn of the loop of [check_dependencies]: what it
    appends to [missing]. *)
Definition probe (package min_version purpose : string) : result (list string) :=
  let? importlib := module_attr "importlib" in
  let? imported := (if import_module package then Ok tt else Raise ImportError) in
  let? pkg_resources := module_attr "pkg_resources" in
  let? installed := match distribution_version package with
                    | Some v => Ok v
                    | None => Raise OtherException
                    end in
  let? older := match version_lt installed min_version with
                | Some b => Ok b
                | None => Raise OtherException
                end in
  Ok (if older
      then [package ++ ">=" ++ min_version ++ " (установлено " ++ installed ++ ") - " ++ purpose]
      else []).

Fixpoint missing_dependencies (reqs : list (string * (string * string)))
  (missing : list string) : result (list string) :=
  match reqs with
  | [] => Ok missing
  | (package, (min_version, purpose)) :: rest =>
      match probe package min_version purpose with
      | Ok more => missing_dependencies rest (missing ++ more)%list
      | Raise ImportError =>
          let entry := package ++ ">=" ++ min_version ++ " - " ++ purpose in
          missing_dependencies rest (missing ++ [entry])%list
      | Raise e => Raise e
      | OutOfFuel => OutOfFuel
      end
  end.

Definition check_dependencies : result unit :=
  let? missing := missing_dependencies required [] in
  match missing with
  | [] => Ok tt
  | _ => Raise (SystemExit 1)
  end.

Definition create_default_requirements : M unit := fun st =>
  if can_write
  then (Ok tt, {| sent := sent st; requirements_txt := true |})
  else (Raise OSError, st).

(** [if not os.path.exists("requirements.txt"): create_default_requirements()] *)
Definition ensure_requirements : M unit := fun st =>
  if requirements_txt st then (Ok tt, st) else create_default_requirements st.

(** The statements under the [try] of [main]: the checks, then the six
    stages. *)
Definition startup : M unit :=
  (if import_guard then ret tt
   else (ensure_requirements ;; raise (SystemExit 1))) ;;
  lift check_dependencies ;;
  ensure_requirements.

Definition pipeline (fuel : nat) : M unit :=
  epic_key <- lift (let? c := load_CONFIG in subscript c "epic_key") ;;
  epic_info <- get_epic_info epic_key ;;
  issues <- get_jira_issues fuel epic_key ;;
  epic_summary <- lift (subscript epic_info "summary") ;;
  analysis <- analyze_with_deepseek issues epic_summary ;;
  content <- lift (generate_content strftime issues analysis epic_info) ;;
  page <- find_confluence_page epic_key ;;
  published <- update_confluence_page page content epic_info ;;
  base <- lift (CONFIG2 "confluence" "url") ;;
  webui <- lift (let? links := subscript published "_links" in subscript links "webui") ;;
  ret tt.

Definition main_body (fuel : nat) : M unit :=
  startup ;; pipeline fuel.

Definition main (fuel : nat) : M unit :=
  try_except (main_body fuel) is_Exception (fun _ => raise (SystemExit 1)).

End Pipeline.

(** ** A host to run the model on

    ASCII and Russian letters are lowered as Python lowers them; the other
    library calls are stand-ins. *)

Definition byte (n : nat) : ascii := ascii_of_nat n.

Fixpoint lower_ru (s : string) : string :=
  match s with
  | EmptyString => EmptyString
  | String a rest =>
      let n := nat_of_ascii a in
      if ((65 <=? n) && (n <=? 90))%nat then String (byte (n + 32)) (lower_ru rest)
      else if (n =? 208)%nat then
        match rest with
        | String b rest' =>
            let m := nat_of_ascii b in
            if ((144 <=? m) && (m <=? 159))%nat
            then String a (String (byte (m + 32)) (lower_ru rest'))
            else if ((160 <=? m) && (m <=? 175))%nat
            then String (byte 209) (String (byte (m - 32)) (lower_ru rest'))
            else if (m =? 129)%nat
            then String (byte 209) (String (byte 145) (lower_ru rest'))
            else String a (String b (lower_ru rest'))
        | EmptyString => String a EmptyString
        end
      else String a (lower_ru rest)
  end.

Definition demo_host (srv : list request -> request -> reply) : Host :=
  {| server := srv;
     markdown := fun s => "<p>" ++ s ++ "</p>";
     lower := lower_ru;
     repr_container := fun _ => "[...]";
     sorted_by_list_keys := fun _ => None;
     strftime := "2024-01-06 09:30:00";
     import_guard := true;
     import_module := fun _ => true;
     distribution_version := fun _ => Some "99.0";
     version_lt := fun _ _ => Some false;
     can_write := true |}.

Definition demo_config : pyval :=
  VDict [("jira", VDict [("url", VStr "https://jira.example");
                         ("api_user", VStr "bot"); ("api_token", VStr "t1")]);
         ("confluence", VDict [("url", VStr "https://wiki.example");
                               ("space_key", VStr "DOC");
                               ("api_user", VStr "bot"); ("api_token", VStr "t2")]);
         ("deepseek", VDict [("api_url", VStr "https://llm.example/chat");
                             ("api_key", VStr "k"); ("model", VStr "m")]);
         ("epic_key", VStr "PROJ-1")].

(** The module with [CONFIG] assigned and the two modules of
    [check_dependencies] imported at top level: what a harness that runs
    the stages has to provide. *)
Definition demo_namespace : namespace :=
  ("CONFIG", Val demo_config) :: ("importlib", Opaque) :: ("pkg_resources", Opaque)
    :: module_namespace.

Definition issue (key status priority updated : string) : pyval :=
  VDict [("key", VStr key);
         ("fields", VDict [("summary", VStr ("Task " ++ key));
                           ("status", VDict [("name", VStr status)]);
                           ("priority", VDict [("name", VStr priority)]);
                           ("updated", VStr updated)])].

Definition initial : state := {| sent := []; requirements_txt := true |}.

(** A document store that answers a title search with the stored pages
    whose title is exactly the one asked for, and accepts every write. *)
Definition title_of (page : pyval) : string :=
  match page with
  | VDict kvs => match assoc "title" kvs with Some (VStr t) => t | _ => "" end
  | _ => ""
  end.

Definition wiki_search_url (title : string) : string :=
  "https://wiki.example/rest/api/content?spaceKey=DOC&title=" ++ title.

Definition written_page : pyval :=
  VDict [("id", VStr "77"); ("_links", VDict [("webui", VStr "/display/DOC/77")])].

Definition wiki_server (store : list pyval) (history : list request) (req : request) : reply :=
  if String.eqb (method req) "GET" then
    match url req with
    | VStr u =>
        Response 200
          (Some (VDict [("results",
                         VList (filter (fun page => String.eqb u (wiki_search_url (title_of page)))
                                  store))]))
    | _ => NoReply
    end
  else Response 200 (Some written_page).

(** The page a run for epic PROJ-1, titled Launch, leaves in the store. *)
Definition page_of_previous_run : pyval :=
  VDict [("id", VStr "77");
         ("title", VStr "Статус эпика PROJ-1 - Launch");
         ("version", VDict [("number", VInt 1)])].

Definition launch_epic : pyval :=
  VDict [("key", VStr "PROJ-1"); ("summary", VStr "Launch"); ("description", VStr "")].

(** ** The classification rules, as the report's description words them

    A fixed list of (token, class) rules read in order on the lower-cased
    label; the first token found decides, and a default takes the rest. *)

Inductive status_kind : Type := Done | InProgress | Open.
Inductive priority_kind : Type := High | Medium | Low.

Fixpoint first_match {A} (rules : list (string * A)) (default : A) (text : string) : A :=
  match rules with
  | [] => default
  | (token, class) :: rest =>
      if contains token text then class else first_match rest default text
  end.

Definition status_rules : list (string * status_kind) :=
  [("готов", Done); ("прогрес", InProgress)].

Definition priority_rules : list (string * priority_kind) :=
  [("высок", High); ("средн", Medium)].

Definition status_css (k : status_kind) : string :=
  match k with
  | Done => "status-done"
  | InProgress => "status-inprogress"
  | Open => "status-open"
  end.

Definition priority_css (k : priority_kind) : string :=
  match k with
  | High => "priority-high"
  | Medium => "priority-medium"
  | Low => "priority-low"
  end.

(** The texts of a list, one after the other. *)
Definition concat_str (l : list string) : string := fold_right append "" l.

(** The fixed text before and after the analysis in [analysis_template]. *)
Definition analysis_head : string :=
  "
    <div class=" ++ dq ++ "analysis-block" ++ dq ++ ">
        <h2>Анализ выполнения</h2>
        ".

Definition analysis_tail : string :=
  "
    </div>
    ".

(** What [analyze_with_deepseek] returns for each reply to its request,
    written out case by case; [analyze_run] proves the function does so. *)
Definition summarizer_result (r : reply) : result pyval :=
  match r with
  | NoReply => Ok (VStr placeholder)
  | Response code payload =>
      if error_status code then Ok (VStr placeholder)
      else match payload with
           | None => Ok (VStr placeholder)
           | Some data => choice_content data
           end
  end.

(** The example of the description: epic PROJ-1 (Launch) with two issues. *)
Definition demo_issues : list pyval :=
  [issue "PROJ-2" "Готово" "Высокий" "2024-01-02";
   issue "PROJ-3" "Open" "Low" "2024-01-05"].

(** A tracker with these two issues, a summarizer that answers [llm] and the
    document store above. *)
Definition demo_server (llm : reply) (store : list pyval) (history : list request)
  (req : request) : reply :=
  match url req with
  | VStr u =>
      if prefix "https://jira.example/rest/api/3/issue/" u then
        Response 200
          (Some (VDict [("fields", VDict [("summary", VStr "Launch");
                                          ("description", VStr "")])]))
      else if prefix "https://jira.example/rest/api/3/search" u then
        Response 200 (Some (VDict [("issues", VList demo_issues); ("total", VInt 2)]))
      else if String.eqb u "https://llm.example/chat" then llm
      else wiki_server store history req
  | _ => NoReply
  end.


(** ** A tracker to fetch from

    The tracker holds the issues [db] linked to the epic, in its own order,
    and answers a search at offset [start_at] with the next hundred and the
    total. *)
Definition tracker_page (db : list pyval) (start_at : nat) : pyval :=
  VDict [("issues", VList (firstn 100 (skipn start_at db)));
         ("total", VInt (Z.of_nat (length db)))].

(** The last-updated stamp of an issue, where it is a string. *)
Definition updated_text (x : pyval) : string :=
  match updated_key x with
  | Ok (VStr s) => s
  | _ => ""
  end.

Definition has_stamp (x : pyval) : Prop := exists s, updated_key x = Ok (VStr s).

(** [a] may stand before [b] in descending order of the stamps. *)
Definition not_older (a b : pyval) : Prop :=
  String.ltb (updated_text a) (updated_text b) = false.

Definition tracker_db : list pyval :=
  map (fun i => issue ("PROJ-" ++ str_of_nat i) "Open" "Low"
                  ("2024-01-" ++ str_of_nat (10 + Nat.modulo (7 * i) 19)))
    (seq 1 150).

Definition tracker_server (db : list pyval) (history : list request) (req : request) : reply :=
  let asks k :=
    match url req with
    | VStr u =>
        String.eqb u
          (search_url (H := demo_host (fun _ _ => NoReply))
             (VStr "https://jira.example") (VStr "PROJ-1") (Z.of_nat (100 * k)))
    | _ => false
    end in
  match find asks (seq 0 (S (Nat.div (length db) 100))) with
  | Some k => Response 200 (Some (tracker_page db (100 * k)))
  | None => NoReply
  end.

(** ** The configuration file ([load_config])

    [load_config] is defined in the module and called nowhere.  What
    [open] and [json.load] find at [config_path] is its input. *)
Inductive file : Type :=
| Missing               (* no such file: [open] raises FileNotFoundError *)
| Denied                (* [open] raises another OSError *)
| Garbled               (* the text is not JSON: [json.load] raises JSONDecodeError *)
| Parsed (v : pyval).   (* what [json.load] returns *)

Inductive load_exn : Type :=
| FileNotFoundError (message : string)
| ValueError (message : string)
| NotAContainer         (* TypeError of [key not in config] *)
| CannotOpen.           (* the OSError of [open], passed on *)

Definition required_keys : list string := ["jira"; "confluence"; "deepseek"; "epic_key"].

(** [key in config]: a key of a dict, an element of a list, a substring of
    a string; anything else is not iterable. *)
Definition py_in (key : string) (config : pyval) : option bool :=
  match config with
  | VDict kvs => Some (match assoc key kvs with Some _ => true | None => false end)
  | VList l =>
      Some (existsb (fun v => match v with VStr s => String.eqb s key | _ => false end) l)
  | VStr s => Some (contains key s)
  | _ => None
  end.

(** The [for key in required_keys] loop: the first key that is not in
    [config] raises. *)
Fixpoint check_keys (keys : list string) (config : pyval) : load_exn + pyval :=
  match keys with
  | [] => inr config
  | key :: rest =>
      match py_in key config with
      | None => inl NotAContainer
      | Some false => inl (ValueError ("Отсутствует обязательный ключ конфигурации: " ++ key))
      | Some true => check_keys rest config
      end
  end.

(** The ValueError for a missing key is raised under the [try], whose
    handlers catch FileNotFoundError and JSONDecodeError only, so it leaves
    the function as it is. *)
Definition load_config (config_path : string) (f : file) : load_exn + pyval :=
  match f with
  | Missing =>
      inl (FileNotFoundError ("Конфигурационный файл " ++ config_path ++ " не найден"))
  | Denied => inl CannotOpen
  | Garbled => inl (ValueError ("Неверный формат JSON в файле " ++ config_path))
  | Parsed config => check_keys required_keys config
  end.

(** The module after [CONFIG = load_config(...)] has succeeded. *)
Definition configured (config : pyval) : namespace :=
  ("CONFIG", Val config) :: module_namespace.

(** ** Other trackers

    A tracker that puts at most [cap] issues on a page whatever
    [maxResults] asks for, one that breaks down at page [fails_at], and
    one whose total keeps ahead of every offset. *)
Definition capped_page (cap : nat) (db : list pyval) (start_at : nat) : pyval :=
  VDict [("issues", VList (firstn cap (skipn start_at db)));
         ("total", VInt (Z.of_nat (length db)))].

Definition staged_tracker (cap : nat) (fails_at : option nat) (db : list pyval)
  (history : list request) (req : request) : reply :=
  let asks k :=
    match url req with
    | VStr u =>
        String.eqb u
          (search_url (H := demo_host (fun _ _ => NoReply))
             (VStr "https://jira.example") (VStr "PROJ-1") (Z.of_nat (100 * k)))
    | _ => false
    end in
  match find asks (seq 0 (S (Nat.div (length db) 100))) with
  | Some k =>
      if match fails_at with Some f => Nat.eqb f k | None => false end
      then Response 503 None
      else Response 200 (Some (capped_page cap db (100 * k)))
  | None => NoReply
  end.

Definition growing_page (asked_before : nat) : pyval :=
  VDict [("issues", VList []);
         ("total", VInt (Z.of_nat (100 * asked_before + 200)))].

Definition growing_tracker (history : list request) (req : request) : reply :=
  Response 200 (Some (growing_page (length history))).

(** The items of a list that carry the stamp [s]. *)
Definition with_stamp (s : string) (items : list pyval) : list pyval :=
  filter (fun x => String.eqb (updated_text x) s) items.

(** A peer that gives the same reply to every request. *)
Definition fixed_server (r : reply) (history : list request) (req : request) : reply := r.

Definition json_reply (v : pyval) : reply := Response 200 (Some v).

(** Two issues, the second with [updated: null]. *)
Definition null_stamp_db : list pyval :=
  [issue "PROJ-2" "Open" "Low" "2024-01-02";
   VDict [("key", VStr "PROJ-9"); ("fields", VDict [("updated", VNone)])]].


(** The issue has [fields], and in them [what] with the value null. *)
Definition null_in_fields (what : string) (issue : pyval) : Prop :=
  exists fields,
    py_get issue "fields" (VDict []) = Ok fields
    /\ py_get fields what (VDict []) = Ok VNone.


(** ** Exceptions that [except Exception] catches

    A result is tame when, if it is an exception, [except Exception]
    catches it; a computation is tame when its result is, in every state. *)
Definition tame {A} (r : result A) : Prop :=
  match r with
  | Raise e => is_Exception e = true
  | _ => True
  end.

Definition tameM {A} (c : M A) : Prop := forall st, tame (fst (c st)).



(** ** What the dependency check finds for one requirement

    [settled]: the probe of the package raises nothing but ImportError (the
    import fails, or the distribution and the comparison of versions are
    known).  [fine]: the package imports and is not older than asked. *)
Definition settled {H : Host} (req : string * (string * string)) : Prop :=
  import_module (fst req) = false
  \/ exists v b, distribution_version (fst req) = Some v
                 /\ version_lt v (fst (snd req)) = Some b.

Definition fine {H : Host} (req : string * (string * string)) : Prop :=
  import_module (fst req) = true
  /\ exists v, distribution_version (fst req) = Some v
               /\ version_lt v (fst (snd req)) = Some false.

(** The module with the two modules [check_dependencies] uses imported at
    top level. *)
Definition with_imports (G : namespace) : namespace :=
  ("importlib", Opaque) :: ("pkg_resources", Opaque) :: G.

(** A summarizer that answers with [content: null], beside the tracker and
    the store of the example. *)
Definition null_content_server : list request -> request -> reply :=
  demo_server
    (json_reply (VDict [("choices", VList [VDict [("message", VDict [("content", VNone)])]])]))
    [].

(** ** The stamp of an issue, as the tracker's data has it

    The last-updated stamp is the string under [updated] in the object under
    [fields] of the issue.  It is read off the issue itself, and an issue
    that has no such string has no stamp. *)
Definition stamp (x : pyval) : option string :=
  match x with
  | VDict kvs =>
      match assoc "fields" kvs with
      | Some (VDict fields) =>
          match assoc "updated" fields with
          | Some (VStr s) => Some s
          | _ => None
          end
      | _ => None
      end
  | _ => None
  end.

Definition stamped (x : pyval) : Prop := exists s, stamp x = Some s.

(** [a] and [b] carry stamps, and that of [a] is not the earlier one: [a]
    may stand before [b] when the latest comes first. *)
Definition newer_first (a b : pyval) : Prop :=
  exists s t, stamp a = Some s /\ stamp b = Some t /\ String.ltb s t = false.

(** * Properties *)

(** ** Strings *)

Lemma length_app (s t : string) :
  String.length (s ++ t) = String.length s + String.length t.
Proof.
  induction s as [|a s IH]; simpl; [reflexivity | now rewrite IH].
Qed.

Lemma app_assoc_str (s t u : string) : (s ++ t) ++ u = s ++ t ++ u.
Proof.
  induction s as [|a s IH]; simpl; [reflexivity | now rewrite IH].
Qed.

Lemma app_empty_r (s : string) : s ++ "" = s.
Proof.
  induction s as [|a s IH]; simpl; [reflexivity | now rewrite IH].
Qed.

Lemma app_not_self (s t : string) : t <> "" -> s ++ t <> s.
Proof.
  intros Ht Heq.
  apply (f_equal String.length) in Heq. rewrite length_app in Heq.
  destruct t as [|a t]; [now apply Ht | simpl in Heq; lia].
Qed.

Lemma prefix_refl_app (p s : string) : prefix p (p ++ s) = true.
Proof.
  induction p as [|a p IH]; simpl.
  - now destruct s.
  - destruct (ascii_dec a a) as [_|Hne]; [exact IH | now elim Hne].
Qed.

Lemma contains_prefix (p s : string) : prefix p s = true -> contains p s = true.
Proof.
  intros Hp. destruct s; cbn [contains]; now rewrite Hp.
Qed.

Lemma contains_cons (p : string) (a : ascii) (s : string) :
  contains p s = true -> contains p (String a s) = true.
Proof.
  intros Hc. cbn [contains]. now destruct (prefix p (String a s)).
Qed.

Lemma contains_app_r (p s t : string) :
  contains p t = true -> contains p (s ++ t) = true.
Proof.
  intros Hc. induction s as [|a s IH]; simpl append; [exact Hc |].
  now apply contains_cons.
Qed.

Lemma prefix_app_l (p s t : string) : prefix p s = true -> prefix p (s ++ t) = true.
Proof.
  revert s. induction p as [|a p IH]; intros s Hp.
  - now destruct (s ++ t).
  - destruct s as [|b s]; simpl in *; [discriminate |].
    destruct (ascii_dec a b); [now apply IH | discriminate].
Qed.

Lemma contains_app_l (p s t : string) :
  contains p s = true -> contains p (s ++ t) = true.
Proof.
  induction s as [|a s IH]; intros Hc.
  - cbn [contains] in Hc. destruct (prefix p "") eqn:Hp; [| discriminate].
    apply contains_prefix. change t with ("" ++ t). now apply prefix_app_l.
  - cbn [contains] in Hc. destruct (prefix p (String a s)) eqn:Hp.
    + apply contains_prefix. now apply prefix_app_l.
    + simpl append. apply contains_cons. now apply IH.
Qed.

(** [contains p] sees [p] wherever it sits. *)
Lemma contains_middle (p s t : string) : contains p (s ++ p ++ t) = true.
Proof.
  apply contains_app_r, contains_prefix, prefix_refl_app.
Qed.

Lemma occurs_app (c : ascii) (s t : string) :
  occurs c (s ++ t) = occurs c s || occurs c t.
Proof.
  induction s as [|a s IH]; simpl; [reflexivity |].
  now rewrite IH, orb_assoc.
Qed.

Lemma replace_char_absent (c : ascii) (new s : string) :
  occurs c s = false -> replace_char c new s = s.
Proof.
  induction s as [|a s IH]; simpl; [reflexivity |].
  intros Ho. apply orb_false_elim in Ho as [Ha Hs].
  rewrite Ha. now rewrite IH.
Qed.

(** After [replace(c, new)], [c] is gone unless [new] brings it back. *)
Lemma replace_char_removes (c : ascii) (new s : string) :
  occurs c new = false -> occurs c (replace_char c new s) = false.
Proof.
  intros Hn. induction s as [|a s IH]; simpl; [reflexivity |].
  destruct (Ascii.eqb a c) eqn:Ha.
  - now rewrite occurs_app, Hn, IH.
  - simpl. now rewrite Ha, IH.
Qed.

(** A later replacement keeps a character out when its own text has none. *)
Lemma replace_char_keeps_out (c c' : ascii) (new s : string) :
  occurs c new = false -> occurs c s = false ->
  occurs c (replace_char c' new s) = false.
Proof.
  intros Hn. induction s as [|a s IH]; simpl; [reflexivity |].
  intros Ho. apply orb_false_elim in Ho as [Ha Hs].
  destruct (Ascii.eqb a c').
  - now rewrite occurs_app, Hn, IH.
  - simpl. now rewrite Ha, IH.
Qed.

(** [html.escape] leaves no character that opens or closes markup. *)
Lemma escape_str_no_markup (s : string) :
  occurs lt_char (escape_str s) = false /\ occurs gt_char (escape_str s) = false
  /\ occurs dq_char (escape_str s) = false /\ occurs sq_char (escape_str s) = false.
Proof.
  unfold escape_str. repeat split.
  - do 3 (apply replace_char_keeps_out; [reflexivity |]).
    now apply replace_char_removes.
  - do 2 (apply replace_char_keeps_out; [reflexivity |]).
    now apply replace_char_removes.
  - apply replace_char_keeps_out; [reflexivity |].
    now apply replace_char_removes.
  - now apply replace_char_removes.
Qed.

(** A text without [c] sits in [s.replace(c, new)] wherever it sat in [s]. *)
Lemma prefix_replace_char (c : ascii) (new m s : string) :
  occurs c m = false -> prefix m s = true -> prefix m (replace_char c new s) = true.
Proof.
  revert s. induction m as [|a m IH]; intros s Ho Hp.
  - now destruct (replace_char c new s).
  - destruct s as [|b s]; simpl in Hp; [discriminate |].
    destruct (ascii_dec a b) as [<-|]; [| discriminate].
    simpl in Ho. apply orb_false_elim in Ho as [Ha Hm].
    simpl. rewrite Ha. simpl.
    destruct (ascii_dec a a) as [_|Hne]; [now apply IH | now elim Hne].
Qed.

Lemma contains_replace_char (c : ascii) (new m s : string) :
  occurs c m = false -> contains m s = true ->
  contains m (replace_char c new s) = true.
Proof.
  intros Ho. induction s as [|a s IH]; intros Hc.
  - exact Hc.
  - cbn [contains] in Hc. destruct (prefix m (String a s)) eqn:Hp.
    + apply contains_prefix. now apply prefix_replace_char.
    + specialize (IH Hc). simpl. destruct (Ascii.eqb a c).
      * now apply contains_app_r.
      * now apply contains_cons.
Qed.

(** ** Publisher: the title searched and the title written *)

Section Titles.

Context {H : Host}.

Lemma page_title_extends_lookup_title (key summary : pyval) :
  page_title key summary = lookup_title key ++ " - " ++ py_str summary.
Proof.
  unfold page_title, lookup_title. now rewrite app_assoc_str.
Qed.

Lemma lookup_title_differs (key summary : pyval) :
  lookup_title key <> page_title key summary.
Proof.
  rewrite page_title_extends_lookup_title. intros Heq. symmetry in Heq.
  revert Heq. apply app_not_self. discriminate.
Qed.

End Titles.

(** The write for epic PROJ-1 carries the title under which
    [page_of_previous_run] is stored. *)
Lemma previous_run_title :
  option_map (fun r => match json_body r with
                       | Some (VDict kvs) => assoc "title" kvs
                       | _ => None
                       end)
    (match update_request (H := demo_host (wiki_server [])) demo_namespace VNone "body" launch_epic with
     | Ok r => Some r
     | _ => None
     end)
  = Some (Some (VStr (title_of page_of_previous_run))).
Proof. vm_compute. reflexivity. Qed.

(** C1, as the code has it: the title [find_confluence_page] asks for is
    never the title [update_confluence_page] writes, whatever the epic.  So
    with the page of a previous run for PROJ-1 in the store, the lookup
    returns [None] and the write that follows is a second creation (POST),
    not an update of that page. *)
Theorem lookup_misses_written_page :
  (forall (H : Host) (key summary : pyval), lookup_title key <> page_title key summary)
  /\ (let H := demo_host (wiki_server [page_of_previous_run]) in
      fst (find_confluence_page demo_namespace (VStr "PROJ-1") initial) = Ok VNone
      /\ option_map method
           (match update_request demo_namespace VNone "body" launch_epic with
            | Ok r => Some r
            | _ => None
            end) = Some "POST").
Proof.
  split.
  - intros H key summary. apply lookup_title_differs.
  - split; vm_compute; reflexivity.
Qed.

(** ** Renderer: rows and classification *)

(** Peels one [let?] off a hypothesis that says the whole chain returned. *)
Ltac peel Hyp :=
  match type of Hyp with
  | rbind ?c _ = Ok _ =>
      let E := fresh "E" in
      destruct c eqn:E; cbn [rbind] in Hyp; [| discriminate Hyp | discriminate Hyp]
  end.

Section Rows.

Context {H : Host}.
Variable G : namespace.

(** What a rendered row is made of. *)
Lemma render_row_inv (issue : pyval) (row : string) :
  render_row G issue = Ok row ->
  exists fields key summary status issue_type priority assignee updated description jira_url,
    py_get issue "fields" (VDict []) = Ok fields
    /\ py_get issue "key" (VStr "N/A") = Ok key
    /\ (let? x := py_get fields "summary" (VStr "N/A") in escape x) = Ok summary
    /\ (let? x := name_of fields "status" in escape x) = Ok status
    /\ (let? x := name_of fields "issuetype" in escape x) = Ok issue_type
    /\ (let? x := name_of fields "priority" in escape x) = Ok priority
    /\ assignee_of fields = Ok assignee
    /\ (let? x := py_get fields "updated" (VStr "") in let? y := slice10 x in escape y) = Ok updated
    /\ (let? x := py_get fields "description" (VStr "") in escape x) = Ok description
    /\ CONFIG2 G "jira" "url" = Ok jira_url
    /\ row = row_template (py_str jira_url) (py_str key) issue_type
               (priority_class priority) priority summary
               (if String.eqb description "" then "Нет описания" else markdown description)
               (status_class status) status assignee updated.
Proof.
  unfold render_row. intros Hrow.
  repeat peel Hrow.
  injection Hrow as <-.
  do 10 eexists. repeat split; try eassumption;
    repeat (match goal with
            | E : ?c = Ok _ |- context [?c] => rewrite E; cbn [rbind]
            end);
    try reflexivity; eassumption.
Qed.

Lemma status_class_rules (s : string) :
  status_class s = status_css (first_match status_rules Open (lower s)).
Proof.
  unfold status_class. cbn [first_match status_rules].
  destruct (contains "готов" (lower s)); [reflexivity |].
  now destruct (contains "прогрес" (lower s)).
Qed.

Lemma priority_class_rules (s : string) :
  priority_class s = priority_css (first_match priority_rules Low (lower s)).
Proof.
  unfold priority_class. cbn [first_match priority_rules].
  destruct (contains "высок" (lower s)); [reflexivity |].
  now destruct (contains "средн" (lower s)).
Qed.

End Rows.

Lemma status_css_injective (a b : status_kind) : status_css a = status_css b -> a = b.
Proof. destruct a, b; simpl; congruence. Qed.

Lemma priority_css_injective (a b : priority_kind) : priority_css a = priority_css b -> a = b.
Proof. destruct a, b; simpl; congruence. Qed.

(** C6.  Every status label gets the class of exactly one of done,
    in-progress, open, and every priority label the class of exactly one of
    high, medium, low: the class the ordered rules give on the lower-cased
    label, the first token found deciding and open (low) taking every label
    without a token.  The renderer tests the label as it embeds it, that
    is after [html.escape], and puts these classes in the row. *)
Theorem classification_total (H : Host) (G : namespace) :
  (forall label : string,
      (exists! k, status_class label = status_css k)
      /\ status_class label = status_css (first_match status_rules Open (lower label))
      /\ (exists! k, priority_class label = priority_css k)
      /\ priority_class label = priority_css (first_match priority_rules Low (lower label)))
  /\ (forall text : string,
        contains "готов" text = false -> contains "прогрес" text = false ->
        first_match status_rules Open text = Open)
  /\ (forall text : string,
        contains "высок" text = false -> contains "средн" text = false ->
        first_match priority_rules Low text = Low)
  /\ (forall issue row,
        render_row G issue = Ok row ->
        exists fields key summary status issue_type priority assignee updated description jira_url,
          py_get issue "fields" (VDict []) = Ok fields
          /\ (let? x := name_of fields "status" in escape x) = Ok status
          /\ (let? x := name_of fields "priority" in escape x) = Ok priority
          /\ row = row_template jira_url key issue_type
                     (priority_css (first_match priority_rules Low (lower priority))) priority
                     summary description
                     (status_css (first_match status_rules Open (lower status))) status
                     assignee updated).
Proof.
  repeat split.
  - exists (first_match status_rules Open (lower label)). split.
    + apply status_class_rules.
    + intros k Hk. rewrite status_class_rules in Hk. now apply status_css_injective.
  - apply status_class_rules.
  - exists (first_match priority_rules Low (lower label)). split.
    + apply priority_class_rules.
    + intros k Hk. rewrite priority_class_rules in Hk. now apply priority_css_injective.
  - apply priority_class_rules.
  - intros text H1 H2. cbn [first_match status_rules]. now rewrite H1, H2.
  - intros text H1 H2. cbn [first_match priority_rules]. now rewrite H1, H2.
  - intros issue row Hrow.
    apply render_row_inv in Hrow
      as (fields & key & summary & status & issue_type & priority & assignee & updated
          & description & jira_url & Hf & _ & _ & Hs & _ & Hp & _ & _ & _ & _ & ->).
    rewrite status_class_rules, priority_class_rules.
    exists fields. do 9 eexists. repeat split; eassumption.
Qed.

(** ** Renderer: the document *)

Lemma mapR_Forall2 {A B} (f : A -> result B) (l : list A) (ys : list B) :
  mapR f l = Ok ys -> Forall2 (fun x y => f x = Ok y) l ys.
Proof.
  revert ys. induction l as [|x l IH]; simpl; intros ys Hm.
  - injection Hm as <-. constructor.
  - repeat peel Hm. injection Hm as <-. constructor; auto.
Qed.

Lemma escape_inv (x : pyval) (s : string) :
  escape x = Ok s -> exists raw, x = VStr raw /\ s = escape_str raw.
Proof.
  destruct x; simpl; try discriminate. intros [= <-]. eauto.
Qed.

Section Document.

Context {H : Host}.
Variable G : namespace.

(** The loop appends the rows of the issues in the order it meets them. *)
Lemma render_rows_spec (issues : list pyval) (tasks_table : string) :
  render_rows G issues tasks_table =
  let? rows := mapR (render_row G) issues in Ok (tasks_table ++ concat_str rows).
Proof.
  revert tasks_table. induction issues as [|issue rest IH]; intros tasks_table; simpl.
  - now rewrite app_empty_r.
  - destruct (render_row G issue) as [row| |]; cbn [rbind]; try reflexivity.
    rewrite IH. destruct (mapR (render_row G) rest) as [rows| |]; cbn [rbind]; try reflexivity.
    simpl. now rewrite app_assoc_str.
Qed.

(** What a rendered document is made of. *)
Lemma generate_content_inv (t : string) (issues : list pyval) (analysis epic_info : pyval)
  (d : string) :
  generate_content G t issues analysis epic_info = Ok d ->
  exists key summary description rows text,
    (let? x := subscript epic_info "key" in escape x) = Ok key
    /\ (let? x := subscript epic_info "summary" in escape x) = Ok summary
    /\ (let? x := py_get epic_info "description" (VStr "Описание отсутствует") in escape x)
       = Ok description
    /\ mapR (render_row G) issues = Ok rows
    /\ break_lines analysis = Ok text
    /\ d = styles ++ header_template key summary (markdown description)
             ++ ((table_head ++ concat_str rows) ++ "</table>")
             ++ analysis_template text ++ footer_template t.
Proof.
  unfold generate_content. intros Hd.
  repeat peel Hd. injection Hd as <-.
  match goal with E : render_rows _ _ _ = Ok _ |- _ => rewrite render_rows_spec in E; peel E;
    injection E as <- end.
  do 5 eexists. repeat split; try eassumption;
    repeat (match goal with
            | E : ?c = Ok _ |- context [?c] => rewrite E; cbn [rbind]
            end);
    try reflexivity; eassumption.
Qed.

Lemma generate_content_intro (t : string) (issues : list pyval) (analysis epic_info : pyval)
  (key summary description : string) (rows : list string) (text : string) :
  (let? x := subscript epic_info "key" in escape x) = Ok key ->
  (let? x := subscript epic_info "summary" in escape x) = Ok summary ->
  (let? x := py_get epic_info "description" (VStr "Описание отсутствует") in escape x)
    = Ok description ->
  mapR (render_row G) issues = Ok rows ->
  break_lines analysis = Ok text ->
  generate_content G t issues analysis epic_info
  = Ok (styles ++ header_template key summary (markdown description)
          ++ ((table_head ++ concat_str rows) ++ "</table>")
          ++ analysis_template text ++ footer_template t).
Proof.
  intros Hk Hs Hd Hr Ht. unfold generate_content.
  peel Hk. cbn [rbind]. rewrite Hk. cbn [rbind].
  peel Hs. cbn [rbind]. rewrite Hs. cbn [rbind].
  peel Hd. cbn [rbind]. rewrite Hd. cbn [rbind].
  rewrite render_rows_spec, Hr. cbn [rbind]. rewrite Ht. reflexivity.
Qed.

Lemma generate_content_raises (t t' : string) (issues : list pyval) (analysis epic_info : pyval)
  (e : exn) :
  generate_content G t issues analysis epic_info = Raise e ->
  generate_content G t' issues analysis epic_info = Raise e.
Proof.
  unfold generate_content.
  repeat match goal with
         | |- context [rbind ?c _] => destruct c; cbn [rbind]; try discriminate; try tauto
         end.
Qed.

Lemma render_rows_fuel (issues : list pyval) (tasks_table : string) :
  render_rows G issues tasks_table <> OutOfFuel.
Proof.
  revert tasks_table. induction issues as [|issue rest IH]; intros tasks_table; simpl.
  - discriminate.
  - unfold render_row, name_of, assignee_of, CONFIG2, load_CONFIG, py_get, escape, slice10,
      subscript.
    repeat match goal with
           | |- context [match ?c with _ => _ end] => destruct c; cbn [rbind]; try discriminate
           end; apply IH.
Qed.

End Document.

Lemma analysis_template_split (text : string) :
  analysis_template text = analysis_head ++ text ++ analysis_tail.
Proof.
  unfold analysis_template, analysis_head, analysis_tail.
  now repeat rewrite app_assoc_str.
Qed.

Lemma generate_content_fuel (H : Host) (G : namespace) (t : string) (issues : list pyval)
  (analysis epic_info : pyval) :
  generate_content G t issues analysis epic_info <> OutOfFuel.
Proof.
  unfold generate_content.
  pose proof (render_rows_fuel G issues table_head) as Hrows.
  destruct (render_rows G issues table_head); [| | now elim Hrows].
  - unfold subscript, py_get, escape, break_lines.
    repeat match goal with
           | |- context [match ?c with _ => _ end] => destruct c; cbn [rbind]; try discriminate
           end.
  - unfold subscript, py_get, escape, break_lines.
    repeat match goal with
           | |- context [match ?c with _ => _ end] => destruct c; cbn [rbind]; try discriminate
           end.
Qed.

(** C7.  The renderer is a function of its arguments, of the module's
    [CONFIG] and of the time it stamps, and touches neither the network nor
    the files (it runs outside [M]).  Two runs on the same epic, issues and
    analysis, at times [t1] and [t2], raise the same exception or return
    documents that are the same text followed by the footer for [t1] and for
    [t2].  The table holds one row per issue, in the order of the input. *)
Theorem rendering_deterministic (H : Host) (G : namespace) (t1 t2 : string)
  (issues : list pyval) (analysis epic_info : pyval) :
  match generate_content G t1 issues analysis epic_info,
        generate_content G t2 issues analysis epic_info with
  | Ok d1, Ok d2 =>
      (exists body, d1 = body ++ footer_template t1 /\ d2 = body ++ footer_template t2)
      /\ (exists head rows tail,
            Forall2 (fun issue row => render_row G issue = Ok row) issues rows
            /\ d1 = head ++ table_head ++ concat_str rows ++ "</table>" ++ tail)
  | Raise e1, Raise e2 => e1 = e2
  | _, _ => False
  end.
Proof.
  destruct (generate_content G t1 issues analysis epic_info) as [d1|e|] eqn:E1.
  - apply generate_content_inv in E1
      as (key & summary & description & rows & text & Hk & Hs & Hd & Hr & Ht & ->).
    rewrite (generate_content_intro G t2 issues analysis epic_info _ _ _ _ _ Hk Hs Hd Hr Ht).
    split.
    + exists (styles ++ header_template key summary (markdown description)
                ++ ((table_head ++ concat_str rows) ++ "</table>")
                ++ analysis_template text).
      now repeat rewrite app_assoc_str.
    + exists (styles ++ header_template key summary (markdown description)), rows,
        (analysis_template text ++ footer_template t1).
      split; [now apply mapR_Forall2 |].
      now repeat rewrite app_assoc_str.
  - now rewrite (generate_content_raises G t1 t2 _ _ _ _ E1).
  - now apply generate_content_fuel in E1.
Qed.


(** C10.  The analysis goes into the document as it is, its newlines turned
    into line breaks and nothing escaped: the document is one fixed text,
    the analysis so rewritten, and another fixed text, so whatever markup
    the analysis holds on one line is in the published body.  The titles,
    statuses, descriptions and assignee names of the rows go through
    [html.escape] first, which leaves no angle bracket or quote. *)
Theorem analysis_embedded_unescaped (H : Host) (G : namespace) (t : string)
  (issues : list pyval) (a : string) (epic_info : pyval) (d : string) :
  generate_content G t issues (VStr a) epic_info = Ok d ->
  (exists pre post,
      d = pre ++ replace_char nl_char "<br>" a ++ post
      /\ forall a', generate_content G t issues (VStr a') epic_info
                    = Ok (pre ++ replace_char nl_char "<br>" a' ++ post))
  /\ (forall m, occurs nl_char m = false -> contains m a = true -> contains m d = true)
  /\ (forall issue row,
        render_row G issue = Ok row ->
        exists fields jira_url key issue_type priority updated summary status description assignee,
          py_get issue "fields" (VDict []) = Ok fields
          /\ py_get fields "summary" (VStr "N/A") = Ok (VStr summary)
          /\ name_of fields "status" = Ok (VStr status)
          /\ py_get fields "description" (VStr "") = Ok (VStr description)
          /\ (assignee = "Не назначен" \/ exists name, assignee = escape_str name)
          /\ row = row_template jira_url key issue_type (priority_class priority) priority
                     (escape_str summary)
                     (if String.eqb (escape_str description) "" then "Нет описания"
                      else markdown (escape_str description))
                     (status_class (escape_str status)) (escape_str status) assignee updated)
  /\ (forall s, occurs lt_char (escape_str s) = false /\ occurs gt_char (escape_str s) = false
                /\ occurs dq_char (escape_str s) = false /\ occurs sq_char (escape_str s) = false).
Proof.
  intros Hd.
  apply generate_content_inv in Hd
    as (key & summary & description & rows & text & Hk & Hs & Hdesc & Hr & Ht & ->).
  injection Ht as <-.
  repeat split.
  - exists (styles ++ header_template key summary (markdown description)
              ++ ((table_head ++ concat_str rows) ++ "</table>") ++ analysis_head),
      (analysis_tail ++ footer_template t).
    split.
    + rewrite analysis_template_split. now repeat rewrite app_assoc_str.
    + intros a'.
      rewrite (generate_content_intro G t issues (VStr a') epic_info _ _ _ _ _
                 Hk Hs Hdesc Hr eq_refl).
      rewrite analysis_template_split. now repeat rewrite app_assoc_str.
  - intros m Hm Hc. rewrite analysis_template_split.
    do 3 apply contains_app_r. apply contains_app_l, contains_app_r, contains_app_l.
    now apply contains_replace_char.
  - intros issue row Hrow.
    apply render_row_inv in Hrow
      as (fields & key' & summary' & status & issue_type & priority & assignee & updated
          & description' & jira_url & Hf & _ & Hsum & Hst & _ & _ & Has & _ & Hde & _ & ->).
    peel Hsum. apply escape_inv in Hsum as (s1 & -> & ->).
    peel Hst. apply escape_inv in Hst as (s2 & -> & ->).
    peel Hde. apply escape_inv in Hde as (s3 & -> & ->).
    exists fields, (py_str jira_url), (py_str key'), issue_type, priority, updated, s1, s2, s3,
      assignee.
    repeat split; try assumption.
    unfold assignee_of in Has. peel Has.
    destruct (truthy _); [| injection Has as <-; now left].
    repeat peel Has. apply escape_inv in Has as (name & _ & ->). right. eauto.
  - apply escape_str_no_markup.
  - apply escape_str_no_markup.
  - apply escape_str_no_markup.
  - apply escape_str_no_markup.
Qed.

(** ** Publisher: the write *)

Section Upsert.

Context {H : Host}.
Variable G : namespace.

(** A request goes out whatever the answer is. *)
Lemma http_sent (req : request) (st : state) :
  sent (snd (http req st)) = (sent st ++ [req])%list.
Proof.
  unfold http. now destruct (server (sent st) req).
Qed.

Lemma update_confluence_page_sent (existing_page : pyval) (content : string)
  (epic_info : pyval) (req : request) (st : state) :
  update_request G existing_page content epic_info = Ok req ->
  sent (snd (update_confluence_page G existing_page content epic_info st))
  = (sent st ++ [req])%list.
Proof.
  intros Hreq. unfold update_confluence_page, bind, lift, try_except. rewrite Hreq.
  pose proof (http_sent req st) as Hs.
  destruct (http req st) as [[response| |] st']; simpl in *; try assumption.
  - unfold raise_for_status, response_json, raise, ret, lift.
    destruct (error_status (fst response)); simpl; [assumption |].
    destruct (snd response); simpl; assumption.
  - destruct (is_RequestException e); simpl; assumption.
Qed.

(** C5.  With the title, the store's address and the credentials at hand:
    for an existing page with an identifier and a version number [n], the
    write is a PUT on that identifier carrying version [n + 1]; without a
    page it is a POST carrying the space; the two payloads start with the
    same type, title and body (the content in storage representation); and
    [update_confluence_page] sends exactly that request. *)
Theorem upsert_request (content : string) (epic_info key summary api_url space_key : pyval)
  (credentials : pyval * pyval) (kvs : list (string * pyval)) (id version : pyval) (n : Z)
  (st : state) :
  subscript epic_info "key" = Ok key ->
  subscript epic_info "summary" = Ok summary ->
  CONFIG2 G "confluence" "url" = Ok api_url ->
  basic_auth G "confluence" = Ok credentials ->
  CONFIG2 G "confluence" "space_key" = Ok space_key ->
  assoc "id" kvs = Some id ->
  assoc "version" kvs = Some version ->
  subscript version "number" = Ok (VInt n) ->
  let data := page_data (page_title key summary) content in
  let put :=
    {| method := "PUT";
       url := VStr (py_str api_url ++ "/rest/api/content/" ++ py_str id);
       auth := Some credentials;
       headers := [("Content-Type", "application/json")];
       json_body := Some (VDict (data ++ [("version", VDict [("number", VInt (n + 1))])])%list);
       timeout := 30 |} in
  let post :=
    {| method := "POST";
       url := VStr (py_str api_url ++ "/rest/api/content");
       auth := Some credentials;
       headers := [("Content-Type", "application/json")];
       json_body := Some (VDict (data ++ [("space", VDict [("key", space_key)])])%list);
       timeout := 30 |} in
  update_request G (VDict kvs) content epic_info = Ok put
  /\ sent (snd (update_confluence_page G (VDict kvs) content epic_info st))
     = (sent st ++ [put])%list
  /\ update_request G VNone content epic_info = Ok post
  /\ sent (snd (update_confluence_page G VNone content epic_info st))
     = (sent st ++ [post])%list
  /\ assoc "body" data
     = Some (VDict [("storage", VDict [("value", VStr content);
                                       ("representation", VStr "storage")])]).
Proof.
  intros Hkey Hsum Hurl Hauth Hspace Hid Hver Hnum data put post.
  assert (Hput : update_request G (VDict kvs) content epic_info = Ok put).
  { unfold update_request. rewrite Hkey, Hsum, Hurl, Hauth. cbn [rbind].
    assert (Ht : truthy (VDict kvs) = true) by (destruct kvs; [discriminate | reflexivity]).
    rewrite Ht. unfold subscript at 1 2. rewrite Hid, Hver. cbn [rbind].
    rewrite Hnum. reflexivity. }
  assert (Hpost : update_request G VNone content epic_info = Ok post).
  { unfold update_request. rewrite Hkey, Hsum, Hurl, Hauth. cbn [rbind truthy].
    rewrite Hspace. reflexivity. }
  repeat split; try assumption.
  - now apply update_confluence_page_sent.
  - now apply update_confluence_page_sent.
Qed.

End Upsert.

Lemma upsert_request_witness :
  let H := demo_host (wiki_server [page_of_previous_run]) in
  let put := update_request demo_namespace page_of_previous_run "body" launch_epic in
  option_map method (match put with Ok r => Some r | _ => None end) = Some "PUT"
  /\ option_map url (match put with Ok r => Some r | _ => None end)
     = Some (VStr "https://wiki.example/rest/api/content/77")
  /\ sent (snd (update_confluence_page demo_namespace page_of_previous_run "body" launch_epic
                  initial))
     = match put with Ok r => [r] | _ => [] end.
Proof.
  pose proof (upsert_request (H := demo_host (wiki_server [page_of_previous_run]))
                demo_namespace "body" launch_epic (VStr "PROJ-1") (VStr "Launch")
                (VStr "https://wiki.example") (VStr "DOC") (VStr "bot", VStr "t2")
                [("id", VStr "77"); ("title", VStr "Статус эпика PROJ-1 - Launch");
                 ("version", VDict [("number", VInt 1)])]
                (VStr "77") (VDict [("number", VInt 1)]) 1 initial
                eq_refl eq_refl eq_refl eq_refl eq_refl eq_refl eq_refl eq_refl)
    as (Hput & Hsent & _).
  cbv zeta. fold page_of_previous_run in Hput, Hsent.
  rewrite Hsent, Hput. repeat split.
Defined.

(** ** Summarizer *)

Section Summarizer.

Context {H : Host}.
Variable G : namespace.


(** What a line of the digest is made of. *)
Lemma digest_line_inv (i : nat) (issue : pyval) (line : string) :
  digest_line i issue = Ok line ->
  exists fields key type_name summary status_name priority_name,
    py_get issue "key" (VStr "N/A") = Ok key
    /\ py_get issue "fields" (VDict []) = Ok fields
    /\ name_of fields "issuetype" = Ok type_name
    /\ py_get fields "summary" (VStr "N/A") = Ok summary
    /\ name_of fields "status" = Ok status_name
    /\ name_of fields "priority" = Ok priority_name
    /\ line = str_of_nat (i + 1) ++ ". " ++ py_str key ++ " (" ++ py_str type_name ++ "): "
                ++ py_str summary ++ " (Status: " ++ py_str status_name
                ++ ", Priority: " ++ py_str priority_name ++ ")".
Proof.
  unfold digest_line, name_of. intros Hl. repeat peel Hl. injection Hl as <-.
  do 6 eexists. repeat split; try eassumption;
    repeat (match goal with
            | E : ?c = Ok _ |- context [?c] => rewrite E; cbn [rbind]
            end);
    try reflexivity; eassumption.
Qed.

Lemma choice_content_not_request (data : pyval) (e : exn) :
  choice_content data = Raise e -> is_RequestException e = false.
Proof.
  unfold choice_content, py_get, index0.
  repeat match goal with
         | |- context [match ?c with _ => _ end] => destruct c; cbn [rbind]
         end; intros [= <-]; reflexivity.
Qed.

(** The summarizer stage, once the configuration and the digest are there:
    one request, and a result that depends on the reply alone. *)
Lemma analyze_run (issues : list pyval) (epic_summary api_key model api_url : pyval)
  (text : string) (st : state) :
  CONFIG2 G "deepseek" "api_key" = Ok api_key ->
  CONFIG2 G "deepseek" "model" = Ok model ->
  CONFIG2 G "deepseek" "api_url" = Ok api_url ->
  tasks_text issues = Ok text ->
  let req := deepseek_request api_key model api_url epic_summary text in
  analyze_with_deepseek G issues epic_summary st
  = (summarizer_result (server (sent st) req),
     {| sent := (sent st ++ [req])%list; requirements_txt := requirements_txt st |}).
Proof.
  intros Hkey Hmodel Hurl Htext req.
  unfold analyze_with_deepseek, bind, lift, try_except.
  rewrite Hkey, Htext, Hmodel, Hurl. fold req. unfold http.
  destruct (server (sent st) req) as [|code payload]; simpl; [reflexivity |].
  unfold raise_for_status. simpl.
  destruct (error_status code); simpl; [reflexivity |].
  destruct payload as [data|]; simpl; [| reflexivity].
  destruct (choice_content data) as [v|e|] eqn:Hc; try reflexivity.
  now rewrite (choice_content_not_request _ _ Hc).
Qed.

End Summarizer.



(** ** Failures of the peers *)

Section Failures.

Context {H : Host}.
Variable G : namespace.

(** The three calls every stage makes on a reply raise RequestException
    exactly on a failure. *)
Lemma failed_exchange (req : request) (st : state) :
  is_failure (server (sent st) req) = true ->
  forall (A : Type) (k : pyval -> M A),
    (response <- http req ;; raise_for_status response ;; data <- response_json response ;; k data)
      st
    = (Raise RequestException,
       {| sent := (sent st ++ [req])%list; requirements_txt := requirements_txt st |}).
Proof.
  intros Hf A k. unfold bind, http.
  destruct (server (sent st) req) as [|code payload]; [reflexivity |].
  unfold raise_for_status, response_json, raise, lift, ret. simpl in *.
  destruct (error_status code); simpl in *; [reflexivity |].
  destruct payload; [discriminate | reflexivity].
Qed.






(** The stages of [pipeline] up to the summarizer, once they have returned. *)
Lemma pipeline_from_summarizer (fuel : nat) (epic_key epic_info epic_summary : pyval)
  (issues : list pyval) (st0 st1 st2 : state) :
  (let? c := load_CONFIG G in subscript c "epic_key") = Ok epic_key ->
  get_epic_info G epic_key st0 = (Ok epic_info, st1) ->
  get_jira_issues G fuel epic_key st1 = (Ok issues, st2) ->
  subscript epic_info "summary" = Ok epic_summary ->
  pipeline G fuel st0
  = (analysis <- analyze_with_deepseek G issues epic_summary ;;
     content <- lift (generate_content G strftime issues analysis epic_info) ;;
     page <- find_confluence_page G epic_key ;;
     published <- update_confluence_page G page content epic_info ;;
     base <- lift (CONFIG2 G "confluence" "url") ;;
     webui <- lift (let? links := subscript published "_links" in subscript links "webui") ;;
     ret tt) st2.
Proof.
  intros Hkey Hepic Hissues Hsum. unfold pipeline.
  unfold bind at 1. unfold lift at 1. rewrite Hkey.
  unfold bind at 1. rewrite Hepic.
  unfold bind at 1. rewrite Hissues.
  unfold bind at 1. unfold lift at 1. rewrite Hsum.
  reflexivity.
Qed.

Lemma main_after_startup (fuel : nat) (st st0 : state) :
  startup G st = (Ok tt, st0) ->
  main G fuel st
  = match pipeline G fuel st0 with
    | (Raise e, st') => if is_Exception e then (Raise (SystemExit 1), st') else (Raise e, st')
    | other => other
    end.
Proof.
  intros Hs. unfold main, try_except, main_body. unfold bind at 1. rewrite Hs.
  destruct (pipeline G fuel st0) as [[u|e|] st']; reflexivity.
Qed.


End Failures.

(** C9.  A reply with a 2xx status whose body is a JSON object with an empty
    [choices] list is no failure for requests, so nothing is caught:
    indexing the empty list raises IndexError, the handler of [main] turns
    it into exit status 1, and the last request of the run is the one to
    the summarizer: nothing reaches the document store. *)
Theorem empty_choices_abort (H : Host) (G : namespace) (fuel : nat)
  (epic_key epic_info epic_summary api_key model api_url : pyval) (issues : list pyval)
  (text : string) (code : Z) (kvs : list (string * pyval)) (st st0 st1 st2 : state) :
  startup G st = (Ok tt, st0) ->
  (let? c := load_CONFIG G in subscript c "epic_key") = Ok epic_key ->
  get_epic_info G epic_key st0 = (Ok epic_info, st1) ->
  get_jira_issues G fuel epic_key st1 = (Ok issues, st2) ->
  subscript epic_info "summary" = Ok epic_summary ->
  CONFIG2 G "deepseek" "api_key" = Ok api_key ->
  CONFIG2 G "deepseek" "model" = Ok model ->
  CONFIG2 G "deepseek" "api_url" = Ok api_url ->
  tasks_text issues = Ok text ->
  let req := deepseek_request api_key model api_url epic_summary text in
  server (sent st2) req = Response code (Some (VDict kvs)) ->
  (200 <= code < 300)%Z ->
  assoc "choices" kvs = Some (VList []) ->
  let st3 := {| sent := (sent st2 ++ [req])%list; requirements_txt := requirements_txt st2 |} in
  analyze_with_deepseek G issues epic_summary st2 = (Raise IndexError, st3)
  /\ main G fuel st = (Raise (SystemExit 1), st3).
Proof.
  intros Hstart Hkey Hepic Hissues Hsum Hk Hm Hu Htext req Hreply Hcode Hchoices st3.
  assert (Hrun : analyze_with_deepseek G issues epic_summary st2 = (Raise IndexError, st3)).
  { rewrite (analyze_run G issues epic_summary _ _ _ _ st2 Hk Hm Hu Htext).
    fold req. rewrite Hreply. unfold summarizer_result, error_status.
    replace ((400 <=? code)%Z && (code <? 600)%Z) with false
      by (symmetry; apply andb_false_iff; left; apply Z.leb_gt; lia).
    unfold choice_content, py_get. now rewrite Hchoices. }
  split; [exact Hrun |].
  rewrite (main_after_startup G fuel st st0 Hstart).
  rewrite (pipeline_from_summarizer G fuel _ _ _ _ _ _ _ Hkey Hepic Hissues Hsum).
  unfold bind at 1. now rewrite Hrun.
Qed.

Lemma empty_choices_abort_witness :
  let H := demo_host (demo_server (Response 200 (Some (VDict [("choices", VList [])]))) []) in
  fst (main demo_namespace 5 initial) = Raise (SystemExit 1)
  /\ map url (sent (snd (main demo_namespace 5 initial)))
     = [VStr "https://jira.example/rest/api/3/issue/PROJ-1?fields=summary,description";
        url (search_request (VStr "https://jira.example") (VStr "PROJ-1")
               (VStr "bot", VStr "t1") 0);
        VStr "https://llm.example/chat"].
Proof.
  intros H.
  assert (Hissues : exists issues st2,
             get_jira_issues demo_namespace 5 (VStr "PROJ-1")
               (snd (get_epic_info demo_namespace (VStr "PROJ-1") initial))
             = (Ok issues, st2)
             /\ map url (sent st2)
                = [VStr "https://jira.example/rest/api/3/issue/PROJ-1?fields=summary,description";
                   url (search_request (VStr "https://jira.example") (VStr "PROJ-1")
                          (VStr "bot", VStr "t1") 0)]
             /\ server (sent st2)
                  (deepseek_request (VStr "k") (VStr "m") (VStr "https://llm.example/chat")
                     (VStr "Launch")
                     (match tasks_text issues with Ok t => t | _ => "" end))
                = Response 200 (Some (VDict [("choices", VList [])]))
             /\ tasks_text issues
                = Ok (match tasks_text issues with Ok t => t | _ => "" end)).
  { eexists. eexists. split; [vm_compute; reflexivity |]. repeat split. }
  destruct Hissues as (issues & st2 & Hissues & Hsent & Hreply & Htext).
  destruct (empty_choices_abort H demo_namespace 5 (VStr "PROJ-1") launch_epic (VStr "Launch")
              (VStr "k") (VStr "m") (VStr "https://llm.example/chat") issues _ 200
              [("choices", VList [])] initial initial _ st2
              eq_refl eq_refl eq_refl Hissues eq_refl eq_refl eq_refl eq_refl Htext Hreply
              ltac:(lia) eq_refl) as [_ Hmain].
  rewrite Hmain. split; [reflexivity |].
  simpl sent. rewrite map_app, Hsent. reflexivity.
Defined.



(** ** Tracker: sorting *)

Section Sorting.

Variable K : Type.
Variable ltb : K -> K -> bool.
Hypothesis ltb_asym : forall a b, ltb a b = true -> ltb b a = false.
Hypothesis geb_trans : forall a b c, ltb a b = false -> ltb b c = false -> ltb a c = false.

Lemma insert_desc_perm (x : K * pyval) (l : list (K * pyval)) :
  Permutation (insert_desc ltb x l) (x :: l).
Proof.
  induction l as [|y ys IH]; simpl; [reflexivity |].
  destruct (ltb (fst x) (fst y)); [| reflexivity].
  rewrite IH. apply perm_swap.
Qed.

Lemma sort_desc_perm (l : list (K * pyval)) : Permutation (sort_desc ltb l) l.
Proof.
  induction l as [|x l IH]; simpl; [reflexivity |].
  rewrite insert_desc_perm. now apply perm_skip.
Qed.

Lemma insert_desc_sorted (x : K * pyval) (l : list (K * pyval)) :
  StronglySorted (desc ltb) l -> StronglySorted (desc ltb) (insert_desc ltb x l).
Proof.
  induction 1 as [|y ys Hs IH Hy]; simpl.
  - repeat constructor.
  - destruct (ltb (fst x) (fst y)) eqn:Hxy.
    + constructor; [exact IH |].
      apply (Permutation_Forall (Permutation_sym (insert_desc_perm x ys))).
      constructor; [| exact Hy]. unfold desc. now apply ltb_asym.
    + constructor; [now constructor |].
      constructor; [exact Hxy |].
      apply (Forall_impl _ (P := desc ltb y)); [| exact Hy].
      intros z Hz. unfold desc in *. now apply geb_trans with (b := fst y).
Qed.

Lemma sort_desc_sorted (l : list (K * pyval)) : StronglySorted (desc ltb) (sort_desc ltb l).
Proof.
  induction l as [|x l IH]; simpl; [constructor | now apply insert_desc_sorted].
Qed.

End Sorting.

Lemma ascii_compare_refl (a : ascii) : Ascii.compare a a = Eq.
Proof. unfold Ascii.compare. apply N.compare_refl. Qed.

(** Lexicographic order on strings: what is not below stays not below. *)
Lemma string_compare_trans_ge (a : string) :
  forall b c, String.compare a b <> Lt -> String.compare b c <> Lt -> String.compare a c <> Lt.
Proof.
  induction a as [|x a IH]; intros [|y b] [|z c]; simpl; try congruence.
  unfold Ascii.compare.
  destruct (N.compare_spec (N_of_ascii x) (N_of_ascii y)) as [Hxy|Hxy|Hxy];
    destruct (N.compare_spec (N_of_ascii y) (N_of_ascii z)) as [Hyz|Hyz|Hyz];
    destruct (N.compare_spec (N_of_ascii x) (N_of_ascii z)) as [Hxz|Hxz|Hxz];
    try congruence; try lia.
  apply IH.
Qed.

Lemma string_ltb_asym (a b : string) : String.ltb a b = true -> String.ltb b a = false.
Proof.
  unfold String.ltb. rewrite (String.compare_antisym b a).
  now destruct (String.compare a b).
Qed.

Lemma string_geb_trans (a b c : string) :
  String.ltb a b = false -> String.ltb b c = false -> String.ltb a c = false.
Proof.
  unfold String.ltb. intros Hab Hbc.
  pose proof (string_compare_trans_ge a b c) as Ht.
  destruct (String.compare a b), (String.compare b c), (String.compare a c);
    try reflexivity; try discriminate; exfalso; apply Ht; congruence.
Qed.

Lemma firstn_skipn_more {A} (a b : nat) (l : list A) :
  (firstn a l ++ firstn b (skipn a l))%list = firstn (a + b) l.
Proof.
  revert l. induction a as [|a IH]; intros l; [reflexivity |].
  destruct l as [|x l]; simpl; [now destruct b | now rewrite IH].
Qed.

Lemma map_snd_combine {A B} (l : list A) (l' : list B) :
  length l = length l' -> map snd (combine l l') = l'.
Proof.
  revert l'. induction l as [|x l IH]; intros [|y l'] Hlen; simpl in *; try discriminate.
  - reflexivity.
  - now rewrite IH by lia.
Qed.

Lemma StronglySorted_map {A B} (R : A -> A -> Prop) (R' : B -> B -> Prop) (P : A -> Prop)
  (f : A -> B) (l : list A) :
  (forall p q, P p -> P q -> R p q -> R' (f p) (f q)) ->
  Forall P l -> StronglySorted R l -> StronglySorted R' (map f l).
Proof.
  intros Hf HP Hs. induction Hs as [|x l Hs IH Hx]; simpl; [constructor |].
  inversion HP as [|? ? Px Pl]; subst.
  constructor; [now apply IH |].
  rewrite Forall_forall in *. intros y Hy.
  apply in_map_iff in Hy as (q & <- & Hq). apply Hf; auto.
Qed.

Section Stamps.

Context {H : Host}.

Lemma stamps_keys (items : list pyval) :
  Forall has_stamp items ->
  mapR updated_key items = Ok (map VStr (map updated_text items)).
Proof.
  induction 1 as [|x l [s Hs] _ IH]; simpl; [reflexivity |].
  unfold updated_text at 1. rewrite Hs, IH. reflexivity.
Qed.

Lemma str_keys_map (ss : list string) : str_keys (map VStr ss) = Some ss.
Proof.
  induction ss as [|s ss IH]; simpl; [reflexivity | now rewrite IH].
Qed.

(** With a string stamp on every item, [sorted] returns the items in the
    stable descending arrangement. *)
Lemma sorted_by_updated_desc_stamps (items : list pyval) :
  Forall has_stamp items ->
  sorted_by_updated_desc items
  = Ok (map snd (sort_desc String.ltb (combine (map updated_text items) items))).
Proof.
  intros Hst. unfold sorted_by_updated_desc.
  rewrite (stamps_keys items Hst). cbn [rbind]. rewrite str_keys_map.
  destruct items as [|x [|y rest]]; reflexivity.
Qed.

Lemma sorted_by_updated_desc_spec (items : list pyval) :
  Forall has_stamp items ->
  exists out,
    sorted_by_updated_desc items = Ok out
    /\ Permutation out items
    /\ StronglySorted not_older out.
Proof.
  intros Hst. rewrite (sorted_by_updated_desc_stamps items Hst). eexists. split; [reflexivity |].
  set (pairs := combine (map updated_text items) items).
  assert (Hpairs : Forall (fun p => fst p = updated_text (snd p)) pairs).
  { subst pairs. clear Hst. induction items as [|x l IH]; simpl; constructor; auto. }
  split.
  - rewrite (Permutation_map snd (sort_desc_perm _ String.ltb pairs)).
    subst pairs. rewrite map_snd_combine; [reflexivity | now rewrite length_map].
  - apply (StronglySorted_map (desc String.ltb) not_older
             (fun p => fst p = updated_text (snd p)) snd).
    + intros p q Hp Hq Hd. unfold not_older, desc in *. now rewrite <- Hp, <- Hq.
    + apply (Permutation_Forall (Permutation_sym (sort_desc_perm _ String.ltb pairs))).
      exact Hpairs.
    + apply sort_desc_sorted; [exact string_ltb_asym | exact string_geb_trans].
Qed.

(** The key of the sort is the stamp of the issue. *)
Lemma stamp_updated_key (x : pyval) (s : string) :
  stamp x = Some s -> updated_key x = Ok (VStr s).
Proof.
  unfold stamp, updated_key, py_get. destruct x as [| | | | |kvs]; try discriminate.
  destruct (assoc "fields" kvs) as [[| | | | |fields]|]; try discriminate. cbn [rbind].
  destruct (assoc "updated" fields) as [[| | |t| |]|]; try discriminate.
  now intros [= ->].
Qed.

Lemma stamped_has_stamp (items : list pyval) :
  Forall stamped items -> Forall has_stamp items.
Proof.
  apply Forall_impl. intros x [s Hs]. exists s. now apply stamp_updated_key.
Qed.

Lemma not_older_newer_first (a b : pyval) :
  stamped a -> stamped b -> not_older a b -> newer_first a b.
Proof.
  intros [s Hs] [t Ht] Hab. exists s, t. split; [exact Hs |]. split; [exact Ht |].
  unfold not_older, updated_text in Hab.
  now rewrite (stamp_updated_key a s Hs), (stamp_updated_key b t Ht) in Hab.
Qed.

Lemma sorted_newer_first (out : list pyval) :
  Forall stamped out -> StronglySorted not_older out -> StronglySorted newer_first out.
Proof.
  intros Hst Hsorted. induction Hsorted as [|a l Hl IH Ha]; [constructor |].
  inversion Hst as [|? ? Hsa Hsl]; subst. constructor; [now apply IH |].
  rewrite Forall_forall in *. intros b Hb.
  apply not_older_newer_first; auto.
Qed.

(** On issues that all carry a stamp, the sort returns them, each once, the
    latest first. *)
Lemma sorted_by_stamp (items : list pyval) :
  Forall stamped items ->
  exists out,
    sorted_by_updated_desc items = Ok out
    /\ Permutation out items
    /\ StronglySorted newer_first out.
Proof.
  intros Hst.
  destruct (sorted_by_updated_desc_spec items (stamped_has_stamp items Hst))
    as (out & Hrun & Hperm & Hdesc).
  exists out. split; [exact Hrun |]. split; [exact Hperm |].
  apply sorted_newer_first; [| exact Hdesc].
  exact (Permutation_Forall (Permutation_sym Hperm) Hst).
Qed.

End Stamps.

(** ** Tracker: paging *)

Section Paging.

Context {H : Host}.
Variable G : namespace.
Variables (epic_key base : pyval) (credentials : pyval * pyval) (db : list pyval).

Hypothesis Hbase : CONFIG2 G "jira" "url" = Ok base.
Hypothesis Hauth : basic_auth G "jira" = Ok credentials.
Hypothesis Htracker :
  forall history k,
    100 * k <= length db ->
    server history (search_request base epic_key credentials (Z.of_nat (100 * k)))
    = Response 200 (Some (tracker_page db (100 * k))).

Lemma fetch_page_tracker (k : nat) (all_issues : list pyval) (st : state) :
  100 * k <= length db ->
  fetch_page G epic_key (Z.of_nat (100 * k)) all_issues st
  = (Ok ((all_issues ++ firstn 100 (skipn (100 * k) db))%list,
         (Z.of_nat (length db) <=? Z.of_nat (100 * k) + max_results)%Z),
     {| sent := (sent st ++ [search_request base epic_key credentials (Z.of_nat (100 * k))])%list;
        requirements_txt := requirements_txt st |}).
Proof.
  intros Hk. unfold fetch_page, bind, lift, try_except, http.
  rewrite Hbase, Hauth, (Htracker _ k Hk). reflexivity.
Qed.

Lemma fetch_pages_tracker (fuel : nat) :
  forall (k : nat) (st : state),
    100 * k <= length db ->
    length db <= 100 * (k + fuel) ->
    0 < fuel ->
    exists n st',
      fetch_pages G fuel epic_key (Z.of_nat (100 * k)) (firstn (100 * k) db) st = (Ok db, st')
      /\ sent st' = (sent st ++ map (fun j => search_request base epic_key credentials (Z.of_nat (100 * j)))
                           (seq k n))%list
      /\ 0 < n
      /\ length db <= 100 * (k + n)
      /\ (n = 1 \/ 100 * (k + n - 1) < length db).
Proof.
  induction fuel as [|fuel IH]; intros k st Hk Hfuel Hpos; [lia |].
  cbn [fetch_pages]. unfold bind at 1. rewrite (fetch_page_tracker k _ st Hk). cbn [fst snd].
  rewrite firstn_skipn_more. unfold max_results.
  destruct (Z.leb_spec (Z.of_nat (length db)) (Z.of_nat (100 * k) + 100)) as [Hstop|Hmore].
  - exists 1. eexists. split.
    + unfold ret. rewrite firstn_all2 by lia. reflexivity.
    + split; [reflexivity | split; [lia | split; [lia | now left]]].
  - replace (Z.of_nat (100 * k) + 100)%Z with (Z.of_nat (100 * S k)) by lia.
    replace (100 * k + 100) with (100 * S k) by lia.
    destruct (IH (S k) {| sent := (sent st ++ [search_request base epic_key credentials (Z.of_nat (100 * k))])%list;
                          requirements_txt := requirements_txt st |})
      as (n & st' & Hrun & Hsent & Hn & Hlen & Hmin); try lia.
    exists (S n), st'. split; [exact Hrun |]. split.
    + rewrite Hsent. cbn [sent seq map]. now rewrite <- app_assoc.
    + split; [lia |]. split; [lia |]. right. lia.
Qed.

End Paging.

(** C3.  Against a tracker that holds the issues [db] of the epic, each
    with a string under [fields.updated], and answers every search at an
    offset with the next hundred and the total: [get_jira_issues] asks for
    the offsets 0, 100, 200, ... with one filter and one field list, stops
    at the first page that reaches the total, and returns the issues of
    [db], each once, in descending order of that string (those with equal
    stamps side by side). *)
Theorem fetch_all_pages (H : Host) (G : namespace) (epic_key base : pyval)
  (credentials : pyval * pyval) (db : list pyval) (fuel : nat) (st : state) :
  CONFIG2 G "jira" "url" = Ok base ->
  basic_auth G "jira" = Ok credentials ->
  (forall history k,
      100 * k <= length db ->
      server history (search_request base epic_key credentials (Z.of_nat (100 * k)))
      = Response 200 (Some (tracker_page db (100 * k)))) ->
  Forall stamped db ->
  length db < 100 * fuel ->
  exists out st' n,
    get_jira_issues G fuel epic_key st = (Ok out, st')
    /\ Permutation out db
    /\ StronglySorted newer_first out
    /\ sent st'
       = (sent st
          ++ map (fun k => search_request base epic_key credentials (Z.of_nat (100 * k)))
               (seq 0 n))%list
    /\ 0 < n
    /\ length db <= 100 * n
    /\ (n = 1 \/ 100 * (n - 1) < length db).
Proof.
  intros Hbase Hauth Htracker Hstamps Hfuel.
  destruct (fetch_pages_tracker G epic_key base credentials db Hbase Hauth Htracker fuel 0 st)
    as (n & st' & Hrun & Hsent & Hn & Hlen & Hmin); try lia.
  destruct (sorted_by_stamp db Hstamps) as (out & Hsorted & Hperm & Hdesc).
  exists out, st', n. split.
  - unfold get_jira_issues, bind, lift. change (Z.of_nat (100 * 0)) with 0%Z in Hrun.
    change (firstn (100 * 0) db) with (@nil pyval) in Hrun.
    now rewrite Hrun, Hsorted.
  - repeat split; assumption.
Qed.

Lemma tracker_db_stamps : Forall stamped tracker_db.
Proof.
  apply Forall_forall. intros x Hx. unfold tracker_db in Hx.
  apply in_map_iff in Hx as (i & <- & _). eexists. reflexivity.
Qed.

Lemma fetch_all_pages_witness :
  let H := demo_host (tracker_server tracker_db) in
  exists out st',
    get_jira_issues demo_namespace 3 (VStr "PROJ-1") initial = (Ok out, st')
    /\ Permutation out tracker_db
    /\ StronglySorted newer_first out
    /\ sent st'
       = [search_request (VStr "https://jira.example") (VStr "PROJ-1") (VStr "bot", VStr "t1") 0;
          search_request (VStr "https://jira.example") (VStr "PROJ-1") (VStr "bot", VStr "t1")
            100].
Proof.
  intros H.
  assert (Hlen : length tracker_db = 150) by reflexivity.
  destruct (fetch_all_pages H demo_namespace (VStr "PROJ-1") (VStr "https://jira.example")
              (VStr "bot", VStr "t1") tracker_db 3 initial eq_refl eq_refl)
    as (out & st' & n & Hrun & Hperm & Hsorted & Hsent & Hn & Hcover & Hmin).
  - intros history k Hk. rewrite Hlen in Hk.
    assert (Hcases : k = 0 \/ k = 1) by lia.
    destruct Hcases as [-> | ->]; vm_compute; reflexivity.
  - exact tracker_db_stamps.
  - rewrite Hlen. lia.
  - rewrite Hlen in Hcover, Hmin.
    assert (Hn2 : n = 2) by lia. subst n.
    exists out, st'. repeat split; assumption.
Defined.

(** ** Orchestration without [CONFIG] *)

Section Unbound.

Context {H : Host}.
Variable G : namespace.

Lemma missing_dependencies_raise (reqs : list (string * (string * string))) :
  forall missing,
    match missing_dependencies G reqs missing with
    | Ok _ => True
    | Raise e => is_Exception e = true
    | OutOfFuel => False
    end.
Proof.
  induction reqs as [|[package [min_version purpose]] rest IH]; intros missing; simpl;
    [exact I |].
  unfold probe, module_attr.
  destruct (lookup_name "importlib" G) as [[v|]|]; cbn [rbind]; try reflexivity.
  destruct (import_module package); cbn [rbind]; [| apply IH].
  destruct (lookup_name "pkg_resources" G) as [[v|]|]; cbn [rbind]; try reflexivity.
  destruct (distribution_version package) as [installed|]; cbn [rbind]; [| reflexivity].
  destruct (version_lt installed min_version) as [older|]; cbn [rbind]; [| reflexivity].
  apply IH.
Qed.

Lemma check_dependencies_outcome :
  match check_dependencies G with
  | Ok _ => True
  | Raise e => e = SystemExit 1 \/ is_Exception e = true
  | OutOfFuel => False
  end.
Proof.
  unfold check_dependencies.
  pose proof (missing_dependencies_raise required []) as Hm.
  destruct (missing_dependencies G required []) as [missing|e|]; cbn [rbind]; auto.
  destruct missing; auto.
Qed.

Lemma ensure_requirements_outcome (st : state) :
  (exists st', ensure_requirements st = (Ok tt, st') /\ sent st' = sent st)
  \/ ensure_requirements st = (Raise OSError, st).
Proof.
  unfold ensure_requirements, create_default_requirements.
  destruct (requirements_txt st); [left; eauto |].
  destruct can_write; [left; eauto | now right].
Qed.

Hypothesis unbound : lookup_name "CONFIG" G = None.

Lemma load_CONFIG_unbound : load_CONFIG G = Raise (NameError "CONFIG").
Proof. unfold load_CONFIG. now rewrite unbound. Qed.

Lemma CONFIG2_unbound (a b : string) : CONFIG2 G a b = Raise (NameError "CONFIG").
Proof. unfold CONFIG2. now rewrite load_CONFIG_unbound. Qed.

Lemma pipeline_unbound (fuel : nat) (st : state) :
  pipeline G fuel st = (Raise (NameError "CONFIG"), st).
Proof.
  unfold pipeline, bind, lift. now rewrite load_CONFIG_unbound.
Qed.

Lemma update_request_unbound (page : pyval) (content : string) (epic_info : pyval) :
  exists e, update_request G page content epic_info = Raise e.
Proof.
  unfold update_request, subscript.
  destruct epic_info; cbn [rbind]; eauto.
  destruct (assoc "key" kvs); cbn [rbind]; eauto.
  destruct (assoc "summary" kvs); cbn [rbind]; eauto.
  rewrite CONFIG2_unbound. cbn [rbind]. eauto.
Qed.

(** Without [CONFIG] the statements under the [try] always raise, and
    nothing has been sent when they do. *)
Lemma main_body_unbound (fuel : nat) (st : state) :
  exists e st',
    main_body G fuel st = (Raise e, st')
    /\ sent st' = sent st
    /\ (e = SystemExit 1 \/ is_Exception e = true).
Proof.
  unfold main_body, startup, bind, lift, raise, ret.
  destruct import_guard.
  - pose proof check_dependencies_outcome as Hc.
    destruct (check_dependencies G) as [u|e|]; [| eauto | contradiction].
    destruct (ensure_requirements_outcome st) as [(st' & -> & Hs) | ->].
    + rewrite pipeline_unbound.
      do 2 eexists. split; [reflexivity | split; [exact Hs | now right]].
    + do 2 eexists. split; [reflexivity | split; [reflexivity | now right]].
  - destruct (ensure_requirements_outcome st) as [(st' & -> & Hs) | ->].
    + do 2 eexists. split; [reflexivity | split; [exact Hs | now left]].
    + do 2 eexists. split; [reflexivity | split; [reflexivity | now right]].
Qed.

Lemma main_unbound (fuel : nat) (st : state) :
  exists st', main G fuel st = (Raise (SystemExit 1), st') /\ sent st' = sent st.
Proof.
  destruct (main_body_unbound fuel st) as (e & st' & Hb & Hs & He).
  exists st'. split; [| exact Hs].
  unfold main, try_except. rewrite Hb.
  destruct He as [-> | He]; [reflexivity | now rewrite He].
Qed.

End Unbound.

Lemma module_has_no_CONFIG : lookup_name "CONFIG" module_namespace = None.
Proof. reflexivity. Qed.

(** In the module as written, [check_dependencies] stops at its first
    statement: [importlib] is a local name of [main], not a global. *)
Lemma check_dependencies_in_module (H : Host) :
  check_dependencies module_namespace = Raise (NameError "importlib").
Proof. reflexivity. Qed.

(** C2.  The module binds no [CONFIG], and every run of [main] in it ends
    with exit status 1 and not one request sent.  When the imports at the
    top of [main] succeed the run reaches the [except Exception] handler
    (with a NameError, already from [check_dependencies], which looks for
    [importlib] among the globals); when they fail it exits from the
    ImportError handler.  And were those checks passed, in any namespace
    that lacks [CONFIG]: [main] still exits with status 1 before any
    request, and the stages that talk to the tracker, the summarizer and the
    store raise NameError as soon as they are called. *)
Theorem main_never_publishes :
  lookup_name "CONFIG" module_namespace = None
  /\ (forall (H : Host) (fuel : nat) (st : state),
        exists st',
          main module_namespace fuel st = (Raise (SystemExit 1), st')
          /\ sent st' = sent st
          /\ (import_guard = true ->
              main_body module_namespace fuel st = (Raise (NameError "importlib"), st)))
  /\ (forall (H : Host) (G : namespace) (fuel : nat) (st : state),
        lookup_name "CONFIG" G = None ->
        (exists st', main G fuel st = (Raise (SystemExit 1), st') /\ sent st' = sent st)
        /\ pipeline G fuel st = (Raise (NameError "CONFIG"), st)
        /\ (forall epic_key, get_epic_info G epic_key st = (Raise (NameError "CONFIG"), st))
        /\ (forall epic_key, get_jira_issues G (S fuel) epic_key st
                             = (Raise (NameError "CONFIG"), st))
        /\ (forall issues summary, analyze_with_deepseek G issues summary st
                                   = (Raise (NameError "CONFIG"), st))
        /\ (forall epic_key, find_confluence_page G epic_key st
                             = (Raise (NameError "CONFIG"), st))
        /\ (forall page content epic_info,
              sent (snd (update_confluence_page G page content epic_info st)) = sent st
              /\ exists e, fst (update_confluence_page G page content epic_info st) = Raise e)
        /\ (forall t issue rest analysis epic_info,
              exists e, generate_content G t (issue :: rest) analysis epic_info = Raise e)).
Proof.
  split; [reflexivity |]. split.
  - intros H fuel st.
    destruct (main_unbound module_namespace module_has_no_CONFIG fuel st) as (st' & Hm & Hs).
    exists st'. split; [exact Hm |]. split; [exact Hs |].
    intros Hguard. unfold main_body, startup, bind, lift, ret. rewrite Hguard.
    now rewrite check_dependencies_in_module.
  - intros H G fuel st Hun. split; [now apply main_unbound |].
    split; [now apply pipeline_unbound |].
    repeat split.
    + intros epic_key. unfold get_epic_info, bind, lift.
      now rewrite (CONFIG2_unbound G Hun).
    + intros epic_key. unfold get_jira_issues, bind. cbn [fetch_pages].
      unfold fetch_page, bind, lift. now rewrite (CONFIG2_unbound G Hun).
    + intros issues summary. unfold analyze_with_deepseek, bind, lift.
      now rewrite (CONFIG2_unbound G Hun).
    + intros epic_key. unfold find_confluence_page, bind, lift.
      now rewrite (CONFIG2_unbound G Hun).
    + destruct (update_request_unbound G Hun page content epic_info) as [e He].
      unfold update_confluence_page, bind, lift. now rewrite He.
    + destruct (update_request_unbound G Hun page content epic_info) as [e He].
      exists e. unfold update_confluence_page, bind, lift. now rewrite He.
    + intros t issue rest analysis epic_info.
      pose proof (generate_content_fuel H G t (issue :: rest) analysis epic_info) as Hfuel.
      destruct (generate_content G t (issue :: rest) analysis epic_info) as [d|e|] eqn:Hd;
        [| eauto | now elim Hfuel].
      apply generate_content_inv in Hd as (k & s & de & rows & text & _ & _ & _ & Hr & _).
      simpl in Hr. peel Hr. clear Hr.
      match goal with E : render_row _ _ = Ok _ |- _ => apply render_row_inv in E
        as (? & ? & ? & ? & ? & ? & ? & ? & ? & ? & _ & _ & _ & _ & _ & _ & _ & _ & _ & E & _)
      end.
      now rewrite (CONFIG2_unbound G Hun) in E.
Qed.

(** ** The example of the description, run on the model *)

Lemma analysis_embedded_unescaped_witness :
  let H := demo_host (demo_server NoReply []) in
  exists d,
    generate_content demo_namespace strftime demo_issues
      (VStr ("<b>late</b>" ++ nl ++ "next")) launch_epic = Ok d
    /\ contains "<b>late</b>" d = true
    /\ contains "&lt;" (escape_str "<b>late</b>") = true.
Proof.
  intros H.
  assert (Hd : exists d,
             generate_content demo_namespace strftime demo_issues
               (VStr ("<b>late</b>" ++ nl ++ "next")) launch_epic = Ok d)
    by (vm_compute; eauto).
  destruct Hd as [d Hd]. exists d. split; [exact Hd |].
  destruct (analysis_embedded_unescaped H demo_namespace strftime demo_issues _ launch_epic d Hd)
    as (_ & Hmarkup & _).
  split; [apply Hmarkup; reflexivity | reflexivity].
Defined.

Example example_order_and_classes :
  let H := demo_host (demo_server NoReply []) in
  fst (get_jira_issues demo_namespace 2 (VStr "PROJ-1") initial)
  = Ok [issue "PROJ-3" "Open" "Low" "2024-01-05";
        issue "PROJ-2" "Готово" "Высокий" "2024-01-02"]
  /\ status_class "Готово" = "status-done"
  /\ status_class "Open" = "status-open"
  /\ status_class "" = "status-open"
  /\ status_class "В ПРОГРЕССЕ" = "status-inprogress"
  /\ priority_class "Высокий" = "priority-high"
  /\ priority_class "Low" = "priority-low".
Proof. vm_compute. repeat split. Qed.

(** * Further properties of the module *)

(** ** Configuration file *)

Lemma check_keys_returns (keys : list string) (config c : pyval) :
  check_keys keys config = inr c <->
  c = config /\ Forall (fun key => py_in key config = Some true) keys.
Proof.
  induction keys as [|key rest IH]; simpl.
  - split; [intros [= <-]; auto | intros [-> _]; reflexivity].
  - destruct (py_in key config) as [[|]|] eqn:Hin.
    + rewrite IH. split; intros [-> Hall]; split; auto.
      now inversion Hall.
    + split; [discriminate | intros [_ Hall]; inversion Hall; congruence].
    + split; [discriminate | intros [_ Hall]; inversion Hall; congruence].
Qed.

(** X1.  [load_config] returns only what [json.load] read, and only when
    each of the four required keys is in it; a missing file, a file that
    cannot be opened and a text that is not JSON never give a
    configuration. *)
Theorem load_config_returns (config_path : string) (f : file) (config : pyval) :
  load_config config_path f = inr config <->
  f = Parsed config /\ Forall (fun key => py_in key config = Some true) required_keys.
Proof.
  destruct f as [| | |v]; cbn [load_config];
    try (split; [discriminate | intros [[=] _]]).
  rewrite check_keys_returns. split.
  - intros [-> Hall]. auto.
  - intros [[= ->] Hall]. auto.
Qed.

Lemma check_keys_first_missing (before after : list string) (key : string)
  (kvs : list (string * pyval)) :
  Forall (fun k => assoc k kvs <> None) before ->
  assoc key kvs = None ->
  check_keys (before ++ key :: after) (VDict kvs)
  = inl (ValueError ("Отсутствует обязательный ключ конфигурации: " ++ key)).
Proof.
  intros Hbefore Hkey. induction Hbefore as [|k l Hk _ IH]; simpl.
  - now rewrite Hkey.
  - destruct (assoc k kvs); [exact IH | now elim Hk].
Qed.

(** X2.  For a JSON object, the ValueError names the first required key,
    in the order jira, confluence, deepseek, epic_key, that the object
    lacks, whatever comes after it. *)
Theorem load_config_first_missing (config_path : string) (kvs : list (string * pyval))
  (before after : list string) (key : string) :
  required_keys = (before ++ key :: after)%list ->
  Forall (fun k => assoc k kvs <> None) before ->
  assoc key kvs = None ->
  load_config config_path (Parsed (VDict kvs))
  = inl (ValueError ("Отсутствует обязательный ключ конфигурации: " ++ key)).
Proof.
  intros Hsplit Hbefore Hkey. cbn [load_config]. rewrite Hsplit.
  now apply check_keys_first_missing.
Qed.

Lemma load_config_first_missing_witness :
  load_config "config.json"
    (Parsed (VDict [("jira", VDict []); ("epic_key", VStr "PROJ-1")]))
  = inl (ValueError "Отсутствует обязательный ключ конфигурации: confluence").
Proof.
  apply (load_config_first_missing "config.json"
           [("jira", VDict []); ("epic_key", VStr "PROJ-1")]
           ["jira"] ["deepseek"; "epic_key"] "confluence" eq_refl).
  - repeat constructor. discriminate.
  - reflexivity.
Defined.

Section Shallow.

Context {H : Host}.

Lemma CONFIG2_configured_raise (config : pyval) (a b : string) (e : exn) :
  CONFIG2 (configured config) a b = Raise e -> e = KeyError \/ e = TypeError.
Proof.
  unfold CONFIG2, load_CONFIG, configured. simpl. unfold subscript.
  destruct config; simpl; try (intros [= <-]; auto).
  destruct (assoc a kvs) as [section|]; simpl; [| intros [= <-]; auto].
  destruct section; simpl; try (intros [= <-]; auto).
  destruct (assoc b kvs0); [discriminate | intros [= <-]; auto].
Qed.

Lemma CONFIG2_configured_fuel (config : pyval) (a b : string) :
  CONFIG2 (configured config) a b <> OutOfFuel.
Proof.
  unfold CONFIG2, load_CONFIG, configured. simpl. unfold subscript.
  destruct config; simpl; try discriminate.
  destruct (assoc a kvs) as [section|]; simpl; [| discriminate].
  destruct section; simpl; try discriminate.
  destruct (assoc b kvs0); discriminate.
Qed.

(** X3.  The check of [load_config] stops at the four top-level keys.  A
    configuration it accepts in which [CONFIG['jira']['url']] cannot be
    read makes [get_epic_info] raise KeyError or TypeError (not the
    ConnectionError it reports for the tracker) before any request. *)
Theorem accepted_config_can_fail (config_path : string) (config epic_key : pyval)
  (st : state) :
  load_config config_path (Parsed config) = inr config ->
  (forall base, CONFIG2 (configured config) "jira" "url" <> Ok base) ->
  exists e,
    (e = KeyError \/ e = TypeError)
    /\ get_epic_info (configured config) epic_key st = (Raise e, st).
Proof.
  intros _ Hurl.
  destruct (CONFIG2 (configured config) "jira" "url") as [base|e|] eqn:Hc.
  - now elim (Hurl base).
  - exists e. split; [now apply (CONFIG2_configured_raise config "jira" "url") |].
    unfold get_epic_info, bind, lift. now rewrite Hc.
  - now elim (CONFIG2_configured_fuel config "jira" "url").
Qed.

End Shallow.

Lemma accepted_config_can_fail_witness :
  let H := demo_host (demo_server NoReply []) in
  let config := VDict [("jira", VNone); ("confluence", VNone); ("deepseek", VNone);
                       ("epic_key", VStr "PROJ-1")] in
  load_config "config.json" (Parsed config) = inr config
  /\ exists e,
       (e = KeyError \/ e = TypeError)
       /\ get_epic_info (configured config) (VStr "PROJ-1") initial = (Raise e, initial).
Proof.
  intros H config. split; [reflexivity |].
  apply (accepted_config_can_fail (H := H) "config.json" config (VStr "PROJ-1") initial
           eq_refl).
  intros base. discriminate.
Defined.

(** ** Tracker: the epic *)

Section Epic.

Context {H : Host}.
Variable G : namespace.

(** X4.  On a reply that is no failure and carries a JSON object,
    [get_epic_info] sends one GET with timeout 30 and returns the key it
    was given with the summary and the description of [fields]; a reply
    without [fields], or [fields] without one of the two, gives the empty
    string in its place. *)
Theorem get_epic_info_returns (epic_key base : pyval) (credentials : pyval * pyval)
  (code : Z) (kvs fields : list (string * pyval)) (st : state) :
  CONFIG2 G "jira" "url" = Ok base ->
  basic_auth G "jira" = Ok credentials ->
  server (sent st) (epic_request base epic_key credentials) = Response code (Some (VDict kvs)) ->
  error_status code = false ->
  match assoc "fields" kvs with Some f => f | None => VDict [] end = VDict fields ->
  get_epic_info G epic_key st
  = (Ok (VDict [("key", epic_key);
                ("summary", match assoc "summary" fields with Some v => v | None => VStr "" end);
                ("description",
                 match assoc "description" fields with Some v => v | None => VStr "" end)]),
     {| sent := (sent st ++ [epic_request base epic_key credentials])%list;
        requirements_txt := requirements_txt st |})
  /\ timeout (epic_request base epic_key credentials) = 30%Z
  /\ method (epic_request base epic_key credentials) = "GET".
Proof.
  intros Hbase Hauth Hreply Hcode Hfields. split; [| split; reflexivity].
  unfold get_epic_info, bind, lift, try_except, http.
  rewrite Hbase, Hauth, Hreply. unfold raise_for_status. cbn [fst snd].
  rewrite Hcode. cbn [ret response_json snd py_get]. rewrite Hfields. reflexivity.
Qed.

(** X5.  A tracker that sends [description: null] (the key is there, its
    value is not a string) gets the [None] into the epic, and the renderer
    then raises AttributeError on it for every issue list and analysis: the
    default of [fields.get] covers a missing key only. *)
Theorem null_description_aborts_rendering (key summary : string) (base : pyval)
  (credentials : pyval * pyval) (code : Z) (kvs fields : list (string * pyval)) (st : state) :
  CONFIG2 G "jira" "url" = Ok base ->
  basic_auth G "jira" = Ok credentials ->
  server (sent st) (epic_request base (VStr key) credentials)
  = Response code (Some (VDict kvs)) ->
  error_status code = false ->
  assoc "fields" kvs = Some (VDict fields) ->
  assoc "summary" fields = Some (VStr summary) ->
  assoc "description" fields = Some VNone ->
  exists epic_info st',
    get_epic_info G (VStr key) st = (Ok epic_info, st')
    /\ subscript epic_info "description" = Ok VNone
    /\ forall t issues analysis,
         generate_content G t issues analysis epic_info = Raise AttributeError.
Proof.
  intros Hbase Hauth Hreply Hcode Hfields Hsum Hdesc.
  do 2 eexists. split.
  { unfold get_epic_info, bind, lift, try_except, http.
    rewrite Hbase, Hauth, Hreply. unfold raise_for_status. cbn [fst snd].
    rewrite Hcode. cbn [ret response_json snd py_get]. rewrite Hfields.
    cbn [py_get]. rewrite Hsum, Hdesc. reflexivity. }
  split; [reflexivity |].
  intros t issues analysis. reflexivity.
Qed.

End Epic.

Lemma get_epic_info_returns_witness :
  let H := demo_host (fixed_server (json_reply (VDict [("fields", VDict [("summary", VStr "Launch")])]))) in
  get_epic_info demo_namespace (VStr "PROJ-1") initial
  = (Ok (VDict [("key", VStr "PROJ-1"); ("summary", VStr "Launch"); ("description", VStr "")]),
     {| sent := [epic_request (VStr "https://jira.example") (VStr "PROJ-1")
                   (VStr "bot", VStr "t1")];
        requirements_txt := true |}).
Proof.
  intros H.
  apply (get_epic_info_returns (H := H) demo_namespace (VStr "PROJ-1")
           (VStr "https://jira.example") (VStr "bot", VStr "t1") 200
           [("fields", VDict [("summary", VStr "Launch")])] [("summary", VStr "Launch")]
           initial eq_refl eq_refl eq_refl eq_refl eq_refl).
Defined.

Lemma null_description_aborts_rendering_witness :
  let H := demo_host (fixed_server (json_reply
             (VDict [("fields", VDict [("summary", VStr "Launch"); ("description", VNone)])]))) in
  exists epic_info st',
    get_epic_info demo_namespace (VStr "PROJ-1") initial = (Ok epic_info, st')
    /\ subscript epic_info "description" = Ok VNone
    /\ forall t issues analysis,
         generate_content demo_namespace t issues analysis epic_info = Raise AttributeError.
Proof.
  intros H.
  apply (null_description_aborts_rendering (H := H) demo_namespace "PROJ-1" "Launch"
           (VStr "https://jira.example") (VStr "bot", VStr "t1") 200
           [("fields", VDict [("summary", VStr "Launch"); ("description", VNone)])]
           [("summary", VStr "Launch"); ("description", VNone)]
           initial eq_refl eq_refl eq_refl eq_refl eq_refl eq_refl eq_refl).
Defined.

(** ** Tracker: pages that fail, shrink or never end *)

Section Pages.

Context {H : Host}.
Variable G : namespace.
Variables (epic_key base : pyval) (credentials : pyval * pyval).

Hypothesis Hbase : CONFIG2 G "jira" "url" = Ok base.
Hypothesis Hauth : basic_auth G "jira" = Ok credentials.

(** One turn of the loop on a reply that is no failure and carries a JSON
    object with a list of issues. *)
Lemma fetch_page_reply (k : nat) (all_issues page : list pyval) (code : Z)
  (kvs : list (string * pyval)) (st : state) :
  server (sent st) (search_request base epic_key credentials (Z.of_nat (100 * k)))
  = Response code (Some (VDict kvs)) ->
  error_status code = false ->
  assoc "issues" kvs = Some (VList page) ->
  fetch_page G epic_key (Z.of_nat (100 * k)) all_issues st
  = (let? stop := reached (Z.of_nat (100 * k) + max_results)
                    (match assoc "total" kvs with Some v => v | None => VInt 0 end) in
     Ok ((all_issues ++ page)%list, stop),
     {| sent := (sent st ++ [search_request base epic_key credentials
                               (Z.of_nat (100 * k))])%list;
        requirements_txt := requirements_txt st |}).
Proof.
  intros Hreply Hcode Hissues. unfold fetch_page, bind, lift, try_except, http.
  rewrite Hbase, Hauth, Hreply.
  unfold raise_for_status. cbn [fst snd]. rewrite Hcode.
  cbn [ret response_json snd py_get rbind]. rewrite Hissues. cbn [iterate rbind].
  unfold reached, as_int.
  destruct (match assoc "total" kvs with Some v => v | None => VInt 0 end);
    cbn [rbind]; reflexivity.
Qed.

Lemma fetch_page_failure (k : nat) (all_issues : list pyval) (st : state) :
  is_failure (server (sent st) (search_request base epic_key credentials (Z.of_nat (100 * k))))
  = true ->
  fetch_page G epic_key (Z.of_nat (100 * k)) all_issues st
  = (Raise ConnectionError,
     {| sent := (sent st ++ [search_request base epic_key credentials
                               (Z.of_nat (100 * k))])%list;
        requirements_txt := requirements_txt st |}).
Proof.
  intros Hf. unfold fetch_page.
  unfold bind at 1. unfold lift at 1. rewrite Hbase.
  unfold try_except. unfold bind at 1. unfold lift at 1. rewrite Hauth.
  now rewrite (failed_exchange _ _ Hf).
Qed.

(** X6.  When the tracker serves the pages before page [f] and fails on
    page [f], with issues still to come, [get_jira_issues] raises
    ConnectionError after [f + 1] requests: the issues of the pages it had
    received are not returned. *)
Theorem failing_page_discards_all (db : list pyval) (f fuel : nat) (st : state) :
  (forall history k,
      k < f ->
      server history (search_request base epic_key credentials (Z.of_nat (100 * k)))
      = Response 200 (Some (tracker_page db (100 * k)))) ->
  (forall history,
      is_failure (server history
                    (search_request base epic_key credentials (Z.of_nat (100 * f)))) = true) ->
  100 * f < length db ->
  f < fuel ->
  exists st',
    get_jira_issues G fuel epic_key st = (Raise ConnectionError, st')
    /\ sent st'
       = (sent st
          ++ map (fun k => search_request base epic_key credentials (Z.of_nat (100 * k)))
               (seq 0 (S f)))%list.
Proof.
  intros Hserve Hfail Hmore Hfuel.
  assert (Hloop : forall d k fuel' all_issues s,
             k + d = f -> d < fuel' ->
             exists s',
               fetch_pages G fuel' epic_key (Z.of_nat (100 * k)) all_issues s
               = (Raise ConnectionError, s')
               /\ sent s'
                  = (sent s
                     ++ map (fun j => search_request base epic_key credentials
                                        (Z.of_nat (100 * j)))
                          (seq k (S d)))%list).
  { induction d as [|d IH]; intros k fuel' all_issues s Hk Hd;
      (destruct fuel' as [|fuel']; [lia |]); cbn [fetch_pages]; unfold bind at 1.
    - replace k with f by lia. rewrite (fetch_page_failure f _ s (Hfail _)).
      eexists. split; reflexivity.
    - rewrite (fetch_page_reply k all_issues (firstn 100 (skipn (100 * k) db)) 200 _ s
                 (Hserve _ k ltac:(lia)) eq_refl eq_refl).
      cbn [assoc String.eqb Ascii.eqb Bool.eqb]. unfold reached, as_int, max_results.
      cbn [rbind fst snd].
      replace (Z.of_nat (length db) <=? Z.of_nat (100 * k) + 100)%Z with false
        by (symmetry; apply Z.leb_gt; lia).
      replace (Z.of_nat (100 * k) + 100)%Z with (Z.of_nat (100 * S k)) by lia.
      destruct (IH (S k) fuel' (all_issues ++ firstn 100 (skipn (100 * k) db))%list
                  {| sent := (sent s ++ [search_request base epic_key credentials
                                           (Z.of_nat (100 * k))])%list;
                     requirements_txt := requirements_txt s |})
        as (s' & Hrun & Hsent); try lia.
      exists s'. split; [exact Hrun |].
      rewrite Hsent. cbn [sent seq map]. now rewrite <- app_assoc. }
  destruct (Hloop f 0 fuel [] st) as (st' & Hrun & Hsent); try lia.
  exists st'. split; [| exact Hsent].
  unfold get_jira_issues, bind. change 0%Z with (Z.of_nat (100 * 0)). now rewrite Hrun.
Qed.

(** X7.  The loop has no bound of its own: against a tracker whose total is
    always beyond the next offset, it asks again as long as it is let
    (here: for all the fuel it is given), one request per turn, and does not
    return. *)
Theorem growing_total_never_ends (fuel : nat) (st : state) :
  (forall history req, server history req = Response 200 (Some (growing_page (length history)))) ->
  exists st',
    get_jira_issues G fuel epic_key st = (OutOfFuel, st')
    /\ length (sent st') = length (sent st) + fuel.
Proof.
  intros Hserve.
  assert (Hloop : forall fuel' k all_issues s,
             k <= length (sent s) ->
             exists s',
               fetch_pages G fuel' epic_key (Z.of_nat (100 * k)) all_issues s = (OutOfFuel, s')
               /\ length (sent s') = length (sent s) + fuel').
  { induction fuel' as [|fuel' IH]; intros k all_issues s Hk; cbn [fetch_pages].
    - exists s. split; [reflexivity | lia].
    - unfold bind at 1.
      rewrite (fetch_page_reply k all_issues [] 200 _ s (Hserve _ _) eq_refl eq_refl).
      cbn [assoc String.eqb Ascii.eqb Bool.eqb]. unfold reached, as_int, max_results.
      cbn [rbind fst snd].
      replace (Z.of_nat (100 * length (sent s) + 200) <=? Z.of_nat (100 * k) + 100)%Z
        with false by (symmetry; apply Z.leb_gt; lia).
      replace (Z.of_nat (100 * k) + 100)%Z with (Z.of_nat (100 * S k)) by lia.
      destruct (IH (S k) (all_issues ++ [])%list
                  {| sent := (sent s ++ [search_request base epic_key credentials
                                           (Z.of_nat (100 * k))])%list;
                     requirements_txt := requirements_txt s |})
        as (s' & Hrun & Hlen).
      + cbn [sent]. rewrite List.length_app. simpl. lia.
      + exists s'. split; [exact Hrun |].
        rewrite Hlen. cbn [sent]. rewrite List.length_app. simpl. lia. }
  destruct (Hloop fuel 0 [] st) as (st' & Hrun & Hlen); [lia |].
  exists st'. split; [| exact Hlen].
  unfold get_jira_issues, bind. change 0%Z with (Z.of_nat (100 * 0)). now rewrite Hrun.
Qed.

(** X8.  The total defaults to 0: when the reply to the first request has
    no [total], the loop stops there, and the issues of that one page, in
    descending order of the string under [fields.updated], are all that is
    returned, however many the tracker has. *)
Theorem missing_total_stops_at_first_page (fuel : nat) (page : list pyval) (code : Z)
  (kvs : list (string * pyval)) (st : state) :
  server (sent st) (search_request base epic_key credentials 0)
  = Response code (Some (VDict kvs)) ->
  error_status code = false ->
  assoc "issues" kvs = Some (VList page) ->
  assoc "total" kvs = None ->
  Forall stamped page ->
  exists out,
    get_jira_issues G (S fuel) epic_key st
    = (Ok out,
       {| sent := (sent st ++ [search_request base epic_key credentials 0])%list;
          requirements_txt := requirements_txt st |})
    /\ Permutation out page
    /\ StronglySorted newer_first out.
Proof.
  intros Hreply Hcode Hissues Htotal Hstamps.
  destruct (sorted_by_stamp page Hstamps) as (out & Hsorted & Hperm & Hdesc).
  exists out. split; [| split; assumption].
  unfold get_jira_issues. cbn [fetch_pages]. unfold bind at 1. unfold bind at 1.
  change 0%Z with (Z.of_nat (100 * 0)).
  rewrite (fetch_page_reply 0 [] page code kvs st Hreply Hcode Hissues), Htotal.
  cbn. unfold lift. now rewrite Hsorted.
Qed.

(** X9.  The offset advances by 100 whatever a page holds.  Against a
    tracker that puts at most [cap] issues on a page, nothing is returned
    that the tracker does not have, and the issues between [cap] and 100 of
    a page are skipped: with [cap] below 100 and below the number of issues,
    fewer issues come back than the tracker has. *)
Theorem short_pages_lose_issues (db : list pyval) (cap fuel : nat) (st : state) :
  (forall history k,
      100 * k <= length db ->
      server history (search_request base epic_key credentials (Z.of_nat (100 * k)))
      = Response 200 (Some (capped_page cap db (100 * k)))) ->
  Forall has_stamp db ->
  cap < 100 ->
  cap < length db ->
  length db < 100 * fuel ->
  exists out st',
    get_jira_issues G fuel epic_key st = (Ok out, st')
    /\ (forall x, In x out -> In x db)
    /\ length out < length db.
Proof.
  intros Hserve Hstamps Hcap Hsome Hfuel.
  assert (Hloop : forall fuel' k all_issues s,
             100 * k <= length db -> length db <= 100 * (k + fuel') -> 0 < fuel' ->
             exists rest s',
               fetch_pages G fuel' epic_key (Z.of_nat (100 * k)) all_issues s
               = (Ok (all_issues ++ rest)%list, s')
               /\ incl rest db
               /\ length rest + (Nat.min 100 (length db - 100 * k)
                                 - Nat.min cap (length db - 100 * k))
                  <= length db - 100 * k).
  { induction fuel' as [|fuel' IH]; intros k all_issues s Hk Hlen Hpos; [lia |].
    cbn [fetch_pages]. unfold bind at 1.
    rewrite (fetch_page_reply k all_issues (firstn cap (skipn (100 * k) db)) 200 _ s
               (Hserve _ k Hk) eq_refl eq_refl).
    cbn [assoc String.eqb Ascii.eqb Bool.eqb]. unfold reached, as_int, max_results.
    cbn [rbind fst snd].
    assert (Hpage : length (firstn cap (skipn (100 * k) db))
                    = Nat.min cap (length db - 100 * k))
      by now rewrite length_firstn, length_skipn.
    assert (Hin : incl (firstn cap (skipn (100 * k) db)) db).
    { intros x Hx. rewrite <- (firstn_skipn (100 * k) db). apply in_or_app. right.
      rewrite <- (firstn_skipn cap (skipn (100 * k) db)). apply in_or_app. now left. }
    destruct (Z.leb_spec (Z.of_nat (length db)) (Z.of_nat (100 * k) + 100)) as [Hstop|Hgo].
    - do 2 eexists. split; [reflexivity |]. split; [exact Hin | lia].
    - replace (Z.of_nat (100 * k) + 100)%Z with (Z.of_nat (100 * S k)) by lia.
      destruct (IH (S k) (all_issues ++ firstn cap (skipn (100 * k) db))%list
                  {| sent := (sent s ++ [search_request base epic_key credentials
                                           (Z.of_nat (100 * k))])%list;
                     requirements_txt := requirements_txt s |})
        as (rest & s' & Hrun & Hrest & Hcount); try lia.
      exists (firstn cap (skipn (100 * k) db) ++ rest)%list, s'.
      split; [now rewrite Hrun, <- app_assoc |].
      split; [now apply incl_app |].
      rewrite List.length_app, Hpage. lia. }
  destruct (Hloop fuel 0 [] st) as (all & st' & Hrun & Hin & Hcount); try lia.
  cbn [app] in Hrun.
  assert (Hall : Forall has_stamp all).
  { rewrite Forall_forall in *. intros x Hx. apply Hstamps, Hin, Hx. }
  destruct (sorted_by_updated_desc_spec all Hall) as (out & Hsorted & Hperm & _).
  exists out, st'. split.
  - unfold get_jira_issues, bind, lift. change 0%Z with (Z.of_nat (100 * 0)).
    now rewrite Hrun, Hsorted.
  - split.
    + intros x Hx. apply Hin. now apply (Permutation_in _ Hperm).
    + rewrite (Permutation_length Hperm). rewrite Nat.mul_0_r, Nat.sub_0_r in Hcount. lia.
Qed.

End Pages.

Lemma failing_page_discards_all_witness :
  let H := demo_host (staged_tracker 100 (Some 1) tracker_db) in
  exists st',
    get_jira_issues demo_namespace 3 (VStr "PROJ-1") initial = (Raise ConnectionError, st')
    /\ length (sent st') = 2.
Proof.
  intros H.
  destruct (failing_page_discards_all (H := H) demo_namespace (VStr "PROJ-1")
              (VStr "https://jira.example") (VStr "bot", VStr "t1") eq_refl eq_refl
              tracker_db 1 3 initial) as (st' & Hrun & Hsent).
  - intros history k Hk. assert (k = 0) as -> by lia. vm_compute. reflexivity.
  - intros history. vm_compute. reflexivity.
  - assert (Hlen : length tracker_db = 150) by reflexivity. rewrite Hlen. lia.
  - lia.
  - exists st'. split; [exact Hrun |]. now rewrite Hsent.
Defined.

Lemma growing_total_never_ends_witness :
  let H := demo_host growing_tracker in
  exists st',
    get_jira_issues demo_namespace 40 (VStr "PROJ-1") initial = (OutOfFuel, st')
    /\ length (sent st') = 40.
Proof.
  intros H.
  apply (growing_total_never_ends (H := H) demo_namespace (VStr "PROJ-1")
           (VStr "https://jira.example") (VStr "bot", VStr "t1") eq_refl eq_refl 40 initial).
  intros history req. reflexivity.
Defined.

Lemma missing_total_stops_at_first_page_witness :
  let H := demo_host (fixed_server (json_reply (VDict [("issues", VList demo_issues)]))) in
  exists out,
    get_jira_issues demo_namespace 1 (VStr "PROJ-1") initial
    = (Ok out,
       {| sent := [search_request (VStr "https://jira.example") (VStr "PROJ-1")
                     (VStr "bot", VStr "t1") 0];
          requirements_txt := true |})
    /\ Permutation out demo_issues
    /\ StronglySorted newer_first out.
Proof.
  intros H.
  apply (missing_total_stops_at_first_page (H := H) demo_namespace (VStr "PROJ-1")
           (VStr "https://jira.example") (VStr "bot", VStr "t1") eq_refl eq_refl 0
           demo_issues 200 [("issues", VList demo_issues)] initial
           eq_refl eq_refl eq_refl eq_refl).
  repeat constructor; eexists; reflexivity.
Defined.

Lemma short_pages_lose_issues_witness :
  let H := demo_host (staged_tracker 50 None tracker_db) in
  exists out st',
    get_jira_issues demo_namespace 3 (VStr "PROJ-1") initial = (Ok out, st')
    /\ (forall x, In x out -> In x tracker_db)
    /\ length out < length tracker_db.
Proof.
  intros H.
  assert (Hlen : length tracker_db = 150) by reflexivity.
  apply (short_pages_lose_issues (H := H) demo_namespace (VStr "PROJ-1")
           (VStr "https://jira.example") (VStr "bot", VStr "t1") eq_refl eq_refl
           tracker_db 50 3 initial).
  - intros history k Hk. rewrite Hlen in Hk.
    assert (Hcases : k = 0 \/ k = 1) by lia.
    destruct Hcases as [-> | ->]; vm_compute; reflexivity.
  - exact (stamped_has_stamp tracker_db tracker_db_stamps).
  - lia.
  - rewrite Hlen. lia.
  - rewrite Hlen. lia.
Defined.

(** ** Tracker: what the sort keeps and what it refuses *)

Section Stable.

Variable K : Type.
Variable ltb : K -> K -> bool.
Variable sel : K -> bool.
Hypothesis sel_level : forall a b, sel a = true -> sel b = true -> ltb a b = false.

Lemma filter_insert_desc (x : K * pyval) (l : list (K * pyval)) :
  filter (fun p => sel (fst p)) (insert_desc ltb x l)
  = filter (fun p => sel (fst p)) (x :: l).
Proof.
  induction l as [|y ys IH]; [reflexivity |].
  cbn [insert_desc]. destruct (ltb (fst x) (fst y)) eqn:Hxy; [| reflexivity].
  cbn [filter] in *. rewrite IH.
  destruct (sel (fst x)) eqn:Hx, (sel (fst y)) eqn:Hy; try reflexivity.
  rewrite (sel_level _ _ Hx Hy) in Hxy. discriminate.
Qed.

Lemma filter_sort_desc (l : list (K * pyval)) :
  filter (fun p => sel (fst p)) (sort_desc ltb l) = filter (fun p => sel (fst p)) l.
Proof.
  induction l as [|x l IH]; [reflexivity |].
  cbn [sort_desc fold_right]. fold (sort_desc ltb l).
  rewrite filter_insert_desc. cbn [filter]. now rewrite IH.
Qed.

End Stable.

Lemma string_compare_refl (s : string) : String.compare s s = Eq.
Proof.
  induction s as [|a s IH]; simpl; [reflexivity |].
  now rewrite ascii_compare_refl.
Qed.

Lemma filter_map_snd {A B} (f : B -> bool) (l : list (A * B)) :
  filter f (map snd l) = map snd (filter (fun p => f (snd p)) l).
Proof.
  induction l as [|p l IH]; simpl; [reflexivity |].
  destruct (f (snd p)); simpl; now rewrite IH.
Qed.

Lemma filter_ext_Forall {A} (f g : A -> bool) (l : list A) :
  Forall (fun x => f x = g x) l -> filter f l = filter g l.
Proof.
  induction 1 as [|x l Hx _ IH]; simpl; [reflexivity |].
  now rewrite Hx, IH.
Qed.

Section SortEdges.

Context {H : Host}.

(** The sort keeps the tracker's order among issues with the same stamp. *)
Lemma sorted_by_updated_desc_stable (items : list pyval) (s : string) :
  Forall has_stamp items ->
  exists out,
    sorted_by_updated_desc items = Ok out /\ with_stamp s out = with_stamp s items.
Proof.
  intros Hst. rewrite (sorted_by_updated_desc_stamps items Hst). eexists.
  split; [reflexivity |].
  set (pairs := combine (map updated_text items) items).
  assert (Hpairs : Forall (fun p => fst p = updated_text (snd p)) pairs).
  { subst pairs. clear Hst. induction items as [|x l IH]; simpl; constructor; auto. }
  assert (Hitems : map snd pairs = items)
    by (subst pairs; apply map_snd_combine; now rewrite length_map).
  unfold with_stamp. clearbody pairs. rewrite <- Hitems. rewrite !filter_map_snd. f_equal.
  rewrite (filter_ext_Forall (fun p => String.eqb (updated_text (snd p)) s)
             (fun p => String.eqb (fst p) s) (sort_desc String.ltb pairs)).
  - rewrite (filter_ext_Forall (fun p => String.eqb (updated_text (snd p)) s)
               (fun p => String.eqb (fst p) s) pairs).
    + apply (filter_sort_desc string String.ltb (fun k => String.eqb k s)).
      intros a b Ha Hb. apply String.eqb_eq in Ha, Hb. subst.
      unfold String.ltb. now rewrite string_compare_refl.
    + apply (Forall_impl _ (P := fun p => fst p = updated_text (snd p))); [| exact Hpairs].
      intros p Hp. now rewrite Hp.
  - apply (Forall_impl _ (P := fun p => fst p = updated_text (snd p))).
    + intros p Hp. now rewrite Hp.
    + apply (Permutation_Forall (Permutation_sym (sort_desc_perm _ String.ltb pairs))).
      exact Hpairs.
Qed.

Lemma str_keys_none (ks : list pyval) : In VNone ks -> str_keys ks = None.
Proof.
  induction ks as [|k ks IH]; intros Hin; [contradiction |].
  destruct Hin as [-> | Hin]; [reflexivity |].
  destruct k; simpl; try reflexivity. now rewrite IH.
Qed.

Lemma int_keys_none (ks : list pyval) : In VNone ks -> int_keys ks = None.
Proof.
  induction ks as [|k ks IH]; intros Hin; [contradiction |].
  destruct Hin as [-> | Hin]; [reflexivity |].
  destruct k; simpl; try reflexivity; now rewrite IH.
Qed.

Lemma is_list_none (ks : list pyval) : In VNone ks -> forallb is_list ks = false.
Proof.
  induction ks as [|k ks IH]; intros Hin; [contradiction |].
  destruct Hin as [-> | Hin]; [reflexivity |].
  simpl. rewrite IH by assumption. apply andb_false_r.
Qed.

(** A null stamp cannot be compared with anything. *)
Lemma sorted_by_updated_desc_null (items : list pyval) :
  2 <= length items ->
  Forall (fun x => exists v, updated_key x = Ok v) items ->
  Exists (fun x => updated_key x = Ok VNone) items ->
  sorted_by_updated_desc items = Raise TypeError.
Proof.
  intros Hlen Hkeys Hnull.
  assert (Hks : exists ks, mapR updated_key items = Ok ks /\ In VNone ks).
  { clear Hlen. induction Hkeys as [|x l [v Hv] Hl IH]; [inversion Hnull |].
    simpl. rewrite Hv. cbn [rbind].
    inversion Hnull as [? ? Hx | ? ? Hrest]; subst.
    - assert (v = VNone) as -> by congruence.
      clear IH Hnull.
      assert (Hall : exists ks, mapR updated_key l = Ok ks).
      { induction Hl as [|y l' [w Hw] _ IHl]; [now exists [] |].
        destruct IHl as [ks Hks]. simpl. rewrite Hw, Hks. eexists. reflexivity. }
      destruct Hall as [ks ->]. eexists. split; [reflexivity | now left].
    - destruct (IH Hrest) as (ks & -> & Hin). eexists. split; [reflexivity | now right]. }
  destruct Hks as (ks & Hks & Hin). unfold sorted_by_updated_desc. rewrite Hks. cbn [rbind].
  destruct items as [|x [|y rest]]; simpl in Hlen; try lia.
  now rewrite (str_keys_none ks Hin), (int_keys_none ks Hin), (is_list_none ks Hin).
Qed.

End SortEdges.

(** X10.  The sort is stable: against the tracker of C3, the issues that
    share a stamp come back in the order the tracker lists them. *)
Theorem equal_stamps_keep_tracker_order (H : Host) (G : namespace) (epic_key base : pyval)
  (credentials : pyval * pyval) (db : list pyval) (fuel : nat) (st : state) (s : string) :
  CONFIG2 G "jira" "url" = Ok base ->
  basic_auth G "jira" = Ok credentials ->
  (forall history k,
      100 * k <= length db ->
      server history (search_request base epic_key credentials (Z.of_nat (100 * k)))
      = Response 200 (Some (tracker_page db (100 * k)))) ->
  Forall has_stamp db ->
  length db < 100 * fuel ->
  exists out st',
    get_jira_issues G fuel epic_key st = (Ok out, st')
    /\ with_stamp s out = with_stamp s db.
Proof.
  intros Hbase Hauth Htracker Hstamps Hfuel.
  destruct (fetch_pages_tracker G epic_key base credentials db Hbase Hauth Htracker fuel 0 st)
    as (n & st' & Hrun & _); try lia.
  destruct (sorted_by_updated_desc_stable db s Hstamps) as (out & Hsorted & Hsame).
  exists out, st'. split; [| exact Hsame].
  unfold get_jira_issues, bind, lift. change (Z.of_nat (100 * 0)) with 0%Z in Hrun.
  change (firstn (100 * 0) db) with (@nil pyval) in Hrun.
  now rewrite Hrun, Hsorted.
Qed.

(** X11.  One issue whose [updated] is null among two or more makes the
    sort raise TypeError: [get_jira_issues] fetches every page and then
    raises, and the error is not the ConnectionError of the tracker. *)
Theorem null_stamp_raises (H : Host) (G : namespace) (epic_key base : pyval)
  (credentials : pyval * pyval) (db : list pyval) (fuel : nat) (st : state) :
  CONFIG2 G "jira" "url" = Ok base ->
  basic_auth G "jira" = Ok credentials ->
  (forall history k,
      100 * k <= length db ->
      server history (search_request base epic_key credentials (Z.of_nat (100 * k)))
      = Response 200 (Some (tracker_page db (100 * k)))) ->
  2 <= length db ->
  Forall (fun x => exists v, updated_key x = Ok v) db ->
  Exists (fun x => updated_key x = Ok VNone) db ->
  length db < 100 * fuel ->
  exists st',
    get_jira_issues G fuel epic_key st = (Raise TypeError, st')
    /\ length (sent st') > length (sent st).
Proof.
  intros Hbase Hauth Htracker Htwo Hkeys Hnull Hfuel.
  destruct (fetch_pages_tracker G epic_key base credentials db Hbase Hauth Htracker fuel 0 st)
    as (n & st' & Hrun & Hsent & Hn & _); try lia.
  exists st'. split.
  - unfold get_jira_issues, bind, lift. change (Z.of_nat (100 * 0)) with 0%Z in Hrun.
    change (firstn (100 * 0) db) with (@nil pyval) in Hrun.
    now rewrite Hrun, (sorted_by_updated_desc_null db Htwo Hkeys Hnull).
  - rewrite Hsent, List.length_app, length_map, length_seq. lia.
Qed.

Lemma equal_stamps_keep_tracker_order_witness :
  let H := demo_host (tracker_server tracker_db) in
  exists out st',
    get_jira_issues demo_namespace 3 (VStr "PROJ-1") initial = (Ok out, st')
    /\ with_stamp "2024-01-17" out = with_stamp "2024-01-17" tracker_db
    /\ 2 <= length (with_stamp "2024-01-17" tracker_db).
Proof.
  intros H.
  assert (Hlen : length tracker_db = 150) by reflexivity.
  destruct (equal_stamps_keep_tracker_order H demo_namespace (VStr "PROJ-1")
              (VStr "https://jira.example") (VStr "bot", VStr "t1") tracker_db 3 initial
              "2024-01-17" eq_refl eq_refl) as (out & st' & Hrun & Hsame).
  - intros history k Hk. rewrite Hlen in Hk.
    assert (Hcases : k = 0 \/ k = 1) by lia.
    destruct Hcases as [-> | ->]; vm_compute; reflexivity.
  - exact (stamped_has_stamp tracker_db tracker_db_stamps).
  - rewrite Hlen. lia.
  - exists out, st'. split; [exact Hrun |]. split; [exact Hsame |].
    vm_compute. repeat constructor.
Defined.

Lemma null_stamp_raises_witness :
  let H := demo_host (tracker_server null_stamp_db) in
  exists st',
    get_jira_issues demo_namespace 1 (VStr "PROJ-1") initial = (Raise TypeError, st')
    /\ length (sent st') > length (sent initial).
Proof.
  intros H.
  apply (null_stamp_raises H demo_namespace (VStr "PROJ-1")
           (VStr "https://jira.example") (VStr "bot", VStr "t1") null_stamp_db 1 initial
           eq_refl eq_refl).
  - intros history k Hk. simpl in Hk. assert (k = 0) as -> by lia. vm_compute. reflexivity.
  - simpl. lia.
  - repeat constructor; eexists; reflexivity.
  - apply Exists_cons_tl, Exists_cons_hd. reflexivity.
  - simpl. lia.
Defined.

(** ** Summarizer: what comes back *)

Section Answers.

Context {H : Host}.
Variable G : namespace.

(** X12.  On a reply that is no failure and carries a JSON object, the
    analysis is the content of the message of the first choice, whatever
    follows it; a reply without [choices], or a first choice without
    [message] or without [content], gives the text "Анализ недоступен",
    which is not the placeholder of a failure. *)
Theorem analysis_is_first_choice (issues : list pyval)
  (epic_summary api_key model api_url : pyval) (text : string) (code : Z)
  (kvs : list (string * pyval)) (st : state) :
  CONFIG2 G "deepseek" "api_key" = Ok api_key ->
  CONFIG2 G "deepseek" "model" = Ok model ->
  CONFIG2 G "deepseek" "api_url" = Ok api_url ->
  tasks_text issues = Ok text ->
  server (sent st) (deepseek_request api_key model api_url epic_summary text)
  = Response code (Some (VDict kvs)) ->
  error_status code = false ->
  (forall first others message content,
      assoc "choices" kvs = Some (VList (VDict first :: others)) ->
      assoc "message" first = Some (VDict message) ->
      assoc "content" message = Some content ->
      fst (analyze_with_deepseek G issues epic_summary st) = Ok content)
  /\ (assoc "choices" kvs = None ->
      fst (analyze_with_deepseek G issues epic_summary st) = Ok (VStr "Анализ недоступен"))
  /\ (forall first others,
        assoc "choices" kvs = Some (VList (VDict first :: others)) ->
        assoc "message" first = None ->
        fst (analyze_with_deepseek G issues epic_summary st) = Ok (VStr "Анализ недоступен"))
  /\ (forall first others message,
        assoc "choices" kvs = Some (VList (VDict first :: others)) ->
        assoc "message" first = Some (VDict message) ->
        assoc "content" message = None ->
        fst (analyze_with_deepseek G issues epic_summary st) = Ok (VStr "Анализ недоступен"))
  /\ VStr "Анализ недоступен" <> VStr placeholder.
Proof.
  intros Hkey Hmodel Hurl Htext Hreply Hcode.
  rewrite (analyze_run G issues epic_summary _ _ _ _ st Hkey Hmodel Hurl Htext), Hreply.
  cbn [fst summarizer_result]. rewrite Hcode. unfold choice_content, py_get.
  repeat split.
  - intros first others message content -> . cbn [rbind index0]. now intros -> ->.
  - now intros ->.
  - intros first others ->. cbn [rbind index0]. now intros ->.
  - intros first others message ->. cbn [rbind index0]. now intros -> ->.
  - discriminate.
Qed.

Lemma digest_line_outcome (i : nat) (issue : pyval) :
  (exists line, digest_line i issue = Ok line) \/ digest_line i issue = Raise AttributeError.
Proof.
  unfold digest_line, py_get.
  repeat match goal with
         | |- context [match ?c with _ => _ end] => destruct c; cbn [rbind]; eauto
         end.
Qed.

Lemma digest_lines_raise (issues : list pyval) :
  forall i, (exists issue j, In issue issues /\ digest_line j issue = Raise AttributeError
                             /\ forall k, digest_line k issue = Raise AttributeError) ->
            digest_lines i issues = Raise AttributeError.
Proof.
  induction issues as [|x rest IH]; intros i (issue & j & Hin & Hj & Hall); [contradiction |].
  cbn [digest_lines].
  destruct Hin as [-> | Hin].
  - now rewrite Hall.
  - destruct (digest_line_outcome i x) as [[line ->] | ->]; [| reflexivity].
    cbn [rbind]. rewrite (IH (S i)); [reflexivity |]. eauto.
Qed.

End Answers.

(** ** Issues with null fields *)

Section Nulls.

Context {H : Host}.
Variable G : namespace.

Lemma name_of_null (what : string) (fields : pyval) :
  py_get fields what (VDict []) = Ok VNone -> name_of fields what = Raise AttributeError.
Proof.
  intros Hn. unfold name_of. now rewrite Hn.
Qed.

Lemma digest_line_null (what : string) (issue : pyval) :
  In what ["status"; "issuetype"; "priority"] ->
  null_in_fields what issue ->
  forall i, digest_line i issue = Raise AttributeError.
Proof.
  intros Hwhat (fields & Hf & Hn) i.
  destruct (digest_line_outcome i issue) as [[line Hline] | Hraise]; [| exact Hraise].
  apply digest_line_inv in Hline
    as (fields' & key & type_name & summary & status_name & priority_name
        & _ & Hf' & Ht & _ & Hs & Hp & _).
  assert (fields' = fields) as -> by congruence.
  pose proof (name_of_null what fields Hn) as Hnull.
  simpl in Hwhat. destruct Hwhat as [<- | [<- | [<- | []]]]; congruence.
Qed.

Lemma render_row_null (what : string) (issue : pyval) :
  In what ["status"; "issuetype"; "priority"] ->
  null_in_fields what issue ->
  render_row G issue = Raise AttributeError.
Proof.
  intros Hwhat (fields & Hf & Hn).
  pose proof (name_of_null what fields Hn) as Hnull.
  unfold render_row. rewrite Hf. cbn [rbind].
  destruct issue; try discriminate. cbn [py_get rbind].
  destruct fields as [| | | | |fkvs]; try discriminate. cbn [py_get rbind].
  destruct (escape _) as [summary|e|] eqn:Hsum; cbn [rbind];
    [| unfold escape in Hsum;
       destruct (match assoc "summary" fkvs with Some v => v | None => VStr "N/A" end);
       congruence
     | unfold escape in Hsum;
       destruct (match assoc "summary" fkvs with Some v => v | None => VStr "N/A" end);
       congruence].
  simpl in Hwhat. destruct Hwhat as [<- | [<- | [<- | []]]].
  - now rewrite Hnull.
  - destruct (name_of (VDict fkvs) "status") as [v|e|] eqn:Hst; cbn [rbind].
    + destruct (escape v) as [s|e|] eqn:He; cbn [rbind].
      * now rewrite Hnull.
      * destruct v; simpl in He; congruence.
      * destruct v; simpl in He; congruence.
    + unfold name_of, py_get in Hst.
      destruct (match assoc "status" fkvs with Some v => v | None => VDict [] end);
        cbn [rbind] in Hst; congruence.
    + unfold name_of, py_get in Hst.
      destruct (match assoc "status" fkvs with Some v => v | None => VDict [] end);
        cbn [rbind] in Hst; congruence.
  - destruct (name_of (VDict fkvs) "status") as [v|e|] eqn:Hst; cbn [rbind].
    + destruct (escape v) as [s|e|] eqn:He; cbn [rbind].
      * destruct (name_of (VDict fkvs) "issuetype") as [v'|e|] eqn:Hty; cbn [rbind].
        -- destruct (escape v') as [s'|e|] eqn:He'; cbn [rbind].
           ++ now rewrite Hnull.
           ++ destruct v'; simpl in He'; congruence.
           ++ destruct v'; simpl in He'; congruence.
        -- unfold name_of, py_get in Hty.
           destruct (match assoc "issuetype" fkvs with Some v => v | None => VDict [] end);
             cbn [rbind] in Hty; congruence.
        -- unfold name_of, py_get in Hty.
           destruct (match assoc "issuetype" fkvs with Some v => v | None => VDict [] end);
             cbn [rbind] in Hty; congruence.
      * destruct v; simpl in He; congruence.
      * destruct v; simpl in He; congruence.
    + unfold name_of, py_get in Hst.
      destruct (match assoc "status" fkvs with Some v => v | None => VDict [] end);
        cbn [rbind] in Hst; congruence.
    + unfold name_of, py_get in Hst.
      destruct (match assoc "status" fkvs with Some v => v | None => VDict [] end);
        cbn [rbind] in Hst; congruence.
Qed.

Lemma generate_content_needs_rows (t : string) (issues : list pyval) (analysis epic_info : pyval)
  (issue : pyval) (e : exn) :
  In issue issues ->
  render_row G issue = Raise e ->
  exists e', generate_content G t issues analysis epic_info = Raise e'.
Proof.
  intros Hin Hrow.
  pose proof (generate_content_fuel H G t issues analysis epic_info) as Hfuel.
  destruct (generate_content G t issues analysis epic_info) as [d|e'|] eqn:Hd;
    [| eauto | now elim Hfuel].
  apply generate_content_inv in Hd as (k & s & de & rows & text & _ & _ & _ & Hr & _).
  apply mapR_Forall2 in Hr. clear -Hin Hrow Hr. exfalso.
  induction Hr as [|x row l rows Hx _ IH]; [contradiction |].
  destruct Hin as [-> | Hin]; [congruence | auto].
Qed.

End Nulls.

(** X13.  The digest and the renderer ask for the name of the status, of
    the issue type and of the priority with a default that covers a missing
    key only.  An issue in which one of the three is null makes its row
    raise AttributeError, so no document is rendered for a list that holds
    it; when it is among the first fifty, [analyze_with_deepseek] raises
    AttributeError before it sends anything. *)
Theorem null_name_aborts (H : Host) (G : namespace) (what : string) (issue : pyval)
  (issues : list pyval) :
  In what ["status"; "issuetype"; "priority"] ->
  In issue issues ->
  null_in_fields what issue ->
  render_row G issue = Raise AttributeError
  /\ (forall t analysis epic_info,
        exists e, generate_content G t issues analysis epic_info = Raise e)
  /\ (In issue (firstn 50 issues) ->
      forall epic_summary api_key st,
        CONFIG2 G "deepseek" "api_key" = Ok api_key ->
        analyze_with_deepseek G issues epic_summary st = (Raise AttributeError, st)).
Proof.
  intros Hwhat Hin Hnull.
  pose proof (render_row_null G what issue Hwhat Hnull) as Hrow.
  split; [exact Hrow |]. split.
  - intros t analysis epic_info.
    now apply (generate_content_needs_rows G t issues analysis epic_info issue AttributeError).
  - intros Hfirst epic_summary api_key st Hkey.
    unfold analyze_with_deepseek, bind, lift. rewrite Hkey.
    unfold tasks_text. rewrite (digest_lines_raise (firstn 50 issues) 0); [reflexivity |].
    exists issue, 0. split; [exact Hfirst |].
    split; [| intros k]; now apply (digest_line_null what).
Qed.

Lemma null_name_aborts_witness :
  let H := demo_host (demo_server NoReply []) in
  let issue := VDict [("key", VStr "PROJ-7");
                      ("fields", VDict [("summary", VStr "No priority");
                                        ("status", VDict [("name", VStr "Open")]);
                                        ("priority", VNone)])] in
  render_row demo_namespace issue = Raise AttributeError
  /\ analyze_with_deepseek demo_namespace (demo_issues ++ [issue]) (VStr "Launch") initial
     = (Raise AttributeError, initial).
Proof.
  intros H issue.
  destruct (null_name_aborts H demo_namespace "priority" issue (demo_issues ++ [issue]))
    as (Hrow & _ & Hdigest).
  - simpl. auto.
  - apply in_or_app. right. now left.
  - eexists. split; reflexivity.
  - split; [exact Hrow |].
    apply (Hdigest ltac:(simpl; auto) (VStr "Launch") (VStr "k") initial eq_refl).
Defined.

(** ** Renderer: cells *)




Section Cells.

Context {H : Host}.
Variable G : namespace.


(** X15.  The issue key and the tracker address go into the row as they
    are: unlike the other cells, the key is not passed through
    [html.escape], so whatever text it holds, markup included, is in the
    row. *)
Theorem key_embedded_unescaped (issue key : pyval) (row : string) :
  render_row G issue = Ok row ->
  py_get issue "key" (VStr "N/A") = Ok key ->
  forall m, contains m (py_str key) = true -> contains m row = true.
Proof.
  intros Hrow Hkey m Hm.
  apply render_row_inv in Hrow
    as (fields & key' & summary & status & issue_type & priority & assignee & updated
        & description & jira_url & _ & Hk & _ & _ & _ & _ & _ & _ & _ & _ & ->).
  assert (key' = key) as -> by congruence.
  unfold row_template. do 4 apply contains_app_r. now apply contains_app_l.
Qed.


End Cells.

Lemma key_embedded_unescaped_witness :
  let H := demo_host (demo_server NoReply []) in
  let issue := VDict [("key", VStr "<b>PROJ-7</b>"); ("fields", VDict [])] in
  exists row,
    render_row demo_namespace issue = Ok row /\ contains "<b>PROJ-7</b>" row = true.
Proof.
  intros H issue.
  assert (Hrow : exists row, render_row demo_namespace issue = Ok row) by (vm_compute; eauto).
  destruct Hrow as [row Hrow]. exists row. split; [exact Hrow |].
  apply (key_embedded_unescaped (H := H) demo_namespace issue (VStr "<b>PROJ-7</b>") row Hrow
           eq_refl).
  reflexivity.
Defined.


(** ** Publisher: the lookup and the pages it may hand over *)

Section Lookup.

Context {H : Host}.
Variable G : namespace.

(** X17.  On a reply that is no failure and carries a JSON object,
    [find_confluence_page] sends one GET with timeout 30 and returns the
    first entry of [results], whatever it is and whatever follows it, or
    [None] when the list is empty or the reply has no [results]. *)
Theorem find_returns_first (epic_key base space_key : pyval) (credentials : pyval * pyval)
  (code : Z) (kvs : list (string * pyval)) (st : state) :
  CONFIG2 G "confluence" "url" = Ok base ->
  CONFIG2 G "confluence" "space_key" = Ok space_key ->
  basic_auth G "confluence" = Ok credentials ->
  server (sent st) (find_request base space_key epic_key credentials)
  = Response code (Some (VDict kvs)) ->
  error_status code = false ->
  let st' := {| sent := (sent st ++ [find_request base space_key epic_key credentials])%list;
                requirements_txt := requirements_txt st |} in
  (forall page others,
      assoc "results" kvs = Some (VList (page :: others)) ->
      find_confluence_page G epic_key st = (Ok page, st'))
  /\ (assoc "results" kvs = Some (VList []) \/ assoc "results" kvs = None ->
      find_confluence_page G epic_key st = (Ok VNone, st'))
  /\ timeout (find_request base space_key epic_key credentials) = 30%Z
  /\ method (find_request base space_key epic_key credentials) = "GET".
Proof.
  intros Hbase Hspace Hauth Hreply Hcode st'.
  assert (Hrun : find_confluence_page G epic_key st
                 = (let results := match assoc "results" kvs with
                                   | Some v => v
                                   | None => VList []
                                   end in
                    if truthy results then index0 results else Ok VNone, st')).
  { unfold find_confluence_page, bind, lift, try_except, http.
    rewrite Hbase, Hspace, Hauth, Hreply. unfold raise_for_status. cbn [fst snd].
    rewrite Hcode. cbn [ret response_json snd py_get].
    destruct (truthy _); [| reflexivity].
    destruct (index0 _) as [v|e|] eqn:Hi; try reflexivity.
    unfold index0 in Hi.
    destruct (match assoc "results" kvs with Some v => v | None => VList [] end)
      as [| | | s | l |]; try (injection Hi as <-; reflexivity).
    - destruct (code_points s); [injection Hi as <-; reflexivity | discriminate].
    - destruct l; [injection Hi as <-; reflexivity | discriminate]. }
  rewrite Hrun. repeat split.
  - now intros page others ->.
  - now intros [-> | ->].
Qed.

(** X18.  What the lookup hands over decides the write before anything is
    sent.  Every false value ([None], an empty object...) leads to a
    creation; an object without [id], or with [id] and without [version],
    raises KeyError and no request goes out. *)
Theorem write_follows_lookup (page : pyval) (content : string)
  (epic_info key summary api_url space_key : pyval) (credentials : pyval * pyval)
  (st : state) :
  subscript epic_info "key" = Ok key ->
  subscript epic_info "summary" = Ok summary ->
  CONFIG2 G "confluence" "url" = Ok api_url ->
  basic_auth G "confluence" = Ok credentials ->
  CONFIG2 G "confluence" "space_key" = Ok space_key ->
  (truthy page = false ->
   exists req,
     update_request G page content epic_info = Ok req
     /\ method req = "POST"
     /\ url req = VStr (py_str api_url ++ "/rest/api/content"))
  /\ (forall a more,
        page = VDict (a :: more) ->
        assoc "id" (a :: more) = None
        \/ (assoc "id" (a :: more) <> None /\ assoc "version" (a :: more) = None) ->
        update_confluence_page G page content epic_info st = (Raise KeyError, st)).
Proof.
  intros Hkey Hsum Hurl Hauth Hspace. split.
  - intros Hfalse. unfold update_request.
    rewrite Hkey, Hsum, Hurl, Hauth. cbn [rbind]. rewrite Hfalse, Hspace.
    eexists. repeat split.
  - intros a more -> Hmissing.
    unfold update_confluence_page, update_request, bind, lift.
    rewrite Hkey, Hsum, Hurl, Hauth. cbn [rbind truthy]. unfold subscript at 1 2.
    destruct Hmissing as [Hid | [Hid Hver]].
    + now rewrite Hid.
    + destruct (assoc "id" (a :: more)); [| now elim Hid].
      cbn [rbind]. now rewrite Hver.
Qed.

End Lookup.

Lemma find_returns_first_witness :
  let H := demo_host (fixed_server (json_reply
             (VDict [("results", VList [page_of_previous_run])]))) in
  fst (find_confluence_page demo_namespace (VStr "PROJ-1") initial) = Ok page_of_previous_run.
Proof.
  intros H.
  destruct (find_returns_first (H := H) demo_namespace (VStr "PROJ-1")
              (VStr "https://wiki.example")
              (VStr "DOC") (VStr "bot", VStr "t2") 200
              [("results", VList [page_of_previous_run])] initial
              eq_refl eq_refl eq_refl eq_refl eq_refl) as (Hfirst & _).
  now rewrite (Hfirst page_of_previous_run [] eq_refl).
Defined.

Lemma write_follows_lookup_witness :
  let H := demo_host (wiki_server []) in
  let page := VDict [("id", VStr "77"); ("title", VStr "Статус эпика PROJ-1 - Launch")] in
  update_confluence_page demo_namespace page "body" launch_epic initial
  = (Raise KeyError, initial)
  /\ exists req, update_request demo_namespace (VDict []) "body" launch_epic = Ok req
                 /\ method req = "POST".
Proof.
  intros H page.
  split.
  - destruct (write_follows_lookup (H := H) demo_namespace page "body" launch_epic
                (VStr "PROJ-1") (VStr "Launch") (VStr "https://wiki.example") (VStr "DOC")
                (VStr "bot", VStr "t2") initial eq_refl eq_refl eq_refl eq_refl eq_refl)
      as (_ & Hbad).
    apply (Hbad _ _ eq_refl). right. split; [discriminate | reflexivity].
  - destruct (write_follows_lookup (H := H) demo_namespace (VDict []) "body" launch_epic
                (VStr "PROJ-1") (VStr "Launch") (VStr "https://wiki.example") (VStr "DOC")
                (VStr "bot", VStr "t2") initial eq_refl eq_refl eq_refl eq_refl eq_refl)
      as (Hnew & _).
    destruct (Hnew eq_refl) as (req & Hreq & Hm & _). eauto.
Defined.

(** ** Orchestration: what can leave [main] *)

Create HintDb tame.

Lemma tame_rbind {A B} (r : result A) (k : A -> result B) :
  tame r -> (forall a, tame (k a)) -> tame (rbind r k).
Proof.
  destruct r; simpl; auto.
Qed.

Lemma tame_Ok {A} (a : A) : tame (Ok a).
Proof. exact I. Qed.

Lemma tame_Raise {A} (e : exn) : is_Exception e = true -> tame (@Raise A e).
Proof. auto. Qed.

Lemma tame_py_get (d : pyval) (k : string) (v : pyval) : tame (py_get d k v).
Proof. destruct d; simpl; auto. Qed.

Lemma tame_subscript (d : pyval) (k : string) : tame (subscript d k).
Proof. destruct d; simpl; auto. destruct (assoc k kvs); simpl; auto. Qed.

Lemma tame_index0 (x : pyval) : tame (index0 x).
Proof.
  destruct x; simpl; auto.
  - destruct (code_points s); simpl; auto.
  - destruct l; simpl; auto.
Qed.

Lemma tame_slice10 (x : pyval) : tame (slice10 x).
Proof. destruct x; simpl; auto. Qed.

Lemma tame_as_int (x : pyval) : tame (as_int x).
Proof. destruct x; simpl; auto. Qed.

Lemma tame_escape (x : pyval) : tame (escape x).
Proof. destruct x; simpl; auto. Qed.

Lemma tame_iterate (x : pyval) : tame (iterate x).
Proof. destruct x; simpl; auto. Qed.

Lemma tame_updated_key (x : pyval) : tame (updated_key x).
Proof. unfold updated_key. apply tame_rbind; intros; apply tame_py_get. Qed.

Lemma tame_mapR {A B} (f : A -> result B) (l : list A) :
  (forall x, tame (f x)) -> tame (mapR f l).
Proof.
  intros Hf. induction l as [|x l IH]; simpl; [exact I |].
  apply tame_rbind; [apply Hf |]. intros y.
  apply tame_rbind; [exact IH |]. intros ys. exact I.
Qed.

#[local] Hint Resolve tame_Ok tame_py_get tame_subscript tame_index0 tame_slice10
  tame_as_int tame_escape tame_iterate tame_updated_key : tame.

Ltac tame_chain :=
  repeat (apply tame_rbind; [solve [auto with tame] | intros ?]); auto with tame.

Section Tame.

Context {H : Host}.
Variable G : namespace.

Lemma tame_load_CONFIG : tame (load_CONFIG G).
Proof.
  unfold load_CONFIG. destruct (lookup_name "CONFIG" G) as [[v|]|]; simpl; auto.
Qed.

Lemma tame_CONFIG2 (a b : string) : tame (CONFIG2 G a b).
Proof.
  unfold CONFIG2. apply tame_rbind; [apply tame_load_CONFIG | intros c]. tame_chain.
Qed.

Lemma tame_basic_auth (kind : string) : tame (basic_auth G kind).
Proof.
  unfold basic_auth.
  apply tame_rbind; [apply tame_CONFIG2 | intros user].
  apply tame_rbind; [apply tame_CONFIG2 | intros token]. exact I.
Qed.

Lemma tame_sorted (items : list pyval) : tame (sorted_by_updated_desc items).
Proof.
  unfold sorted_by_updated_desc.
  apply tame_rbind; [apply tame_mapR; auto with tame | intros ks].
  destruct items as [|x [|y rest]]; try exact I.
  destruct (str_keys ks); [exact I |]. destruct (int_keys ks); [exact I |].
  destruct (forallb is_list ks); [| reflexivity].
  destruct (sorted_by_list_keys _); [exact I | reflexivity].
Qed.

Lemma tame_name_of (fields : pyval) (what : string) : tame (name_of fields what).
Proof. unfold name_of. tame_chain. Qed.

Lemma tame_digest_lines (issues : list pyval) : forall i, tame (digest_lines i issues).
Proof.
  induction issues as [|x rest IH]; intros i; simpl; [exact I |].
  apply tame_rbind; [unfold digest_line; tame_chain | intros line].
  apply tame_rbind; [apply IH | intros lines; exact I].
Qed.

Lemma tame_tasks_text (issues : list pyval) : tame (tasks_text issues).
Proof.
  unfold tasks_text. apply tame_rbind; [apply tame_digest_lines | intros; exact I].
Qed.

Lemma tame_choice_content (data : pyval) : tame (choice_content data).
Proof. unfold choice_content. tame_chain. Qed.

Lemma tame_assignee_of (fields : pyval) : tame (assignee_of fields).
Proof.
  unfold assignee_of. apply tame_rbind; [auto with tame | intros test].
  destruct (truthy test); [tame_chain | exact I].
Qed.

Lemma tame_render_row (issue : pyval) : tame (render_row G issue).
Proof.
  unfold render_row.
  repeat (apply tame_rbind;
          [first [apply tame_name_of | apply tame_assignee_of | apply tame_CONFIG2
                 | solve [auto with tame]]
          | intros ?]).
  exact I.
Qed.

Lemma tame_render_rows (issues : list pyval) : forall acc, tame (render_rows G issues acc).
Proof.
  induction issues as [|x rest IH]; intros acc; simpl; [exact I |].
  apply tame_rbind; [apply tame_render_row | intros row; apply IH].
Qed.

Lemma tame_break_lines (analysis : pyval) : tame (break_lines analysis).
Proof. destruct analysis; simpl; auto. Qed.

Lemma tame_generate_content (t : string) (issues : list pyval) (analysis epic_info : pyval) :
  tame (generate_content G t issues analysis epic_info).
Proof.
  unfold generate_content.
  repeat (apply tame_rbind;
          [first [apply tame_render_rows | apply tame_break_lines | solve [auto with tame]]
          | intros ?]).
  exact I.
Qed.

Lemma tame_update_request (page : pyval) (content : string) (epic_info : pyval) :
  tame (update_request G page content epic_info).
Proof.
  unfold update_request.
  repeat (apply tame_rbind;
          [first [apply tame_CONFIG2 | apply tame_basic_auth | solve [auto with tame]]
          | intros ?]).
  destruct (truthy page);
    repeat (apply tame_rbind; [first [apply tame_CONFIG2 | solve [auto with tame]] | intros ?]);
    exact I.
Qed.

Lemma tameM_lift {A} (r : result A) : tame r -> tameM (lift r).
Proof. intros Hr st. exact Hr. Qed.

Lemma tameM_ret {A} (a : A) : tameM (ret a).
Proof. intros st. exact I. Qed.

Lemma tameM_bind {A B} (c : M A) (k : A -> M B) :
  tameM c -> (forall a, tameM (k a)) -> tameM (bind c k).
Proof.
  intros Hc Hk st. unfold bind. specialize (Hc st).
  destruct (c st) as [[a|e|] st']; simpl in *; auto. apply Hk.
Qed.

Lemma tameM_try {A} (c : M A) (catches : exn -> bool) (handler : exn -> M A) :
  tameM c -> (forall e, tameM (handler e)) -> tameM (try_except c catches handler).
Proof.
  intros Hc Hh st. unfold try_except. specialize (Hc st).
  destruct (c st) as [[a|e|] st']; simpl in *; auto.
  destruct (catches e); [apply Hh | exact Hc].
Qed.

Lemma tameM_http (req : request) : tameM (http req).
Proof.
  intros st. unfold http. destruct (server (sent st) req); simpl; auto.
Qed.

Lemma tameM_raise_for_status (response : Z * option pyval) : tameM (raise_for_status response).
Proof.
  intros st. unfold raise_for_status. destruct (error_status (fst response)); simpl; auto.
Qed.

Lemma tameM_response_json (response : Z * option pyval) : tameM (response_json response).
Proof.
  intros st. unfold response_json. destruct (snd response); simpl; auto.
Qed.

Lemma tameM_ConnectionError {A} : tameM (@raise A ConnectionError).
Proof. intros st. reflexivity. Qed.

Lemma tameM_get_epic_info (epic_key : pyval) : tameM (get_epic_info G epic_key).
Proof.
  unfold get_epic_info.
  apply tameM_bind; [apply tameM_lift, tame_CONFIG2 | intros base].
  apply tameM_try; [| intros e; apply tameM_ConnectionError].
  apply tameM_bind; [apply tameM_lift, tame_basic_auth | intros credentials].
  apply tameM_bind; [apply tameM_http | intros response].
  apply tameM_bind; [apply tameM_raise_for_status | intros u].
  apply tameM_bind; [apply tameM_response_json | intros body].
  apply tameM_bind; [apply tameM_lift; auto with tame | intros fields].
  apply tameM_bind; [apply tameM_lift; auto with tame | intros summary].
  apply tameM_bind; [apply tameM_lift; auto with tame | intros description].
  apply tameM_ret.
Qed.

Lemma tameM_fetch_page (epic_key : pyval) (start_at : Z) (all_issues : list pyval) :
  tameM (fetch_page G epic_key start_at all_issues).
Proof.
  unfold fetch_page.
  apply tameM_bind; [apply tameM_lift, tame_CONFIG2 | intros base].
  apply tameM_try; [| intros e; apply tameM_ConnectionError].
  apply tameM_bind; [apply tameM_lift, tame_basic_auth | intros credentials].
  apply tameM_bind; [apply tameM_http | intros response].
  apply tameM_bind; [apply tameM_raise_for_status | intros u].
  apply tameM_bind; [apply tameM_response_json | intros data].
  apply tameM_bind; [apply tameM_lift; tame_chain | intros issues].
  apply tameM_bind; [apply tameM_lift; auto with tame | intros total].
  apply tameM_bind; [apply tameM_lift; unfold reached; tame_chain | intros stop].
  apply tameM_ret.
Qed.

Lemma tameM_fetch_pages (fuel : nat) (epic_key : pyval) :
  forall start_at all_issues, tameM (fetch_pages G fuel epic_key start_at all_issues).
Proof.
  induction fuel as [|fuel IH]; intros start_at all_issues; cbn [fetch_pages].
  - intros st. exact I.
  - apply tameM_bind; [apply tameM_fetch_page | intros turn].
    destruct (snd turn); [apply tameM_ret | apply IH].
Qed.

Lemma tameM_get_jira_issues (fuel : nat) (epic_key : pyval) :
  tameM (get_jira_issues G fuel epic_key).
Proof.
  unfold get_jira_issues. apply tameM_bind; [apply tameM_fetch_pages | intros all].
  apply tameM_lift, tame_sorted.
Qed.

Lemma tameM_analyze (issues : list pyval) (epic_summary : pyval) :
  tameM (analyze_with_deepseek G issues epic_summary).
Proof.
  unfold analyze_with_deepseek.
  apply tameM_bind; [apply tameM_lift, tame_CONFIG2 | intros api_key].
  apply tameM_bind; [apply tameM_lift, tame_tasks_text | intros text].
  apply tameM_bind; [apply tameM_lift, tame_CONFIG2 | intros model].
  apply tameM_try; [| intros e; apply tameM_ret].
  apply tameM_bind; [apply tameM_lift, tame_CONFIG2 | intros api_url].
  apply tameM_bind; [apply tameM_http | intros response].
  apply tameM_bind; [apply tameM_raise_for_status | intros u].
  apply tameM_bind; [apply tameM_response_json | intros data].
  apply tameM_lift, tame_choice_content.
Qed.

Lemma tameM_find (epic_key : pyval) : tameM (find_confluence_page G epic_key).
Proof.
  unfold find_confluence_page.
  apply tameM_bind; [apply tameM_lift, tame_CONFIG2 | intros base].
  apply tameM_bind; [apply tameM_lift, tame_CONFIG2 | intros space_key].
  apply tameM_try; [| intros e; apply tameM_ConnectionError].
  apply tameM_bind; [apply tameM_lift, tame_basic_auth | intros credentials].
  apply tameM_bind; [apply tameM_http | intros response].
  apply tameM_bind; [apply tameM_raise_for_status | intros u].
  apply tameM_bind; [apply tameM_response_json | intros data].
  apply tameM_bind; [apply tameM_lift; auto with tame | intros results].
  destruct (truthy results); [apply tameM_lift; auto with tame | apply tameM_ret].
Qed.

Lemma tameM_update (page : pyval) (content : string) (epic_info : pyval) :
  tameM (update_confluence_page G page content epic_info).
Proof.
  unfold update_confluence_page.
  apply tameM_bind; [apply tameM_lift, tame_update_request | intros req].
  apply tameM_try; [| intros e; apply tameM_ConnectionError].
  apply tameM_bind; [apply tameM_http | intros response].
  apply tameM_bind; [apply tameM_raise_for_status | intros u].
  apply tameM_response_json.
Qed.

Lemma tameM_pipeline (fuel : nat) : tameM (pipeline G fuel).
Proof.
  unfold pipeline.
  apply tameM_bind;
    [apply tameM_lift, tame_rbind; [apply tame_load_CONFIG | auto with tame] | intros epic_key].
  apply tameM_bind; [apply tameM_get_epic_info | intros epic_info].
  apply tameM_bind; [apply tameM_get_jira_issues | intros issues].
  apply tameM_bind; [apply tameM_lift; auto with tame | intros epic_summary].
  apply tameM_bind; [apply tameM_analyze | intros analysis].
  apply tameM_bind; [apply tameM_lift, tame_generate_content | intros content].
  apply tameM_bind; [apply tameM_find | intros page].
  apply tameM_bind; [apply tameM_update | intros published].
  apply tameM_bind; [apply tameM_lift, tame_CONFIG2 | intros base].
  apply tameM_bind; [apply tameM_lift; tame_chain | intros webui].
  apply tameM_ret.
Qed.

End Tame.

Section Outcomes.

Context {H : Host}.
Variable G : namespace.

Lemma startup_outcome (st : state) :
  match fst (startup G st) with
  | Ok _ => True
  | Raise e => e = SystemExit 1 \/ is_Exception e = true
  | OutOfFuel => False
  end.
Proof.
  unfold startup, bind, raise, lift, ret.
  destruct import_guard.
  - pose proof (check_dependencies_outcome G) as Hc.
    destruct (check_dependencies G) as [u|e|]; simpl in *; [| exact Hc | contradiction].
    destruct (ensure_requirements_outcome st) as [(st' & -> & _) | ->]; simpl; auto.
  - destruct (ensure_requirements_outcome st) as [(st' & -> & _) | ->]; simpl; auto.
Qed.

Lemma startup_sent (st : state) : sent (snd (startup G st)) = sent st.
Proof.
  unfold startup, bind, raise, lift, ret.
  destruct import_guard.
  - destruct (check_dependencies G) as [u|e|]; simpl; auto.
    destruct (ensure_requirements_outcome st) as [(st' & -> & Hs) | ->]; simpl; auto.
  - destruct (ensure_requirements_outcome st) as [(st' & -> & Hs) | ->]; simpl; auto.
Qed.

End Outcomes.

(** Every case of the start-up checks and of the pipeline.  (The third
    outcome is the model's, for a loop that was not given steps enough.) *)
Lemma main_outcome (H : Host) (G : namespace) (fuel : nat) (st : state) :
  fst (main G fuel st) = Ok tt
  \/ fst (main G fuel st) = Raise (SystemExit 1)
  \/ fst (main G fuel st) = OutOfFuel.
Proof.
  pose proof (startup_outcome G st) as Hs.
  destruct (startup G st) as [[[]|e|] st0] eqn:Hst; simpl in Hs.
  - rewrite (main_after_startup G fuel st st0 Hst).
    pose proof (tameM_pipeline G fuel st0) as Hp.
    destruct (pipeline G fuel st0) as [[[]|e|] st1]; simpl in Hp.
    + left. reflexivity.
    + rewrite Hp. right. left. reflexivity.
    + right. right. reflexivity.
  - right. left. unfold main, try_except, main_body, bind. rewrite Hst.
    destruct Hs as [-> | He]; [| rewrite He]; reflexivity.
  - contradiction.
Qed.

(** X19.  No exception that [except Exception] catches leaves [main], and
    when [main] exits through SystemExit the status is 1: whatever the
    namespace, the host and the peers, an exception of a stage comes out as
    exit status 1, and the two [sys.exit] of the start-up give no other
    status. *)
Theorem main_exit_status (H : Host) (G : namespace) (fuel : nat) (st st' : state) (e : exn) :
  main G fuel st = (Raise e, st') ->
  is_Exception e = false /\ (forall status, e = SystemExit status -> status = 1%Z).
Proof.
  intros Hmain.
  assert (He : e = SystemExit 1).
  { destruct (main_outcome H G fuel st) as [Hr | [Hr | Hr]];
      rewrite Hmain in Hr; simpl in Hr; congruence. }
  subst e. split; [reflexivity |]. now intros status [= <-].
Qed.

Lemma main_exit_status_witness :
  let H := demo_host (demo_server NoReply []) in
  exists e st',
    main module_namespace 5 initial = (Raise e, st')
    /\ is_Exception e = false
    /\ (forall status, e = SystemExit status -> status = 1%Z).
Proof.
  intros H.
  assert (Hrun : exists e st', main module_namespace 5 initial = (Raise e, st'))
    by (vm_compute; eauto).
  destruct Hrun as (e & st' & Hrun).
  exists e, st'. split; [exact Hrun |].
  exact (main_exit_status H module_namespace 5 initial st' e Hrun).
Defined.

(** ** Orchestration: the requests of a run *)







Section Trace.

Context {H : Host}.
Variable G : namespace.











End Trace.






(** ** Start-up checks *)

Section Checks.

Context {H : Host}.
Variable G : namespace.

Lemma probe_settled (req : string * (string * string)) :
  settled req ->
  (fine req /\ probe (with_imports G) (fst req) (fst (snd req)) (snd (snd req)) = Ok [])
  \/ (~ fine req
      /\ ((exists entry, probe (with_imports G) (fst req) (fst (snd req)) (snd (snd req))
                         = Ok [entry])
          \/ probe (with_imports G) (fst req) (fst (snd req)) (snd (snd req))
             = Raise ImportError)).
Proof.
  unfold settled, fine, probe, module_attr, with_imports. cbn [lookup_name String.eqb].
  simpl. intros [Himp | (v & b & Hv & Hb)].
  - right. rewrite Himp. split; [intros [Ht _]; discriminate | now right].
  - destruct (import_module (fst req)) eqn:Himp; cbn [rbind].
    + rewrite Hv. cbn [rbind]. rewrite Hb. cbn [rbind]. destruct b.
      * right. split; [intros (_ & v' & Hv' & Hb'); congruence | left; eauto].
      * left. split; [eauto | reflexivity].
    + right. split; [intros [Ht _]; discriminate | now right].
Qed.

Lemma missing_dependencies_settled (reqs : list (string * (string * string))) :
  Forall settled reqs ->
  forall missing,
    exists more,
      missing_dependencies (with_imports G) reqs missing = Ok (missing ++ more)%list
      /\ (more = [] <-> Forall fine reqs).
Proof.
  induction 1 as [|req reqs Hreq _ IH]; intros missing.
  - exists []. split; [cbn; now rewrite app_nil_r | split; auto].
  - destruct req as [package [min_version purpose]]. cbn [missing_dependencies].
    destruct (probe_settled (package, (min_version, purpose)) Hreq)
      as [[Hfine Hp] | [Hnot [[entry Hp] | Hp]]]; cbn [fst snd] in Hp; rewrite Hp.
    + destruct (IH (missing ++ [])%list) as (more & Hrun & Hiff).
      exists more. rewrite app_nil_r in Hrun. rewrite app_nil_r. split; [exact Hrun |].
      rewrite Hiff. split; [now constructor | intros Hall; now inversion Hall].
    + destruct (IH (missing ++ [entry])%list) as (more & Hrun & _).
      exists (entry :: more). rewrite Hrun, <- app_assoc. split; [reflexivity |].
      split; [discriminate | intros Hall; inversion Hall; contradiction].
    + destruct (IH (missing ++ [(package ++ ">=" ++ min_version ++ " - " ++ purpose)%string])%list)
        as (more & Hrun & _).
      eexists (_ :: more). rewrite Hrun, <- app_assoc. split; [reflexivity |].
      split; [discriminate | intros Hall; inversion Hall; contradiction].
Qed.

(** X22.  With [importlib] and [pkg_resources] bound as globals, and when
    no probe raises anything but ImportError: [check_dependencies] returns
    exactly when each of the three packages imports and is not older than
    required; otherwise it exits with status 1, after it has probed all
    three (an ImportError does not stop the loop). *)
Theorem check_dependencies_verdict :
  Forall settled required ->
  (check_dependencies (with_imports G) = Ok tt <-> Forall fine required)
  /\ (check_dependencies (with_imports G) = Raise (SystemExit 1) <-> ~ Forall fine required).
Proof.
  intros Hs. unfold check_dependencies.
  destruct (missing_dependencies_settled required Hs []) as (more & -> & Hiff).
  cbn [app rbind]. destruct more as [|entry more].
  - split; split; auto; try discriminate.
    + intros _. now apply Hiff.
    + intros Hnot. elim Hnot. now apply Hiff.
  - split; split; try discriminate; auto.
    + intros Hall. apply Hiff in Hall. discriminate.
    + intros _ Hall. apply Hiff in Hall. discriminate.
Qed.

(** X23.  When the start-up checks return, requirements.txt is there
    (written if it was not), and nothing has been sent. *)
Theorem startup_leaves_requirements (st st' : state) :
  startup G st = (Ok tt, st') ->
  requirements_txt st' = true /\ sent st' = sent st.
Proof.
  intros Hrun. split.
  - unfold startup, bind, raise, lift, ret in Hrun.
    destruct import_guard.
    + destruct (check_dependencies G); try discriminate.
      unfold ensure_requirements, create_default_requirements in Hrun.
      destruct (requirements_txt st) eqn:Hr.
      * now injection Hrun as <-.
      * destruct can_write; [now injection Hrun as <- | discriminate].
    + destruct (ensure_requirements st) as [[u|e|] s]; discriminate.
  - pose proof (startup_sent G st) as Hs. now rewrite Hrun in Hs.
Qed.

End Checks.

Lemma check_dependencies_verdict_witness :
  let H := demo_host (demo_server NoReply []) in
  check_dependencies (with_imports module_namespace) = Ok tt.
Proof.
  intros H.
  apply (check_dependencies_verdict (H := H) module_namespace).
  - unfold required.
    repeat (apply Forall_cons; [right; exists "99.0", false; split; reflexivity |]).
    apply Forall_nil.
  - unfold required.
    repeat (apply Forall_cons; [split; [reflexivity | exists "99.0"; split; reflexivity] |]).
    apply Forall_nil.
Defined.

Lemma startup_leaves_requirements_witness :
  let H := demo_host (demo_server NoReply []) in
  let st := {| sent := []; requirements_txt := false |} in
  requirements_txt (snd (startup demo_namespace st)) = true
  /\ sent (snd (startup demo_namespace st)) = [].
Proof.
  intros H st.
  apply (startup_leaves_requirements (H := H) demo_namespace st). reflexivity.
Defined.

(** ** An analysis that is no text *)

(** X24.  The analysis is used as it came back: when the summarizer's
    reply gives a [content] that is no string (null, a number, a list),
    [analyze_with_deepseek] returns it, rendering raises, and [main] exits
    with status 1 with the request to the summarizer as the last one sent:
    the document store is never asked. *)
Theorem non_text_analysis_aborts (H : Host) (G : namespace) (fuel : nat)
  (epic_key epic_info epic_summary analysis : pyval) (issues : list pyval)
  (st st0 st1 st2 st3 : state) :
  startup G st = (Ok tt, st0) ->
  (let? c := load_CONFIG G in subscript c "epic_key") = Ok epic_key ->
  get_epic_info G epic_key st0 = (Ok epic_info, st1) ->
  get_jira_issues G fuel epic_key st1 = (Ok issues, st2) ->
  subscript epic_info "summary" = Ok epic_summary ->
  analyze_with_deepseek G issues epic_summary st2 = (Ok analysis, st3) ->
  (forall s, analysis <> VStr s) ->
  (forall t, exists e, generate_content G t issues analysis epic_info = Raise e)
  /\ main G fuel st = (Raise (SystemExit 1), st3).
Proof.
  intros Hstart Hkey Hepic Hissues Hsum Hana Hno.
  assert (Hgen : forall t, exists e,
               generate_content G t issues analysis epic_info = Raise e
               /\ is_Exception e = true).
  { intros t.
    pose proof (tame_generate_content G t issues analysis epic_info) as Ht.
    pose proof (generate_content_fuel H G t issues analysis epic_info) as Hf.
    destruct (generate_content G t issues analysis epic_info) as [d|e|] eqn:Hd.
    - apply generate_content_inv in Hd.
      destruct Hd as (k & s & d' & rows & text & _ & _ & _ & _ & Hb & _).
      destruct analysis; try discriminate. now elim (Hno s0).
    - exists e. split; [reflexivity | exact Ht].
    - now elim Hf. }
  split.
  - intros t. destruct (Hgen t) as (e & He & _). eauto.
  - rewrite (main_after_startup G fuel st st0 Hstart).
    rewrite (pipeline_from_summarizer G fuel _ _ _ _ _ _ _ Hkey Hepic Hissues Hsum).
    unfold bind at 1. rewrite Hana.
    unfold bind at 1. unfold lift at 1.
    destruct (Hgen strftime) as (e & -> & ->). reflexivity.
Qed.

Lemma non_text_analysis_aborts_witness :
  let H := demo_host null_content_server in
  fst (main demo_namespace 5 initial) = Raise (SystemExit 1)
  /\ map url (sent (snd (main demo_namespace 5 initial)))
     = [VStr "https://jira.example/rest/api/3/issue/PROJ-1?fields=summary,description";
        url (search_request (VStr "https://jira.example") (VStr "PROJ-1")
               (VStr "bot", VStr "t1") 0);
        VStr "https://llm.example/chat"].
Proof.
  intros H.
  assert (Hrun : exists issues st2 st3,
             get_jira_issues demo_namespace 5 (VStr "PROJ-1")
               (snd (get_epic_info demo_namespace (VStr "PROJ-1") initial))
             = (Ok issues, st2)
             /\ analyze_with_deepseek demo_namespace issues (VStr "Launch") st2
                = (Ok VNone, st3)
             /\ map url (sent st3)
                = [VStr "https://jira.example/rest/api/3/issue/PROJ-1?fields=summary,description";
                   url (search_request (VStr "https://jira.example") (VStr "PROJ-1")
                          (VStr "bot", VStr "t1") 0);
                   VStr "https://llm.example/chat"]).
  { do 3 eexists. split; [vm_compute; reflexivity |].
    split; [vm_compute; reflexivity | reflexivity]. }
  destruct Hrun as (issues & st2 & st3 & Hissues & Hana & Hsent).
  destruct (non_text_analysis_aborts H demo_namespace 5 (VStr "PROJ-1") launch_epic
              (VStr "Launch") VNone issues initial initial _ st2 st3
              eq_refl eq_refl eq_refl Hissues eq_refl Hana) as [_ Hmain].
  { intros s. discriminate. }
  rewrite Hmain. split; [reflexivity | exact Hsent].
Defined.

Lemma analysis_is_first_choice_witness :
  let H := demo_host (fixed_server
                        (json_reply (VDict [("choices",
                                             VList [VDict [("message",
                                                            VDict [("content", VStr "On track")])];
                                                    VDict []])]))) in
  fst (analyze_with_deepseek demo_namespace demo_issues (VStr "Launch") initial)
  = Ok (VStr "On track").
Proof.
  intros H.
  assert (Htext : exists text, tasks_text demo_issues = Ok text)
    by (vm_compute; eauto).
  destruct Htext as (text & Htext).
  destruct (analysis_is_first_choice (H := H) demo_namespace demo_issues (VStr "Launch")
              (VStr "k") (VStr "m") (VStr "https://llm.example/chat") text 200
              [("choices", VList [VDict [("message", VDict [("content", VStr "On track")])];
                                  VDict []])]
              initial eq_refl eq_refl eq_refl Htext eq_refl eq_refl) as [Hfirst _].
  eapply Hfirst; reflexivity.
Defined.
